(** * alx_travel_app: bookings, Chapa payments and confirmation e-mails

    A shallow embedding of [listings/models.py], [listings/tasks.py] and
    [listings/views.py].  The Django tables are lists of rows in primary-key
    order, the request handlers are functions from a world (tables, Celery
    queue, log) to a response and a new world, and Python exceptions are an
    explicit result type.  Every [save()] and [create()] is committed on its
    own: [settings.py] sets neither [ATOMIC_REQUESTS] nor does any view open
    a [transaction.atomic] block, so Django runs in autocommit mode. *)

From Stdlib Require Import ZArith List Ascii String DecimalString Bool Lia.
Import ListNotations.

Local Open Scope string_scope.
Local Open Scope Z_scope.
Local Open Scope list_scope.

(** ** Python values *)

(** The object returned by [response.json()]. A [JObj] lists the items of
    the decoded dict, whose keys are distinct. *)
#[warnings="-register-all"]
Inductive json : Type :=
| JNull
| JBool (b : bool)
| JNum (n : Z)
| JStr (s : string)
| JArr (l : list json)
| JObj (items : list (string * json)).

(** Exception classes the handlers can meet. Only [RequestException] is
    singled out by an [except] clause; every class is an [Exception]. *)
Inductive exn : Type :=
| RequestException
| Http404
| DoesNotExist
| AttributeError
| KeyError
| TypeError
| ParseError
| UnsupportedMediaType
| DatabaseError
| OperationalError.

Definition is_RequestException (e : exn) : bool :=
  match e with RequestException => true | _ => false end.

Inductive res (A : Type) : Type :=
| Ok (a : A)
| Raise (e : exn).
Arguments Ok {A} a.
Arguments Raise {A} e.

Fixpoint assoc {V : Type} (k : string) (l : list (string * V)) : option V :=
  match l with
  | [] => None
  | (k', v) :: l' => if String.eqb k k' then Some v else assoc k l'
  end.

(** [d[k]] *)
Definition getitem (d : json) (k : string) : res json :=
  match d with
  | JObj items =>
      match assoc k items with
      | Some v => Ok v
      | None => Raise KeyError
      end
  | _ => Raise TypeError
  end.

(** [d.get(k)] and [d.get(k, default)] *)
Definition get (d : json) (k : string) (default : json) : res json :=
  match d with
  | JObj items =>
      match assoc k items with
      | Some v => Ok v
      | None => Ok default
      end
  | _ => Raise AttributeError
  end.

(** [j == s] for a string literal [s] *)
Definition eq_str (j : json) (s : string) : bool :=
  match j with
  | JStr s' => String.eqb s' s
  | _ => false
  end.

(** [a or b] on strings: the empty string is falsy. *)
Definition str_or (a b : string) : string :=
  if String.eqb a "" then b else a.

(** The truth value of a decoded value, which [not v] and [v or w] go by:
    [None], [False], zero and the empty string, list and dict are false. *)
Definition truthy (v : json) : bool :=
  match v with
  | JNull => false
  | JBool b => b
  | JNum n => negb (n =? 0)
  | JStr s => negb (String.eqb s "")
  | JArr [] => false
  | JArr (_ :: _) => true
  | JObj [] => false
  | JObj (_ :: _) => true
  end.

(** [repr(s)] of a string, whose characters are read as the code points
    below 256: single quotes, unless the string has one and no double
    quote; the quote in use and the backslash escaped; tab, newline and
    return by their letters, any other character that does not print by
    its two hexadecimal digits. *)
Definition single_quote : ascii := ascii_of_nat 39.
Definition double_quote : ascii := ascii_of_nat 34.
Definition backslash : ascii := ascii_of_nat 92.

Fixpoint contains (c : ascii) (s : string) : bool :=
  match s with
  | EmptyString => false
  | String c' s' => Ascii.eqb c c' || contains c s'
  end.

Definition hex_digit (n : nat) : ascii :=
  nth n (list_ascii_of_string "0123456789abcdef") "0"%char.

Definition isprintable (c : ascii) : bool :=
  let n := nat_of_ascii c in
  (Nat.leb 32 n && Nat.leb n 126) || (Nat.leb 161 n && negb (Nat.eqb n 173)).

Definition repr_char (quote c : ascii) : string :=
  let n := nat_of_ascii c in
  if Ascii.eqb c quote || Ascii.eqb c backslash then
    String backslash (String c EmptyString)
  else if Nat.eqb n 9 then "\t"
  else if Nat.eqb n 10 then "\n"
  else if Nat.eqb n 13 then "\r"
  else if isprintable c then String c EmptyString
  else String backslash
         (String "x" (String (hex_digit (Nat.div n 16))
                        (String (hex_digit (Nat.modulo n 16)) EmptyString))).

Definition repr_str (s : string) : string :=
  let quote := if contains single_quote s && negb (contains double_quote s)
               then double_quote else single_quote in
  String quote
    (String.append
       (String.concat "" (map (repr_char quote) (list_ascii_of_string s)))
       (String quote EmptyString)).

(** [repr(v)] and [str(v)] of a decoded value. *)
Fixpoint repr (v : json) : string :=
  match v with
  | JNull => "None"
  | JBool true => "True"
  | JBool false => "False"
  | JNum n => NilZero.string_of_int (Z.to_int n)
  | JStr s => repr_str s
  | JArr l =>
      String.append "["
        (String.append (String.concat ", " (map repr l)) "]")
  | JObj items =>
      String.append "{"
        (String.append
           (String.concat ", "
              (map (fun kv => String.append (repr_str (fst kv))
                                (String.append ": " (repr (snd kv))))
                 items))
           "}")
  end.

Definition str (v : json) : string :=
  match v with
  | JStr s => s
  | _ => repr v
  end.

(** Field types. A [DecimalField(max_digits=10, decimal_places=2)] is its
    number of hundredths; UUIDs and dates are their text, so that [str] is
    the identity on them; timestamps are seconds. *)
Definition decimal := Z.
Definition uuid := string.
Definition date := string.
Definition datetime := Z.

(** ** models.py *)

Inductive booking_status : Type := b_pending | b_confirmed | b_cancelled.
Inductive payment_status_t : Type := pending | completed | failed.

Definition payment_status_eqb (a b : payment_status_t) : bool :=
  match a, b with
  | pending, pending | completed, completed | failed, failed => true
  | _, _ => false
  end.

(** [django.contrib.auth.models.User], the fields the views read. *)
Module User.
Record t : Type := mk {
  id : Z;
  username : string;
  email : string;
  first_name : string;
  last_name : string
}.
End User.

Module Listing.
Record t : Type := mk {
  id : Z;
  title : string;
  description : string;
  location : string;
  price_per_night : decimal;
  available : bool;
  created_at : datetime
}.
End Listing.

Module Booking.
Record t : Type := mk {
  id : Z;
  booking_id : uuid;
  listing : Z;
  user : Z;
  check_in : date;
  check_out : date;
  guests : Z;
  total_price : decimal;
  status : booking_status;
  created_at : datetime
}.

Definition with_status (s : booking_status) (b : t) : t :=
  mk (id b) (booking_id b) (listing b) (user b) (check_in b) (check_out b)
     (guests b) (total_price b) s (created_at b).
End Booking.

(** [payment_method] and [checkout_url] hold the value the view assigns,
    which comes straight out of the gateway's JSON; the column stores its
    text. [JNull] is SQL NULL. *)
Module Payment.
Record t : Type := mk {
  id : Z;
  payment_id : uuid;
  booking : Z;
  transaction_id : option string;
  amount : decimal;
  currency : string;
  payment_status : payment_status_t;
  payment_method : json;
  chapa_reference : option string;
  checkout_url : json;
  created_at : datetime;
  updated_at : datetime
}.

Definition with_payment_status (s : payment_status_t) (p : t) : t :=
  mk (id p) (payment_id p) (booking p) (transaction_id p) (amount p)
     (currency p) s (payment_method p) (chapa_reference p) (checkout_url p)
     (created_at p) (updated_at p).

Definition with_payment_method (m : json) (p : t) : t :=
  mk (id p) (payment_id p) (booking p) (transaction_id p) (amount p)
     (currency p) (payment_status p) m (chapa_reference p) (checkout_url p)
     (created_at p) (updated_at p).

Definition with_updated_at (u : datetime) (p : t) : t :=
  mk (id p) (payment_id p) (booking p) (transaction_id p) (amount p)
     (currency p) (payment_status p) (payment_method p) (chapa_reference p)
     (checkout_url p) (created_at p) u.
End Payment.

(** ** Tables *)

Class Model (A : Type) : Type := pk : A -> Z.

#[export] Instance User_Model : Model User.t := User.id.
#[export] Instance Listing_Model : Model Listing.t := Listing.id.
#[export] Instance Booking_Model : Model Booking.t := Booking.id.
#[export] Instance Payment_Model : Model Payment.t := Payment.id.

Section Table.
Context {A : Type} `{Model A}.

(** [objects.get(pk=k)] *)
Definition lookup (k : Z) (t : list A) : res A :=
  match find (fun r => pk r =? k) t with
  | Some r => Ok r
  | None => Raise DoesNotExist
  end.

(** The UPDATE of [save()]: the row with the instance's primary key is
    replaced. Primary keys are unique, so this is the first such row. *)
Fixpoint update (r : A) (t : list A) : option (list A) :=
  match t with
  | [] => None
  | r' :: t' =>
      if pk r' =? pk r then Some (r :: t')
      else match update r t' with
           | Some t'' => Some (r' :: t'')
           | None => None
           end
  end.

(** [save()] on an instance that has a primary key: UPDATE, and INSERT
    when no row was updated. *)
Definition store (r : A) (t : list A) : list A :=
  match update r t with
  | Some t' => t'
  | None => t ++ [r]
  end.

(** The next value of the auto-increment primary key. *)
Definition next_pk (t : list A) : Z :=
  1 + fold_right (fun r m => Z.max (pk r) m) 0 t.
End Table.

(** ** The world of a request *)

(** What an attribute, a response body or a job argument can hold.
    [VDecimal d] is a decimal, [VDecimalStr d] is
    [str(d)] of a decimal; [VSerialized b] is [serializer.data] for the
    instance [b]. *)
Inductive value : Type :=
| VNone
| VStr (s : string)
| VInt (n : Z)
| VDecimal (d : decimal)
| VDecimalStr (d : decimal)
| VDatetime (t : datetime)
| VJson (j : json)
| VSerialized (b : Booking.t).

Module Response.
Record t : Type := mk {
  status_code : Z;
  data : list (string * value)
}.
End Response.

Definition HTTP_200_OK := 200.
Definition HTTP_201_CREATED := 201.
Definition HTTP_400_BAD_REQUEST := 400.
Definition HTTP_403_FORBIDDEN := 403.
Definition HTTP_404_NOT_FOUND := 404.
Definition HTTP_415_UNSUPPORTED_MEDIA_TYPE := 415.
Definition HTTP_500_INTERNAL_SERVER_ERROR := 500.
Definition HTTP_503_SERVICE_UNAVAILABLE := 503.

(** A Celery task as its caller sees it: a name and the parameters of the
    decorated function. *)
Module Task.
Record t : Type := mk {
  name : string;
  parameters : list string
}.
End Task.

(** A message on the Celery queue. *)
Module Job.
Record t : Type := mk {
  task : string;
  kwargs : list (string * value)
}.
End Job.

Inductive level : Type := INFO | ERROR.

(** A write sent to the database: the INSERT of a [create()], or the
    UPDATE of a [save()] on an instance that has a primary key. *)
Inductive sql : Type :=
| INSERT (table : string) (key : Z)
| UPDATE (table : string) (key : Z).

Module World.
Record t : Type := mk {
  users : list User.t;
  listings : list Listing.t;
  bookings : list Booking.t;
  payments : list Payment.t;
  statements : list sql;
  queue : list Job.t;
  log : list (level * string)
}.
End World.

(** The JSON body of [POST /transaction/initialize]. *)
Module PaymentData.
Record t : Type := mk {
  amount : decimal;
  currency : string;
  email : string;
  first_name : string;
  last_name : string;
  tx_ref : string;
  callback_url : string;
  return_url : string;
  title : string;
  description : string
}.
End PaymentData.

(** The statements that write. Those that read are taken to succeed: the
    environment can make an INSERT or an UPDATE fail, not a SELECT. *)
Inductive db_op : Type :=
| insert_booking
| insert_payment
| update_booking
| update_payment.

(** What lies outside the program during one request: the gateway (the
    outcome of the HTTP call followed by [response.json()]: an exception,
    or a status code and the decoded body), the clock, the UUID generator
    (its n-th value in this request), and which database statements and
    whether the broker fail. *)
Module Env.
Record t : Type := mk {
  requests_post : PaymentData.t -> res (Z * json);
  requests_get : string -> res (Z * json);
  now : datetime;
  uuid4 : nat -> uuid;
  db_error : db_op -> bool;
  broker_error : bool
}.
End Env.

(** A [QueryDict]: the pairs of a query string or of a form body in the
    order they were given; a key may come more than once. *)
Definition QueryDict : Type := list (string * string).

(** [q.get(k)]: the last value given for [k], [None] when there is none. *)
Definition QueryDict_get (q : QueryDict) (k : string) : json :=
  match assoc k (rev q) with
  | Some s => JStr s
  | None => JNull
  end.

(** [request.data]: a form body is a [QueryDict]; a JSON body is the value
    it decodes to, of whatever type; a request without a body has an empty
    [QueryDict] or an empty dict. *)
Inductive body : Type :=
| Form (q : QueryDict)
| Json (j : json).

(** [data.get(k)] *)
Definition data_get (d : body) (k : string) : res json :=
  match d with
  | Form q => Ok (QueryDict_get q k)
  | Json j => get j k JNull
  end.

(** The request of an authenticated user. [GET] is the query string.
    [data] is what reading [request.data] gives: the body is parsed at the
    first read, which raises [ParseError] on a malformed body and
    [UnsupportedMediaType] on one no parser takes. *)
Module Request.
Record t : Type := mk {
  user : User.t;
  host : string;
  GET : QueryDict;
  data : res body
}.
End Request.

(** [request.build_absolute_uri(path)] *)
Definition build_absolute_uri (request : Request.t) (path : string) : string :=
  String.append (Request.host request) path.

(** ** Effects: state that survives an exception *)

Definition M (A : Type) : Type := World.t -> res A * World.t.

Definition ret {A : Type} (a : A) : M A := fun w => (Ok a, w).

Definition raise {A : Type} (e : exn) : M A := fun w => (Raise e, w).

Definition bind {A B : Type} (m : M A) (f : A -> M B) : M B :=
  fun w =>
    match m w with
    | (Ok a, w') => f a w'
    | (Raise e, w') => (Raise e, w')
    end.

Definition lift {A : Type} (r : res A) : M A := fun w => (r, w).

(** [try: body except Exception as e: handler(e)] *)
Definition try_except {A : Type} (body : M A) (handler : exn -> M A) : M A :=
  fun w =>
    match body w with
    | (Ok a, w') => (Ok a, w')
    | (Raise e, w') => handler e w'
    end.

Declare Scope m_scope.
Delimit Scope m_scope with m.
Notation "x <- m ;; f" := (bind m (fun x => f))
  (at level 61, m at next level, right associativity) : m_scope.
Notation "m ;;; f" := (bind m (fun _ => f))
  (at level 61, right associativity) : m_scope.
Local Open Scope m_scope.

Definition gets {A : Type} (f : World.t -> A) : M A := fun w => (Ok (f w), w).

Definition add_log (l : level) (msg : string) (w : World.t) : World.t :=
  World.mk (World.users w) (World.listings w) (World.bookings w)
    (World.payments w) (World.statements w) (World.queue w)
    (World.log w ++ [(l, msg)]).

(** [logger.info], [logger.error] and [logger.exception]; a record keeps
    the level and the constant part of the message. *)
Definition logger (l : level) (msg : string) : M unit :=
  fun w => (Ok tt, add_log l msg w).

Definition set_bookings (t : list Booking.t) (s : sql) (w : World.t) : World.t :=
  World.mk (World.users w) (World.listings w) t (World.payments w)
    (World.statements w ++ [s]) (World.queue w) (World.log w).

Definition set_payments (t : list Payment.t) (s : sql) (w : World.t) : World.t :=
  World.mk (World.users w) (World.listings w) (World.bookings w) t
    (World.statements w ++ [s]) (World.queue w) (World.log w).

Definition push_job (j : Job.t) (w : World.t) : World.t :=
  World.mk (World.users w) (World.listings w) (World.bookings w)
    (World.payments w) (World.statements w) (World.queue w ++ [j]) (World.log w).

(** [booking.save()] *)
Definition Booking_save (env : Env.t) (b : Booking.t) : M unit :=
  fun w =>
    if Env.db_error env update_booking then (Raise DatabaseError, w)
    else (Ok tt,
          set_bookings (store b (World.bookings w))
            (UPDATE "booking" (Booking.id b)) w).

(** [payment.save()]: every declared field is written and [updated_at]
    ([auto_now]) is set to the current time. *)
Definition Payment_save (env : Env.t) (p : Payment.t) : M unit :=
  fun w =>
    if Env.db_error env update_payment then (Raise DatabaseError, w)
    else (Ok tt,
          set_payments
            (store (Payment.with_updated_at (Env.now env) p) (World.payments w))
            (UPDATE "payment" (Payment.id p)) w).

(** [Payment.objects.create(booking=, transaction_id=, amount=, currency=,
    payment_status=, chapa_reference=, checkout_url=)]. [payment_id] takes
    its default, a fresh UUID; [payment_method] is left NULL; both
    timestamps are the current time. *)
Definition Payment_objects_create (env : Env.t) (payment_id : uuid)
    (booking : Booking.t) (transaction_id : string) (amount : decimal)
    (currency : string) (status : payment_status_t) (chapa_reference : string)
    (checkout_url : json) : M Payment.t :=
  fun w =>
    if Env.db_error env insert_payment then (Raise DatabaseError, w)
    else
      let p := Payment.mk (next_pk (World.payments w)) payment_id
                 (Booking.id booking) (Some transaction_id) amount currency
                 status JNull (Some chapa_reference) checkout_url
                 (Env.now env) (Env.now env) in
      (Ok p, set_payments (World.payments w ++ [p])
               (INSERT "payment" (Payment.id p)) w).

(** Following a foreign key loads the row it points to. *)
Definition Booking_listing (b : Booking.t) : M Listing.t :=
  fun w => (lookup (Booking.listing b) (World.listings w), w).

Definition Booking_user (b : Booking.t) : M User.t :=
  fun w => (lookup (Booking.user b) (World.users w), w).

Definition Payment_booking (p : Payment.t) : M Booking.t :=
  fun w => (lookup (Payment.booking p) (World.bookings w), w).

(** Attribute access by name on a model instance: the declared fields, and
    [AttributeError] for any other name. *)
Definition getattr (fields : list (string * value)) (name : string) : res value :=
  match assoc name fields with
  | Some v => Ok v
  | None => Raise AttributeError
  end.

Definition Listing_fields (l : Listing.t) : list (string * value) :=
  [ ("id", VInt (Listing.id l));
    ("pk", VInt (Listing.id l));
    ("title", VStr (Listing.title l));
    ("description", VStr (Listing.description l));
    ("location", VStr (Listing.location l));
    ("price_per_night", VDecimal (Listing.price_per_night l));
    ("available", VJson (JBool (Listing.available l)));
    ("created_at", VDatetime (Listing.created_at l)) ].

Definition opt_value (o : option string) : value :=
  match o with
  | Some s => VStr s
  | None => VNone
  end.

Definition payment_status_str (s : payment_status_t) : string :=
  match s with
  | pending => "pending"
  | completed => "completed"
  | failed => "failed"
  end.

Definition Payment_fields (p : Payment.t) : list (string * value) :=
  [ ("id", VInt (Payment.id p));
    ("pk", VInt (Payment.id p));
    ("payment_id", VStr (Payment.payment_id p));
    ("booking_id", VInt (Payment.booking p));
    ("transaction_id", opt_value (Payment.transaction_id p));
    ("amount", VDecimal (Payment.amount p));
    ("currency", VStr (Payment.currency p));
    ("payment_status", VStr (payment_status_str (Payment.payment_status p)));
    ("payment_method", VJson (Payment.payment_method p));
    ("chapa_reference", opt_value (Payment.chapa_reference p));
    ("checkout_url", VJson (Payment.checkout_url p));
    ("created_at", VDatetime (Payment.created_at p));
    ("updated_at", VDatetime (Payment.updated_at p)) ].

(** ** tasks.py and Celery *)

Definition send_booking_confirmation_email : Task.t :=
  Task.mk "send_booking_confirmation_email"
    ["booking_id"; "user_email"; "listing_name"; "check_in_date";
     "check_out_date"].

(** Modelled from the spec: the payment-confirmation task, which views.py
    imports from tasks.py and tasks.py does not define. The spec describes
    its job as carrying a recipient address, the booking identity, the
    listing name and the date range; the parameter names are those of its
    one call, in [verify_payment]. *)
Definition send_payment_confirmation_email : Task.t :=
  Task.mk "send_payment_confirmation_email"
    ["user_email"; "booking_id"; "amount"; "check_in"; "check_out";
     "listing_name"].

Definition mem_str (s : string) (l : list string) : bool :=
  existsb (String.eqb s) l.

(** Celery checks the arguments of [delay] against the signature of the
    task when it is called ([Task.typing]): every keyword must be a
    parameter and every parameter, none of which has a default here, must
    be given. *)
Definition check_arguments (task : Task.t) (kwargs : list (string * value)) : bool :=
  forallb (fun kv => mem_str (fst kv) (Task.parameters task)) kwargs
  && forallb (fun p => mem_str p (map fst kwargs)) (Task.parameters task).

(** [task.delay] with keyword arguments: check them, then publish the message. *)
Definition delay (env : Env.t) (task : Task.t) (kwargs : list (string * value)) : M unit :=
  fun w =>
    if negb (check_arguments task kwargs) then (Raise TypeError, w)
    else if Env.broker_error env then (Raise OperationalError, w)
    else (Ok tt, push_job (Job.mk (Task.name task) kwargs) w).

(** ** The serializer *)

Module Validated.
(** Modelled from the spec: [serializer.validated_data] of
    [BookingSerializer] (listings/serializers.py is not among the sources),
    the fields of the request body after validation. *)
Record t : Type := mk {
  listing : Z;
  check_in : date;
  check_out : date;
  guests : Z;
  total_price : decimal
}.
End Validated.

(** Modelled from the spec: [serializer.save(user=, status=)] of
    [BookingSerializer], which inserts a Booking made of the validated
    fields and of the two keyword arguments, with a fresh [booking_id] and
    the current time as [created_at]. *)
Definition serializer_save (env : Env.t) (v : Validated.t) (user : User.t)
    (status : booking_status) : M Booking.t :=
  fun w =>
    if Env.db_error env insert_booking then (Raise DatabaseError, w)
    else
      let b := Booking.mk (next_pk (World.bookings w)) (Env.uuid4 env 0)
                 (Validated.listing v) (User.id user) (Validated.check_in v)
                 (Validated.check_out v) (Validated.guests v)
                 (Validated.total_price v) status (Env.now env) in
      (Ok b, set_bookings (World.bookings w ++ [b])
               (INSERT "booking" (Booking.id b)) w).

(** ** views.py *)

Definition is_completed_for (b : Booking.t) (p : Payment.t) : bool :=
  (Payment.booking p =? Booking.id b)
  && payment_status_eqb (Payment.payment_status p) completed.

(** The payload [initiate_payment] sends to Chapa. *)
Definition payment_data (request : Request.t) (booking : Booking.t)
    (tx_ref : string) : PaymentData.t :=
  let user := Request.user request in
  PaymentData.mk (Booking.total_price booking) "ETB" (User.email user)
    (str_or (User.first_name user) (User.username user))
    (str_or (User.last_name user) "")
    tx_ref
    (build_absolute_uri request "/api/payments/verify/")
    (build_absolute_uri request "/bookings/")
    "Travel Booking Payment"
    (String.append "Payment for booking " (Booking.booking_id booking)).

(** How many completed payments a booking has. *)
Definition completed_payments (b : Booking.t) (w : World.t) : nat :=
  List.length (filter (is_completed_for b) (World.payments w)).

Module BookingViewSet.

(** [Booking.objects.filter(user=self.request.user)] *)
Definition get_queryset (request : Request.t) : M (list Booking.t) :=
  gets (fun w =>
          filter (fun b => Booking.user b =? User.id (Request.user request))
            (World.bookings w)).

(** [self.get_object()]: the booking with this primary key among the
    requester's, or [Http404]. *)
Definition get_object (request : Request.t) (pk : Z) : M Booking.t :=
  qs <- get_queryset request ;;
  match find (fun b => Booking.id b =? pk) qs with
  | Some b => ret b
  | None => raise Http404
  end.

(** Returns [serializer.instance], which [create] reads through
    [serializer.data]. *)
Definition perform_create (env : Env.t) (request : Request.t)
    (validated_data : Validated.t) : M Booking.t :=
  booking <- serializer_save env validated_data (Request.user request) b_pending ;;
  logger INFO "Booking created" ;;;
  try_except
    (listing <- Booking_listing booking ;;
     listing_name <- lift (getattr (Listing_fields listing) "name") ;;
     delay env send_booking_confirmation_email
       [ ("booking_id", VInt (Booking.id booking));
         ("user_email", VStr (User.email (Request.user request)));
         ("listing_name", listing_name);
         ("check_in_date", VStr (Booking.check_in booking));
         ("check_out_date", VStr (Booking.check_out booking));
         ("guests", VInt (Booking.guests booking)) ] ;;;
     logger INFO "Booking confirmation email queued")
    (fun e => logger ERROR "Failed to queue booking email") ;;;
  ret booking.

(** [validated_data] is [None] when [serializer.is_valid] raises, which the
    framework turns into a 400 response. *)
Definition create (env : Env.t) (request : Request.t)
    (validated_data : option Validated.t) : M Response.t :=
  match validated_data with
  | None => ret (Response.mk HTTP_400_BAD_REQUEST [("errors", VNone)])
  | Some v =>
      booking <- perform_create env request v ;;
      ret (Response.mk HTTP_201_CREATED
             [ ("message",
                VStr "Booking created successfully. Confirmation email will be sent shortly.");
               ("booking", VSerialized booking) ])
  end.

Definition initiate_payment (env : Env.t) (request : Request.t) (pk : Z)
    : M Response.t :=
  booking <- get_object request pk ;;
  paid <- gets (fun w => existsb (is_completed_for booking) (World.payments w)) ;;
  if (paid : bool) then
    ret (Response.mk HTTP_400_BAD_REQUEST
           [("error", VStr "This booking already has a completed payment.")])
  else
    let tx_ref := String.append "tx-" (Env.uuid4 env 0) in
    try_except
      (response <- lift (Env.requests_post env (payment_data request booking tx_ref)) ;;
       let status_code := fst response in
       let response_data := snd response in
       success <- (if status_code =? 200
                   then s <- lift (get response_data "status" JNull) ;;
                        ret (eq_str s "success")
                   else ret false) ;;
       if (success : bool) then
         data <- lift (getitem response_data "data") ;;
         checkout_url <- lift (getitem data "checkout_url") ;;
         payment <- Payment_objects_create env (Env.uuid4 env 1) booking tx_ref
                      (Booking.total_price booking) "ETB" pending tx_ref
                      checkout_url ;;
         logger INFO "Payment initiated" ;;;
         ret (Response.mk HTTP_200_OK
                [ ("message", VStr "Payment initiated successfully");
                  ("payment_id", VStr (Payment.payment_id payment));
                  ("checkout_url", VJson checkout_url);
                  ("transaction_reference", VStr tx_ref) ])
       else
         logger ERROR "Chapa initialization failed" ;;;
         ret (Response.mk HTTP_400_BAD_REQUEST
                [ ("error", VStr "Failed to initiate payment with Chapa");
                  ("details", VJson response_data) ]))
      (fun e =>
         if is_RequestException e then
           logger ERROR "Chapa API error" ;;;
           ret (Response.mk HTTP_503_SERVICE_UNAVAILABLE
                  [("error", VStr "Payment service temporarily unavailable")])
         else
           logger ERROR "Unexpected error in initiate_payment" ;;;
           ret (Response.mk HTTP_500_INTERNAL_SERVER_ERROR
                  [("error", VStr "An unexpected error occurred")])).

End BookingViewSet.

Definition has_tx_ref (tx_ref : string) (p : Payment.t) : bool :=
  match Payment.transaction_id p with
  | Some t => String.eqb t tx_ref
  | None => false
  end.

(** The [except] clauses of [verify_payment]. *)
Definition verify_except (e : exn) : M Response.t :=
  if is_RequestException e then
    logger ERROR "Chapa verification request failed" ;;;
    ret (Response.mk HTTP_503_SERVICE_UNAVAILABLE
           [("error", VStr "Verification service unavailable")])
  else
    logger ERROR "Unexpected error in verify_payment" ;;;
    ret (Response.mk HTTP_500_INTERNAL_SERVER_ERROR
           [("error", VStr "Internal server error")]).

(** The block that queues the payment confirmation e-mail, with its own
    [try] and [except]. *)
Definition queue_payment_email (env : Env.t) (payment : Payment.t)
    (booking : Booking.t) : M unit :=
  try_except
    (user <- Booking_user booking ;;
     listing <- Booking_listing booking ;;
     listing_name <- lift (getattr (Listing_fields listing) "name") ;;
     delay env send_payment_confirmation_email
       [ ("user_email", VStr (User.email user));
         ("booking_id", VStr (Booking.booking_id booking));
         ("amount", VDecimalStr (Payment.amount payment));
         ("check_in", VStr (Booking.check_in booking));
         ("check_out", VStr (Booking.check_out booking));
         ("listing_name", listing_name) ] ;;;
     logger INFO "Payment confirmation email queued")
    (fun e => logger ERROR "Failed to queue payment email").

Definition verified_response (booking : Booking.t) : Response.t :=
  Response.mk HTTP_200_OK
    [ ("message", VStr "Payment verified and confirmed");
      ("booking_id", VStr (Booking.booking_id booking));
      ("payment_status", VStr "completed") ].

Definition failed_response : Response.t :=
  Response.mk HTTP_400_BAD_REQUEST
    [ ("message", VStr "Payment failed");
      ("payment_status", VStr "failed") ].

(** [request.GET.get('tx_ref') or request.data.get('tx_ref')]: the body
    is read only when the query string gives no reference, or an empty
    one, and then the value is whatever the body holds under the key. The
    expression stands before the [try], so what it raises leaves the view:
    the exception of a body that cannot be parsed, and the
    [AttributeError] of a JSON body that is no object and so has no
    [get]. *)
Definition tx_ref_param (request : Request.t) : res json :=
  let given := QueryDict_get (Request.GET request) "tx_ref" in
  if truthy given then Ok given
  else match Request.data request with
       | Ok data => data_get data "tx_ref"
       | Raise e => Raise e
       end.

(** After its first two statements the view uses [tx_ref] in the URL of
    the gateway, through an f-string, and in the filter on the [CharField]
    [transaction_id]: both take [str(tx_ref)].

    [payment.verified_at = timezone.now()] has no counterpart below:
    [Payment] declares no field of that name, so the assignment sets an
    attribute of the instance in memory, which [save()] does not write. *)
Definition verify_payment (env : Env.t) (request : Request.t) : M Response.t :=
  tx_ref <- lift (tx_ref_param request) ;;
  if negb (truthy tx_ref) then
    ret (Response.mk HTTP_400_BAD_REQUEST [("error", VStr "tx_ref is required")])
  else
    let tx_ref := str tx_ref in
    try_except
      (response <- lift (Env.requests_get env tx_ref) ;;
       let status_code := fst response in
       let response_data := snd response in
       rejected <- (if negb (status_code =? 200) then ret true
                    else s <- lift (get response_data "status" JNull) ;;
                         ret (negb (eq_str s "success"))) ;;
       if (rejected : bool) then
         ret (Response.mk HTTP_400_BAD_REQUEST
                [ ("error", VStr "Payment verification failed");
                  ("details", VJson response_data) ])
       else
         payment_info <- lift (getitem response_data "data") ;;
         found <- gets (fun w => find (has_tx_ref tx_ref) (World.payments w)) ;;
         match found with
         | None =>
             ret (Response.mk HTTP_404_NOT_FOUND
                    [("error", VStr "Payment record not found")])
         | Some payment =>
             status <- lift (getitem payment_info "status") ;;
             if eq_str status "success" then
               method <- lift (get payment_info "payment_method" (JStr "")) ;;
               let payment :=
                 Payment.with_payment_method method
                   (Payment.with_payment_status completed payment) in
               Payment_save env payment ;;;
               booking <- Payment_booking payment ;;
               let booking := Booking.with_status b_confirmed booking in
               Booking_save env booking ;;;
               queue_payment_email env payment booking ;;;
               ret (verified_response booking)
             else
               Payment_save env (Payment.with_payment_status failed payment) ;;;
               ret failed_response
         end)
      verify_except.

(** [get_object_or_404(Payment, payment_id=payment_id)] *)
Definition get_object_or_404 (payment_id : uuid) : M Payment.t :=
  found <- gets (fun w =>
                   find (fun p => String.eqb (Payment.payment_id p) payment_id)
                     (World.payments w)) ;;
  match found with
  | Some p => ret p
  | None => raise Http404
  end.

(** Two model instances are equal when their primary keys are. *)
Definition payment_status (request : Request.t) (payment_id : uuid) : M Response.t :=
  try_except
    (payment <- get_object_or_404 payment_id ;;
     booking <- Payment_booking payment ;;
     owner <- Booking_user booking ;;
     if negb (User.id owner =? User.id (Request.user request)) then
       ret (Response.mk HTTP_403_FORBIDDEN [("error", VStr "Unauthorized")])
     else
       verified_at <- lift (getattr (Payment_fields payment) "verified_at") ;;
       ret (Response.mk HTTP_200_OK
              [ ("payment_id", VStr (Payment.payment_id payment));
                ("booking_id", VStr (Booking.booking_id booking));
                ("amount", VDecimalStr (Payment.amount payment));
                ("currency", VStr (Payment.currency payment));
                ("status", VStr (payment_status_str (Payment.payment_status payment)));
                ("transaction_id", opt_value (Payment.transaction_id payment));
                ("checkout_url", VJson (Payment.checkout_url payment));
                ("created_at", VDatetime (Payment.created_at payment));
                ("updated_at", VDatetime (Payment.updated_at payment));
                ("verified_at", verified_at) ]))
    (fun e =>
       logger ERROR "Error in payment_status" ;;;
       ret (Response.mk HTTP_400_BAD_REQUEST
              [("error", VStr "Failed to retrieve payment status")])).

(** The status code with which a request that has reached a view is
    answered (what the framework does before it calls the view, such as
    checking the method and the credentials, is not part of it). A view's
    own response keeps its code. An exception that leaves the view is
    answered by the framework: 404 for [Http404], 400 for [ParseError],
    415 for [UnsupportedMediaType], and 500 for a class that is none of
    the framework's. The bodies of these answers are the framework's own,
    and their wording differs between its releases, so only the code is
    given. *)
Definition dispatch (view : M Response.t) (w : World.t) : Z * World.t :=
  match view w with
  | (Ok r, w') => (Response.status_code r, w')
  | (Raise Http404, w') => (HTTP_404_NOT_FOUND, w')
  | (Raise ParseError, w') => (HTTP_400_BAD_REQUEST, w')
  | (Raise UnsupportedMediaType, w') => (HTTP_415_UNSUPPORTED_MEDIA_TYPE, w')
  | (Raise _, w') => (HTTP_500_INTERNAL_SERVER_ERROR, w')
  end.

(** ** verify_payment, one database access at a time

    Request handlers run in parallel and nothing in [verify_payment] locks
    a row or opens a transaction, so two calls interleave between any two
    of their database accesses. [Verify.step] is [verify_payment] cut at
    those points: the call to the gateway, the lookup of the payment, its
    [save()], the load of its booking, the booking's [save()], and the
    e-mail block with the response. What a call holds between two steps is
    its own copy of the rows it has read. *)
Module Verify.

Inductive pc : Type :=
| Fetch (tx_ref : string)
| Find (tx_ref : string) (payment_info : json)
| Settle (payment_info : json) (payment : Payment.t)
| LoadBooking (payment : Payment.t)
| Confirm (payment : Payment.t) (booking : Booking.t)
| Notify (payment : Payment.t) (booking : Booking.t)
| Done (r : Response.t).

(** Where a call stands when it enters the [try], for the value its
    first statement read. *)
Definition start (tx_ref : json) : pc :=
  if negb (truthy tx_ref) then
    Done (Response.mk HTTP_400_BAD_REQUEST [("error", VStr "tx_ref is required")])
  else Fetch (str tx_ref).

(** The piece of the [try] body that runs from one point to the next. *)
Definition piece (env : Env.t) (k : pc) : M pc :=
  match k with
  | Fetch tx_ref =>
      response <- lift (Env.requests_get env tx_ref) ;;
      let status_code := fst response in
      let response_data := snd response in
      rejected <- (if negb (status_code =? 200) then ret true
                   else s <- lift (get response_data "status" JNull) ;;
                        ret (negb (eq_str s "success"))) ;;
      if (rejected : bool) then
        ret (Done (Response.mk HTTP_400_BAD_REQUEST
                     [ ("error", VStr "Payment verification failed");
                       ("details", VJson response_data) ]))
      else
        payment_info <- lift (getitem response_data "data") ;;
        ret (Find tx_ref payment_info)
  | Find tx_ref payment_info =>
      found <- gets (fun w => find (has_tx_ref tx_ref) (World.payments w)) ;;
      match found with
      | None =>
          ret (Done (Response.mk HTTP_404_NOT_FOUND
                       [("error", VStr "Payment record not found")]))
      | Some payment => ret (Settle payment_info payment)
      end
  | Settle payment_info payment =>
      status <- lift (getitem payment_info "status") ;;
      if eq_str status "success" then
        method <- lift (get payment_info "payment_method" (JStr "")) ;;
        let payment :=
          Payment.with_payment_method method
            (Payment.with_payment_status completed payment) in
        Payment_save env payment ;;;
        ret (LoadBooking payment)
      else
        Payment_save env (Payment.with_payment_status failed payment) ;;;
        ret (Done failed_response)
  | LoadBooking payment =>
      booking <- Payment_booking payment ;;
      ret (Confirm payment (Booking.with_status b_confirmed booking))
  | Confirm payment booking =>
      Booking_save env booking ;;;
      ret (Notify payment booking)
  | Notify payment booking =>
      queue_payment_email env payment booking ;;;
      ret (Done (verified_response booking))
  | Done r => ret (Done r)
  end.

(** One step of a call: its next piece, under the [except] clauses of
    [verify_payment], which always end the call with a response. *)
Definition step (env : Env.t) (k : pc) (w : World.t) : pc * World.t :=
  match try_except (piece env k)
          (fun e => r <- verify_except e ;; ret (Done r)) w with
  | (Ok k', w') => (k', w')
  | (Raise _, w') => (k, w')
  end.

Fixpoint run (env : Env.t) (fuel : nat) (k : pc) (w : World.t) : pc * World.t :=
  match fuel with
  | O => (k, w)
  | S fuel' => let (k', w') := step env k w in run env fuel' k' w'
  end.

(** Two calls in flight over one database. *)
Record config : Type := mk {
  world : World.t;
  first : pc;
  second : pc
}.

Inductive thread : Type := T1 | T2.

Definition sched (env1 env2 : Env.t) (c : config) (t : thread) : config :=
  match t with
  | T1 => let (k, w) := step env1 (first c) (world c) in mk w k (second c)
  | T2 => let (k, w) := step env2 (second c) (world c) in mk w (first c) k
  end.

(** The calls run in the order the schedule names them. *)
Definition interleave (env1 env2 : Env.t) (schedule : list thread)
    (c : config) : config :=
  fold_left (sched env1 env2) schedule c.

(** How many steps a call that stays on the success path still has to
    take, and which of its two writes it has done. *)
Definition remaining (k : pc) : nat :=
  match k with
  | Fetch _ => 6
  | Find _ _ => 5
  | Settle _ _ => 4
  | LoadBooking _ => 3
  | Confirm _ _ => 2
  | Notify _ _ => 1
  | Done _ => 0
  end.

Definition saved_payment (k : pc) : nat :=
  match k with
  | Fetch _ | Find _ _ | Settle _ _ => 0
  | _ => 1
  end.

Definition saved_booking (k : pc) : nat :=
  match k with
  | Notify _ _ | Done _ => 1
  | _ => 0
  end.

Definition is_update (table : string) (s : sql) : bool :=
  match s with
  | UPDATE t _ => String.eqb t table
  | INSERT _ _ => false
  end.

(** The number of UPDATE statements a table has received. *)
Definition updates (table : string) (w : World.t) : nat :=
  List.length (filter (is_update table) (World.statements w)).

Definition count_thread (t : thread) (schedule : list thread) : nat :=
  List.length (filter (fun t' => match t, t' with
                                 | T1, T1 | T2, T2 => true
                                 | _, _ => false
                                 end) schedule).

(** The booking of a payment exists. *)
Definition resolves (w : World.t) (p : Payment.t) : Prop :=
  exists b, lookup (Payment.booking p) (World.bookings w) = Ok b.

(** The database holds a payment for [tx_ref], and the booking of every
    payment exists. *)
Definition consistent (tx_ref : string) (w : World.t) : Prop :=
  (exists p, find (has_tx_ref tx_ref) (World.payments w) = Some p)
  /\ forall p, In p (World.payments w) -> resolves w p.

(** A call for [tx_ref] that has met no error and no failure report. *)
Definition on_track (tx_ref : string) (payment_info : json) (w : World.t)
    (k : pc) : Prop :=
  match k with
  | Fetch t => t = tx_ref
  | Find t info => t = tx_ref /\ info = payment_info
  | Settle info p =>
      info = payment_info /\ has_tx_ref tx_ref p = true /\ resolves w p
  | LoadBooking p => resolves w p
  | Confirm _ _ | Notify _ _ => True
  | Done r => exists b, r = verified_response b
  end.

(** The gateway reports a success for [tx_ref] to this call, and the
    database accepts its writes. *)
Definition succeeds (tx_ref : string) (response_data : json) (env : Env.t) : Prop :=
  Env.requests_get env tx_ref = Ok (200, response_data)
  /\ Env.db_error env update_payment = false
  /\ Env.db_error env update_booking = false.

(** What holds of two calls on the success path, however far each has
    come: [u] and [v] are the UPDATEs the two tables had received before
    the calls began. *)
Definition in_flight (tx_ref : string) (payment_info : json) (u v : nat)
    (c : config) : Prop :=
  consistent tx_ref (world c)
  /\ on_track tx_ref payment_info (world c) (first c)
  /\ on_track tx_ref payment_info (world c) (second c)
  /\ updates "payment" (world c)
     = (u + saved_payment (first c) + saved_payment (second c))%nat
  /\ updates "booking" (world c)
     = (v + saved_booking (first c) + saved_booking (second c))%nat.

End Verify.

(** The gateway rejected the request: it answered, and the answer is not a
    200 whose body says [success]. *)
Definition rejected (code : Z) (response_data : json) : Prop :=
  code <> 200
  \/ exists s, get response_data "status" JNull = Ok s /\ eq_str s "success" = false.

(** ** Sequences of operations *)

Inductive op : Type :=
| Initiate (env : Env.t) (request : Request.t) (pk : Z)
| Verify (env : Env.t) (request : Request.t).

Definition apply_op (w : World.t) (o : op) : World.t :=
  match o with
  | Initiate env request pk => snd (BookingViewSet.initiate_payment env request pk w)
  | Verify env request => snd (verify_payment env request w)
  end.

Definition run_ops (ops : list op) (w : World.t) : World.t :=
  fold_left apply_op ops w.

Definition is_verify (o : op) : bool :=
  match o with
  | Verify _ _ => true
  | Initiate _ _ _ => false
  end.

(** ** Sample data *)

Definition alice : User.t := User.mk 1 "alice" "alice@example.com" "Alice" "".
Definition bob : User.t := User.mk 2 "bob" "bob@example.com" "" "Bekele".

Definition lodge : Listing.t :=
  Listing.mk 1 "Lake lodge" "Two rooms by the lake" "Bahir Dar" 5000 true 0.

(** Alice's booking of the lodge, total 100.00. *)
Definition booking1 : Booking.t :=
  Booking.mk 1 "b-0001" 1 1 "2025-01-10" "2025-01-12" 2 10000 b_pending 10.

Definition w0 : World.t :=
  World.mk [alice; bob] [lodge] [booking1] [] [] [] [].

Definition initialize_ok : res (Z * json) :=
  Ok (200, JObj [ ("status", JStr "success");
                  ("data", JObj [("checkout_url", JStr "https://checkout.chapa.co/pay/1")]) ]).

Definition verify_reports (status : string) : res (Z * json) :=
  Ok (200, JObj [ ("status", JStr "success");
                  ("data", JObj [ ("status", JStr status);
                                  ("payment_method", JStr "telebirr") ]) ]).

Definition no_error (op : db_op) : bool := false.

(** A request at time [t] whose UUIDs start with [u], with the gateway
    answering [post] and [get]. *)
Definition env_at (t : datetime) (u : string) (post get : res (Z * json)) : Env.t :=
  Env.mk (fun _ => post) (fun _ => get) t
    (fun n => match n with O => String.append u "-0" | _ => String.append u "-1" end)
    no_error false.

Definition request_of (u : User.t) : Request.t :=
  Request.mk u "https://travel.example" [] (Ok (Form [])).

Definition verify_request (tx_ref : string) : Request.t :=
  Request.mk alice "https://travel.example" [("tx_ref", tx_ref)] (Ok (Form [])).

(** Chapa refuses an initialization. *)
Definition refusal : json :=
  JObj [("status", JStr "failed"); ("message", JStr "Invalid currency")].

Definition initialize_refused : res (Z * json) := Ok (400, refusal).

(** The payment that [initiate_payment] creates for [booking1] at time 100,
    and the world it leaves. *)
Definition payment1 : Payment.t :=
  Payment.mk 1 "u1-1" 1 (Some "tx-u1-0") 10000 "ETB" pending JNull
    (Some "tx-u1-0") (JStr "https://checkout.chapa.co/pay/1") 100 100.

Definition w_pending : World.t :=
  World.mk [alice; bob] [lodge] [booking1] [payment1]
    [INSERT "payment" 1] [] [(INFO, "Payment initiated")].

Definition success_at (t : datetime) : Env.t :=
  env_at t "u" initialize_ok (verify_reports "success").

Definition failure_at (t : datetime) : Env.t :=
  env_at t "u" initialize_ok (verify_reports "failed").

(** The database refuses the UPDATE of bookings. *)
Definition booking_update_fails (op : db_op) : bool :=
  match op with
  | update_booking => true
  | _ => false
  end.

Definition success_then_db_error (t : datetime) : Env.t :=
  Env.mk (fun _ => initialize_ok) (fun _ => verify_reports "success") t
    (fun _ => "u") booking_update_fails false.

Definition success_body : json :=
  JObj [ ("status", JStr "success");
         ("data", JObj [ ("status", JStr "success");
                         ("payment_method", JStr "telebirr") ]) ].

Definition failure_body : json :=
  JObj [ ("status", JStr "success");
         ("data", JObj [ ("status", JStr "failed");
                         ("payment_method", JStr "telebirr") ]) ].

Definition success_info : json :=
  JObj [ ("status", JStr "success"); ("payment_method", JStr "telebirr") ].

Definition failure_info : json :=
  JObj [ ("status", JStr "failed"); ("payment_method", JStr "telebirr") ].

(** [w_pending] after a verification that the gateway reports as a success:
    [payment1] is completed and [booking1] confirmed. *)
Definition w_paid : World.t :=
  Eval vm_compute in
    snd (verify_payment (success_at 200) (verify_request "tx-u1-0") w_pending).

(** Two payments are initiated for [booking1] before either is verified,
    then both are verified. *)
Definition pay_twice : list op :=
  [ Initiate (env_at 100 "u1" initialize_ok (verify_reports "success"))
      (request_of alice) 1;
    Initiate (env_at 150 "u2" initialize_ok (verify_reports "success"))
      (request_of alice) 1;
    Verify (success_at 200) (verify_request "tx-u1-0");
    Verify (success_at 250) (verify_request "tx-u2-0") ].

Definition new_booking : Validated.t :=
  Validated.mk 1 "2025-02-01" "2025-02-03" 1 10000.

(** Two schedules of two calls: the second call starts when the first has
    answered; the calls take their steps in turn. *)
Definition one_after_the_other : list Verify.thread :=
  repeat Verify.T1 6 ++ repeat Verify.T2 6.

Definition in_turn : list Verify.thread :=
  List.concat (repeat [Verify.T1; Verify.T2] 6).

Definition two_calls (tx_ref : string) (w : World.t) : Verify.config :=
  Verify.mk w (Verify.Fetch tx_ref) (Verify.Fetch tx_ref).

(** ** tasks.py: what the worker runs *)

Module Tasks.

(** One call of [django.core.mail.send_mail]. *)
Record Mail : Type := mkMail {
  subject : string;
  message : string;
  from_email : string;
  recipient_list : list string
}.

(** The worker's side of the world: the mails handed to the transport and
    the worker's log. *)
Record Worker : Type := mkWorker {
  outbox : list Mail;
  log : list (level * string)
}.

(** [settings.DEFAULT_FROM_EMAIL], which settings.py leaves to Django's
    default, and the mail transport: it delivers a mail or raises. *)
Record Env : Type := mkEnv {
  DEFAULT_FROM_EMAIL : string;
  transport : Mail -> res unit
}.

Definition nl : string := String (Ascii.ascii_of_nat 10) EmptyString.

(** A line of the triple-quoted text, with its indentation of eight
    spaces. *)
Definition line (text : string) : string :=
  String.append "        " (String.append text nl).

(** The f-string [message]; the arguments are the texts the f-string puts
    in their place. *)
Definition message_text (booking_id listing_name check_in_date check_out_date : string)
    : string :=
  String.concat ""
    [ nl;
      line "Dear Customer,";
      line "";
      line "Thank you for your booking!";
      line "";
      line "Booking Details:";
      line "----------------";
      line (String.append "Booking ID: " booking_id);
      line (String.append "Property: " listing_name);
      line (String.append "Check-in Date: " check_in_date);
      line (String.append "Check-out Date: " check_out_date);
      line "";
      line "Your booking has been confirmed. We look forward to hosting you!";
      line "";
      line "If you have any questions, please don't hesitate to contact us.";
      line "";
      line "Best regards,";
      line "ALX Travel App Team";
      "        " ].

(** [EmailMessage.recipients()]: the addresses that are not empty. *)
Definition recipients (m : Mail) : list string :=
  filter (fun address => negb (String.eqb address "")) (recipient_list m).

(** [send_mail(..., fail_silently=False)]: a mail without a recipient is
    not handed to the transport, and 0 is returned; any other mail goes
    out, and 1 is returned, or the exception of the transport is raised. *)
Definition send_mail (env : Env) (m : Mail) (w : Worker) : res Z * Worker :=
  match recipients m with
  | [] => (Ok 0, w)
  | _ :: _ =>
      match transport env m with
      | Ok _ => (Ok 1, mkWorker (outbox w ++ [m]) (log w))
      | Raise e => (Raise e, w)
      end
  end.

Definition logger (l : level) (msg : string) (w : Worker) : Worker :=
  mkWorker (outbox w) (log w ++ [(l, msg)]).

(** The body of the task: [raise] in the [except] clause raises the
    exception it caught. *)
Definition send_booking_confirmation_email (env : Env)
    (booking_id user_email listing_name check_in_date check_out_date : string)
    (w : Worker) : res string * Worker :=
  let subject := String.append "Booking Confirmation - " listing_name in
  let message :=
    message_text booking_id listing_name check_in_date check_out_date in
  match send_mail env
          (mkMail subject message (DEFAULT_FROM_EMAIL env) [user_email]) w with
  | (Ok _, w') =>
      (Ok (String.append "Email sent successfully to " user_email),
       logger INFO "Booking confirmation email sent successfully" w')
  | (Raise e, w') =>
      (Raise e, logger ERROR "Failed to send booking confirmation email" w')
  end.

End Tasks.

(** ** Any sequence of requests *)

(** A request to one of the four handlers written in views.py: [create],
    [initiate_payment], [verify_payment] and [payment_status]. The actions
    that [BookingViewSet] inherits from [ModelViewSet] and does not
    override ([list], [retrieve], [update], [partial_update] and
    [destroy]) are the framework's and are not among the calls: what is
    proved of every sequence of calls is proved of these four handlers. *)
Inductive call : Type :=
| Create (env : Env.t) (request : Request.t) (validated_data : option Validated.t)
| InitiatePayment (env : Env.t) (request : Request.t) (pk : Z)
| VerifyPayment (env : Env.t) (request : Request.t)
| PaymentStatus (request : Request.t) (payment_id : uuid).

(** The world a request leaves, whatever it answers. *)
Definition serve (w : World.t) (c : call) : World.t :=
  match c with
  | Create env request v => snd (BookingViewSet.create env request v w)
  | InitiatePayment env request pk =>
      snd (BookingViewSet.initiate_payment env request pk w)
  | VerifyPayment env request => snd (verify_payment env request w)
  | PaymentStatus request payment_id => snd (payment_status request payment_id w)
  end.

Definition serve_all (calls : list call) (w : World.t) : World.t :=
  fold_left serve calls w.

(** Primary keys are unique and every payment points to a booking that
    exists. *)
Definition sound (w : World.t) : Prop :=
  NoDup (map Booking.id (World.bookings w))
  /\ NoDup (map Payment.id (World.payments w))
  /\ forall p, In p (World.payments w) -> Verify.resolves w p.

(** The columns of a payment that are written once, when it is created. *)
Definition same_details (p q : Payment.t) : Prop :=
  Payment.id q = Payment.id p
  /\ Payment.payment_id q = Payment.payment_id p
  /\ Payment.booking q = Payment.booking p
  /\ Payment.transaction_id q = Payment.transaction_id p
  /\ Payment.amount q = Payment.amount p
  /\ Payment.currency q = Payment.currency p
  /\ Payment.chapa_reference q = Payment.chapa_reference p
  /\ Payment.checkout_url q = Payment.checkout_url p
  /\ Payment.created_at q = Payment.created_at p.


(** The booking [get_object] finds: the first of the requester's bookings
    with this primary key. *)
Definition owned_booking (request : Request.t) (pk : Z) (w : World.t)
    : option Booking.t :=
  find (fun b => Booking.id b =? pk)
    (filter (fun b => Booking.user b =? User.id (Request.user request))
       (World.bookings w)).

(** The row [initiate_payment] inserts. *)
Definition new_payment (env : Env.t) (booking : Booking.t) (checkout_url : json)
    (w : World.t) : Payment.t :=
  let tx_ref := String.append "tx-" (Env.uuid4 env 0) in
  Payment.mk (next_pk (World.payments w)) (Env.uuid4 env 1)
    (Booking.id booking) (Some tx_ref) (Booking.total_price booking) "ETB"
    pending JNull (Some tx_ref) checkout_url (Env.now env) (Env.now env).

(** The transaction reference a request to [verify_payment] carries: the
    last one of the query string unless it is missing or empty, else what
    the body holds under the key, as text; none when that is missing or
    falsy too, and none when reading the body raises. *)
Definition tx_ref_of (request : Request.t) : option string :=
  match tx_ref_param request with
  | Ok tx_ref => if truthy tx_ref then Some (str tx_ref) else None
  | Raise _ => None
  end.

(** The forms in which [verify_payment] saves a payment. *)
Definition saved_completed (env : Env.t) (method : json) (p : Payment.t)
    : Payment.t :=
  Payment.with_updated_at (Env.now env)
    (Payment.with_payment_method method
       (Payment.with_payment_status completed p)).

Definition saved_failed (env : Env.t) (p : Payment.t) : Payment.t :=
  Payment.with_updated_at (Env.now env) (Payment.with_payment_status failed p).

(** A booking is created, a payment for [booking1] is initiated, verified
    twice (a failure, then a success), and its status is asked for. *)
Definition busy_day : list call :=
  [ Create (success_at 50) (request_of bob) (Some new_booking);
    VerifyPayment (failure_at 200) (verify_request "tx-u1-0");
    InitiatePayment (env_at 250 "u2" initialize_ok (verify_reports "success"))
      (request_of alice) 1;
    VerifyPayment (success_at 300) (verify_request "tx-u1-0");
    PaymentStatus (request_of alice) "u1-1" ].

(** ** Two calls at once: what they hold and what the database holds

    Two calls of [verify_payment] for [tx_ref], with environments [env1]
    and [env2], to both of which the gateway reports a success with
    [payment_info] and [method]; [p0] is the payment the reference
    denotes and [b0] its booking when the calls begin, in world [w0]. *)
Section Racing.
Variables (env1 env2 : Env.t) (tx_ref : string) (payment_info method : json).
Variables (p0 : Payment.t) (b0 : Booking.t) (w0 : World.t).

(** The rows the two calls write for the payment. *)
Definition written : list Payment.t :=
  [saved_completed env1 method p0; saved_completed env2 method p0].

(** What a call holds at each point: the payment as it read it, which is
    the payment as it was or as one of the calls has written it, then its
    own completed copy, which points to the same booking, and the booking
    as confirmed. *)
Definition copy_ok (k : Verify.pc) : Prop :=
  match k with
  | Verify.Fetch t => t = tx_ref
  | Verify.Find t info => t = tx_ref /\ info = payment_info
  | Verify.Settle info p => info = payment_info /\ In p (p0 :: written)
  | Verify.LoadBooking p => Payment.booking p = Payment.booking p0
  | Verify.Confirm _ b | Verify.Notify _ b =>
      b = Booking.with_status b_confirmed b0
  | Verify.Done r => r = verified_response (Booking.with_status b_confirmed b0)
  end.

Definition notified (k : Verify.pc) : nat :=
  match k with
  | Verify.Done _ => 1
  | _ => 0
  end.

(** What the database holds when [np] saves of the payment, [nb] saves of
    the booking and [nd] runs of the e-mail block have been made. *)
Definition world_ok (np nb nd : nat) (w : World.t) : Prop :=
  (exists q,
     find (has_tx_ref tx_ref) (World.payments w) = Some q
     /\ lookup (Payment.id p0) (World.payments w) = Ok q
     /\ In q (p0 :: written)
     /\ ((1 <= np)%nat -> In q written))
  /\ (exists b,
        lookup (Payment.booking p0) (World.bookings w) = Ok b
        /\ (b = b0 \/ b = Booking.with_status b_confirmed b0)
        /\ ((1 <= nb)%nat -> b = Booking.with_status b_confirmed b0))
  /\ World.log w
     = World.log w0 ++ repeat (ERROR, "Failed to queue payment email") nd
  /\ World.queue w = World.queue w0.

Definition racing (c : Verify.config) : Prop :=
  world_ok
    (Verify.saved_payment (Verify.first c) + Verify.saved_payment (Verify.second c))
    (Verify.saved_booking (Verify.first c) + Verify.saved_booking (Verify.second c))
    (notified (Verify.first c) + notified (Verify.second c))
    (Verify.world c)
  /\ copy_ok (Verify.first c)
  /\ copy_ok (Verify.second c).

End Racing.

(** * Properties *)

Ltac unfold_m :=
  unfold bind, ret, raise, lift, gets, try_except, logger in *.

(** Enters the [try] of [verify_payment] for a request whose reference is
    known. *)
Ltac enter Hparam Htruthy :=
  unfold verify_payment; unfold_m; rewrite Hparam, Htruthy; cbn [negb].

(** ** Tables *)

Lemma find_app {A : Type} (f : A -> bool) (l l' : list A) :
  find f (l ++ l') = match find f l with Some x => Some x | None => find f l' end.
Proof.
  induction l as [|x l IH]; simpl; [reflexivity|].
  destruct (f x); [reflexivity|exact IH].
Qed.

Section TableFacts.
Context {A : Type} `{Model A}.

Lemma update_find (r : A) (t : list A) :
  update r t = None <-> find (fun x => pk x =? pk r) t = None.
Proof.
  induction t as [|x t IH]; simpl; [tauto|].
  destruct (pk x =? pk r); [split; discriminate|].
  destruct (update r t); [|tauto].
  split; [discriminate|]. intro E. apply IH in E. discriminate.
Qed.

(** After [save()], the primary key of the instance denotes the instance. *)
Lemma lookup_store (r : A) (t : list A) :
  lookup (pk r) (store r t) = Ok r.
Proof.
  unfold lookup, store.
  destruct (update r t) as [t'|] eqn:E.
  - revert t' E. induction t as [|x t IH]; simpl; intros t' E; [discriminate|].
    destruct (pk x =? pk r) eqn:Ex.
    + inversion E; subst. simpl. now rewrite Z.eqb_refl.
    + destruct (update r t) as [t''|]; [|discriminate].
      inversion E; subst. simpl. rewrite Ex. now apply IH.
  - apply update_find in E. rewrite find_app, E.
    simpl. now rewrite Z.eqb_refl.
Qed.

(** Saving a row leaves every other primary key as it was. *)
Lemma lookup_store_other (k : Z) (r : A) (t : list A) :
  k <> pk r -> lookup k (store r t) = lookup k t.
Proof.
  intro Hk. unfold lookup, store.
  destruct (update r t) as [t'|] eqn:E.
  - revert t' E. induction t as [|x t IH]; simpl; intros t' E; [discriminate|].
    destruct (pk x =? pk r) eqn:Ex.
    + inversion E; subst. simpl.
      apply Z.eqb_eq in Ex. rewrite Ex.
      destruct (pk r =? k) eqn:Er; [apply Z.eqb_eq in Er; congruence|reflexivity].
    + destruct (update r t) as [t''|]; [|discriminate].
      inversion E; subst. simpl.
      destruct (pk x =? k); [reflexivity|]. now apply IH.
  - rewrite find_app. destruct (find (fun x => pk x =? k) t); [reflexivity|].
    simpl. destruct (pk r =? k) eqn:Er; [apply Z.eqb_eq in Er; congruence|reflexivity].
Qed.

Lemma update_update (r r' : A) (t t1 : list A) :
  pk r' = pk r -> update r t = Some t1 -> update r' t1 = update r' t.
Proof.
  intro Hpk. revert t1.
  induction t as [|x t IH]; simpl; intros t1 E; [discriminate|].
  rewrite Hpk. destruct (pk x =? pk r) eqn:Ex.
  - inversion E; subst. simpl. now rewrite Hpk, Z.eqb_refl.
  - destruct (update r t) as [t2|]; [|discriminate].
    inversion E; subst. simpl. rewrite Hpk, Ex.
    now rewrite (IH t2 eq_refl).
Qed.

Lemma update_app_new (r r' : A) (t : list A) :
  pk r' = pk r -> update r t = None -> update r' (t ++ [r]) = Some (t ++ [r']).
Proof.
  intros Hpk. induction t as [|x t IH]; simpl; intro E.
  - now rewrite Hpk, Z.eqb_refl.
  - rewrite Hpk. destruct (pk x =? pk r); [discriminate|].
    destruct (update r t); [discriminate|].
    now rewrite (IH eq_refl).
Qed.

(** A second [save()] of an instance with the same primary key overwrites
    the first. *)
Lemma store_store (r r' : A) (t : list A) :
  pk r' = pk r -> store r' (store r t) = store r' t.
Proof.
  intro Hpk. unfold store.
  destruct (update r t) as [t1|] eqn:E.
  - rewrite (update_update r r' t t1 Hpk E).
    destruct (update r' t) eqn:E'; [reflexivity|].
    apply update_find in E'. rewrite Hpk in E'. apply update_find in E'.
    congruence.
  - rewrite (update_app_new r r' t Hpk E).
    assert (E' : update r' t = None).
    { apply update_find. rewrite Hpk. now apply update_find. }
    now rewrite E'.
Qed.

(** One [save()] changes at most one row, so a count of rows moves by at
    most one. *)
Lemma count_store (f : A -> bool) (r : A) (t : list A) :
  (List.length (filter f (store r t)) <= List.length (filter f t) + 1)%nat.
Proof.
  unfold store. destruct (update r t) as [t'|] eqn:E.
  - revert t' E. induction t as [|x t IH]; simpl; intros t' E; [discriminate|].
    destruct (pk x =? pk r).
    + inversion E; subst. simpl. destruct (f r), (f x); simpl; lia.
    + destruct (update r t) as [t''|]; [|discriminate].
      inversion E; subst. simpl. specialize (IH t'' eq_refl).
      destruct (f x); simpl; lia.
  - rewrite filter_app, length_app. simpl. destruct (f r); simpl; lia.
Qed.

End TableFacts.

(** ** initiate_payment *)

(** Whatever the request and the gateway do, [initiate_payment] leaves the
    payments table as it was or adds one row, and that row is pending. *)
Lemma initiate_payment_payments env request pk w :
  let w' := snd (BookingViewSet.initiate_payment env request pk w) in
  World.payments w' = World.payments w
  \/ exists p, World.payments w' = World.payments w ++ [p]
               /\ Payment.payment_status p = pending.
Proof.
  unfold BookingViewSet.initiate_payment, BookingViewSet.get_object,
    BookingViewSet.get_queryset, Payment_objects_create.
  unfold_m. simpl.
  destruct (find _ _) as [booking|]; simpl; [|now left].
  destruct (existsb _ _); simpl; [now left|].
  destruct (Env.requests_post env _) as [[code body]|e]; simpl.
  2: { destruct (is_RequestException e); simpl; now left. }
  destruct (code =? 200); simpl.
  2: { now left. }
  destruct (get body "status" JNull) as [s|e]; simpl.
  2: { destruct (is_RequestException e); simpl; now left. }
  destruct (eq_str s "success"); simpl; [|now left].
  destruct (getitem body "data") as [d|e]; simpl.
  2: { destruct (is_RequestException e); simpl; now left. }
  destruct (getitem d "checkout_url") as [u|e]; simpl.
  2: { destruct (is_RequestException e); simpl; now left. }
  destruct (Env.db_error env insert_payment); simpl; [now left|].
  right. eexists. split; reflexivity.
Qed.

(** C5. When the call to the gateway fails, [initiate_payment] creates no
    Payment, and tells the two failures apart: an exception of the HTTP
    client (network, timeout) gives 503 "temporarily unavailable", an
    answer that is not a success gives 400 with the gateway's details. *)
Theorem initiate_payment_gateway_failure env request pk w booking :
  BookingViewSet.get_object request pk w = (Ok booking, w) ->
  existsb (is_completed_for booking) (World.payments w) = false ->
  let tx_ref := String.append "tx-" (Env.uuid4 env 0) in
  let answer := Env.requests_post env (payment_data request booking tx_ref) in
  let out := BookingViewSet.initiate_payment env request pk w in
  (answer = Raise RequestException ->
   out = (Ok (Response.mk HTTP_503_SERVICE_UNAVAILABLE
                [("error", VStr "Payment service temporarily unavailable")]),
          add_log ERROR "Chapa API error" w)
   /\ World.payments (snd out) = World.payments w)
  /\ (forall code response_data,
        answer = Ok (code, response_data) ->
        rejected code response_data ->
        out = (Ok (Response.mk HTTP_400_BAD_REQUEST
                     [ ("error", VStr "Failed to initiate payment with Chapa");
                       ("details", VJson response_data) ]),
               add_log ERROR "Chapa initialization failed" w)
        /\ World.payments (snd out) = World.payments w)
  /\ HTTP_503_SERVICE_UNAVAILABLE <> HTTP_400_BAD_REQUEST.
Proof.
  intros Hobj Hpaid tx_ref answer out. subst answer out tx_ref.
  split; [|split].
  - intro Hpost. unfold BookingViewSet.initiate_payment. unfold_m.
    rewrite Hobj, Hpaid, Hpost. split; reflexivity.
  - intros code body Hpost Hrej. unfold BookingViewSet.initiate_payment.
    unfold_m. rewrite Hobj, Hpaid, Hpost. simpl.
    destruct Hrej as [Hcode|[s [Hs Hne]]].
    + apply Z.eqb_neq in Hcode. rewrite Hcode. split; reflexivity.
    + destruct (code =? 200); [|split; reflexivity].
      rewrite Hs, Hne. split; reflexivity.
  - discriminate.
Qed.

Lemma initiate_payment_gateway_failure_witness :
  fst (BookingViewSet.initiate_payment
         (env_at 100 "u1" (Raise RequestException) (verify_reports "success"))
         (request_of alice) 1 w0)
  = Ok (Response.mk HTTP_503_SERVICE_UNAVAILABLE
          [("error", VStr "Payment service temporarily unavailable")])
  /\ fst (BookingViewSet.initiate_payment
            (env_at 100 "u1" initialize_refused (verify_reports "success"))
            (request_of alice) 1 w0)
     = Ok (Response.mk HTTP_400_BAD_REQUEST
             [ ("error", VStr "Failed to initiate payment with Chapa");
               ("details", VJson refusal) ])
  /\ World.payments
       (snd (BookingViewSet.initiate_payment
               (env_at 100 "u1" initialize_refused (verify_reports "success"))
               (request_of alice) 1 w0)) = [].
Proof.
  destruct (initiate_payment_gateway_failure
              (env_at 100 "u1" (Raise RequestException) (verify_reports "success"))
              (request_of alice) 1 w0 booking1 eq_refl eq_refl)
    as (H1 & _).
  destruct (H1 eq_refl) as (E1 & _).
  destruct (initiate_payment_gateway_failure
              (env_at 100 "u1" initialize_refused (verify_reports "success"))
              (request_of alice) 1 w0 booking1 eq_refl eq_refl)
    as (_ & H2 & _).
  destruct (H2 400 refusal eq_refl) as (E2 & P2).
  { left. discriminate. }
  rewrite E1. split; [reflexivity|]. split; [now rewrite E2 | exact P2].
Defined.

(** C6. When the gateway accepts the initialization of a payment for a
    booking with total price T, [initiate_payment] adds exactly one Payment:
    pending, amount T, currency ETB, the fresh transaction reference, the
    checkout URL of the gateway. It answers 200 with the checkout URL, the
    payment id and the transaction reference, and the bookings table is
    unchanged. *)
Theorem initiate_payment_persists_pending_payment
    env request pk w booking response_data data checkout_url :
  let tx_ref := String.append "tx-" (Env.uuid4 env 0) in
  let payment :=
    Payment.mk (next_pk (World.payments w)) (Env.uuid4 env 1)
      (Booking.id booking) (Some tx_ref) (Booking.total_price booking) "ETB"
      pending JNull (Some tx_ref) checkout_url (Env.now env) (Env.now env) in
  BookingViewSet.get_object request pk w = (Ok booking, w) ->
  existsb (is_completed_for booking) (World.payments w) = false ->
  Env.requests_post env (payment_data request booking tx_ref)
  = Ok (200, response_data) ->
  get response_data "status" JNull = Ok (JStr "success") ->
  getitem response_data "data" = Ok data ->
  getitem data "checkout_url" = Ok checkout_url ->
  Env.db_error env insert_payment = false ->
  exists w',
    BookingViewSet.initiate_payment env request pk w
    = (Ok (Response.mk HTTP_200_OK
             [ ("message", VStr "Payment initiated successfully");
               ("payment_id", VStr (Env.uuid4 env 1));
               ("checkout_url", VJson checkout_url);
               ("transaction_reference", VStr tx_ref) ]),
       w')
    /\ World.payments w' = World.payments w ++ [payment]
    /\ World.bookings w' = World.bookings w
    /\ World.users w' = World.users w
    /\ World.listings w' = World.listings w
    /\ World.queue w' = World.queue w.
Proof.
  intros tx_ref payment Hobj Hpaid Hpost Hstatus Hdata Hurl Hdb.
  unfold BookingViewSet.initiate_payment, Payment_objects_create. unfold_m.
  fold tx_ref. rewrite Hobj, Hpaid, Hpost. simpl.
  rewrite Hstatus. simpl. rewrite Hdata, Hurl, Hdb. simpl.
  eexists. split; [reflexivity|]. simpl. repeat split; reflexivity.
Qed.

Lemma initiate_payment_persists_pending_payment_witness :
  exists w',
    BookingViewSet.initiate_payment
      (env_at 100 "u1" initialize_ok (verify_reports "success"))
      (request_of alice) 1 w0
    = (Ok (Response.mk HTTP_200_OK
             [ ("message", VStr "Payment initiated successfully");
               ("payment_id", VStr "u1-1");
               ("checkout_url", VJson (JStr "https://checkout.chapa.co/pay/1"));
               ("transaction_reference", VStr "tx-u1-0") ]),
       w')
    /\ World.payments w'
       = [ Payment.mk 1 "u1-1" 1 (Some "tx-u1-0") 10000 "ETB" pending JNull
             (Some "tx-u1-0") (JStr "https://checkout.chapa.co/pay/1") 100 100 ]
    /\ World.bookings w' = [booking1]
    /\ World.users w' = World.users w0
    /\ World.listings w' = World.listings w0
    /\ World.queue w' = World.queue w0.
Proof.
  apply (initiate_payment_persists_pending_payment
           (env_at 100 "u1" initialize_ok (verify_reports "success"))
           (request_of alice) 1 w0 booking1
           (JObj [ ("status", JStr "success");
                   ("data", JObj [("checkout_url", JStr "https://checkout.chapa.co/pay/1")]) ])
           (JObj [("checkout_url", JStr "https://checkout.chapa.co/pay/1")])
           (JStr "https://checkout.chapa.co/pay/1")); reflexivity.
Defined.

(** ** verify_payment *)

(** [Listing] declares a [title] and no [name], so the e-mail block of
    [verify_payment] always ends in its [except] clause: nothing is queued
    and the failure is logged. *)
Lemma queue_payment_email_logs env payment booking w :
  queue_payment_email env payment booking w
  = (Ok tt, add_log ERROR "Failed to queue payment email" w).
Proof.
  unfold queue_payment_email, Booking_user, Booking_listing. unfold_m.
  destruct (lookup (Booking.user booking) (World.users w)); [|reflexivity].
  destruct (lookup (Booking.listing booking) (World.listings w)); reflexivity.
Qed.

(** The [except] clauses answer 503 or 500 and only write to the log. *)
Lemma verify_except_logs e w :
  exists r msg,
    verify_except e w = (Ok r, add_log ERROR msg w)
    /\ (Response.status_code r = HTTP_503_SERVICE_UNAVAILABLE
        \/ Response.status_code r = HTTP_500_INTERNAL_SERVER_ERROR).
Proof.
  unfold verify_except. unfold_m.
  destruct (is_RequestException e); do 2 eexists; split; try reflexivity;
    simpl; auto.
Qed.

Lemma with_payment_status_same (s : payment_status_t) (p : Payment.t) :
  Payment.payment_status p = s -> Payment.with_payment_status s p = p.
Proof. destruct p; simpl; intros ->; reflexivity. Qed.

(** A request carries [tx_ref] when its first statement reads a value
    that is true and whose text [tx_ref] is. *)
Lemma tx_ref_of_some request tx_ref :
  tx_ref_of request = Some tx_ref ->
  exists v,
    tx_ref_param request = Ok v /\ truthy v = true /\ str v = tx_ref.
Proof.
  unfold tx_ref_of. destruct (tx_ref_param request) as [v|e]; [|discriminate].
  destruct (truthy v) eqn:E; [|discriminate].
  intro H. inversion H; subst. eauto.
Qed.

(** When the gateway does not confirm the verification itself (a code
    other than 200, or an envelope that is not a success), the call answers
    400 with the gateway's details and changes nothing: the Payment is not
    marked failed. *)
Lemma verify_payment_rejected env request tx_ref code response_data w :
  tx_ref_of request = Some tx_ref ->
  Env.requests_get env tx_ref = Ok (code, response_data) ->
  rejected code response_data ->
  verify_payment env request w
  = (Ok (Response.mk HTTP_400_BAD_REQUEST
           [ ("error", VStr "Payment verification failed");
             ("details", VJson response_data) ]),
     w).
Proof.
  intros Htx Hget Hrej.
  destruct (tx_ref_of_some _ _ Htx) as (v & Hv & Ht & <-).
  enter Hv Ht. rewrite Hget. simpl.
  destruct Hrej as [Hcode|[s [Hs Hno]]].
  - apply Z.eqb_neq in Hcode. rewrite Hcode. reflexivity.
  - destruct (code =? 200); [|reflexivity]. simpl. rewrite Hs. simpl.
    rewrite Hno. reflexivity.
Qed.

Section Reported.
(** A call that carries [tx_ref], for which the gateway answers 200 with a
    success envelope whose [data] reports [status]. *)
Variables (env : Env.t) (request : Request.t) (tx_ref : string).
Variables (response_data payment_info status : json).
Hypothesis Htx : tx_ref_of request = Some tx_ref.
Hypothesis Hget : Env.requests_get env tx_ref = Ok (200, response_data).
Hypothesis Henvelope : get response_data "status" JNull = Ok (JStr "success").
Hypothesis Hinfo : getitem response_data "data" = Ok payment_info.
Hypothesis Hstatus : getitem payment_info "status" = Ok status.

Ltac reach :=
  let v := fresh "v" in
  let Hv := fresh "Hv" in
  let Ht := fresh "Ht" in
  let Hs := fresh "Hs" in
  destruct (tx_ref_of_some _ _ Htx) as (v & Hv & Ht & Hs);
  enter Hv Ht; rewrite Hs, Hget; simpl;
  rewrite Henvelope; simpl; rewrite Hinfo; simpl.

Lemma payment_method_reported :
  exists method, get payment_info "payment_method" (JStr "") = Ok method.
Proof.
  destruct payment_info; try discriminate Hstatus. simpl.
  destruct (assoc "payment_method" items); eauto.
Qed.

(** C7. When the gateway reports a failure for an existing Payment,
    [verify_payment] leaves the bookings table exactly as it was, and with
    it the users, the listings and the queue; the Payment is saved with
    status failed, the current time as [updated_at] and every other column
    as it was, and saving a Payment that was failed already changes
    nothing but its [updated_at]. *)
Theorem verify_payment_failure_leaves_booking w payment :
  eq_str status "success" = false ->
  find (has_tx_ref tx_ref) (World.payments w) = Some payment ->
  let saved :=
    Payment.with_updated_at (Env.now env)
      (Payment.with_payment_status failed payment) in
  exists r w',
    verify_payment env request w = (Ok r, w')
    /\ World.bookings w' = World.bookings w
    /\ World.users w' = World.users w
    /\ World.listings w' = World.listings w
    /\ World.queue w' = World.queue w
    /\ (Env.db_error env update_payment = false ->
        r = failed_response
        /\ World.payments w' = store saved (World.payments w)
        /\ lookup (Payment.id payment) (World.payments w') = Ok saved)
    /\ (Payment.payment_status payment = failed ->
        saved = Payment.with_updated_at (Env.now env) payment)
    /\ saved
       = Payment.mk (Payment.id payment) (Payment.payment_id payment)
           (Payment.booking payment) (Payment.transaction_id payment)
           (Payment.amount payment) (Payment.currency payment)
           failed
           (Payment.payment_method payment) (Payment.chapa_reference payment)
           (Payment.checkout_url payment) (Payment.created_at payment)
           (Env.now env)
    /\ Payment.payment_status saved = failed.
Proof.
  intros Hfail Hfind saved. reach. rewrite Hfind, Hstatus. simpl.
  rewrite Hfail. unfold Payment_save.
  assert (Hsame : Payment.payment_status payment = failed ->
                  saved = Payment.with_updated_at (Env.now env) payment).
  { intro E. unfold saved. destruct payment; simpl in *. now subst. }
  destruct (Env.db_error env update_payment) eqn:Hdb; simpl.
  - do 2 eexists. split; [reflexivity|]. simpl.
    repeat split; try discriminate. exact Hsame.
  - do 2 eexists. split; [reflexivity|]. simpl.
    repeat split.
    + exact (lookup_store saved (World.payments w)).
    + exact Hsame.
Qed.

(** C3, as the code has it. The status of a Payment is not final: every
    call that reaches the Payment writes the status the gateway reports at
    that call, completed for a success and failed otherwise, whatever the
    status was before. *)
Theorem verify_payment_status_follows_gateway w payment :
  find (has_tx_ref tx_ref) (World.payments w) = Some payment ->
  Env.db_error env update_payment = false ->
  exists saved,
    lookup (Payment.id payment)
      (World.payments (snd (verify_payment env request w))) = Ok saved
    /\ Payment.payment_status saved
       = (if eq_str status "success" then completed else failed).
Proof.
  intros Hfind Hdb. reach. rewrite Hfind, Hstatus. simpl.
  destruct payment_method_reported as [method Hmethod].
  destruct (eq_str status "success").
  - rewrite Hmethod. simpl. unfold Payment_save, Payment_booking, Booking_save.
    rewrite Hdb. simpl.
    set (saved := Payment.with_updated_at _ _).
    exists saved. split; [|reflexivity].
    assert (L : lookup (Payment.id payment) (store saved (World.payments w)) = Ok saved)
      by exact (lookup_store saved (World.payments w)).
    destruct (lookup (Payment.booking payment) (World.bookings w)) as [b|e]; simpl.
    + destruct (Env.db_error env update_booking); simpl.
      * exact L.
      * rewrite queue_payment_email_logs. simpl. exact L.
    + match goal with
      | |- context [verify_except e ?w1] =>
          destruct (verify_except_logs e w1) as (r & msg & -> & _)
      end.
      exact L.
  - unfold Payment_save. rewrite Hdb. simpl.
    exists (Payment.with_updated_at (Env.now env)
              (Payment.with_payment_status failed payment)).
    split; [|reflexivity].
    exact (lookup_store
             (Payment.with_updated_at (Env.now env)
                (Payment.with_payment_status failed payment))
             (World.payments w)).
Qed.

(** The success path when both saves succeed. *)
Lemma verify_payment_success w payment booking method :
  eq_str status "success" = true ->
  get payment_info "payment_method" (JStr "") = Ok method ->
  find (has_tx_ref tx_ref) (World.payments w) = Some payment ->
  lookup (Payment.booking payment) (World.bookings w) = Ok booking ->
  Env.db_error env update_payment = false ->
  Env.db_error env update_booking = false ->
  let saved :=
    Payment.with_updated_at (Env.now env)
      (Payment.with_payment_method method
         (Payment.with_payment_status completed payment)) in
  let confirmed := Booking.with_status b_confirmed booking in
  verify_payment env request w
  = (Ok (verified_response confirmed),
     add_log ERROR "Failed to queue payment email"
       (set_bookings (store confirmed (World.bookings w))
          (UPDATE "booking" (Booking.id booking))
          (set_payments (store saved (World.payments w))
             (UPDATE "payment" (Payment.id payment)) w))).
Proof.
  intros Hok Hmethod Hfind Hbooking Hdb1 Hdb2 saved confirmed.
  reach. rewrite Hfind, Hstatus. simpl. rewrite Hok, Hmethod. simpl.
  unfold Payment_save, Payment_booking, Booking_save.
  rewrite Hdb1. simpl. rewrite Hbooking. simpl. rewrite Hdb2. simpl.
  rewrite queue_payment_email_logs. reflexivity.
Qed.

(** C4, as the code has it. The success path is two commits, the Payment
    first and the Booking second. When both succeed the Payment is completed
    and the Booking confirmed; when the first fails neither record changes;
    when the second fails the Payment stays completed, the Booking is
    untouched and the call answers 500. *)
Theorem verify_payment_success_is_two_commits w payment booking method :
  eq_str status "success" = true ->
  get payment_info "payment_method" (JStr "") = Ok method ->
  find (has_tx_ref tx_ref) (World.payments w) = Some payment ->
  lookup (Payment.booking payment) (World.bookings w) = Ok booking ->
  let saved :=
    Payment.with_updated_at (Env.now env)
      (Payment.with_payment_method method
         (Payment.with_payment_status completed payment)) in
  let confirmed := Booking.with_status b_confirmed booking in
  let r := fst (verify_payment env request w) in
  let w' := snd (verify_payment env request w) in
  let internal_error :=
    Response.mk HTTP_500_INTERNAL_SERVER_ERROR
      [("error", VStr "Internal server error")] in
  (Env.db_error env update_payment = false ->
   Env.db_error env update_booking = false ->
   r = Ok (verified_response confirmed)
   /\ World.payments w' = store saved (World.payments w)
   /\ World.bookings w' = store confirmed (World.bookings w))
  /\ (Env.db_error env update_payment = true ->
      r = Ok internal_error
      /\ World.payments w' = World.payments w
      /\ World.bookings w' = World.bookings w)
  /\ (Env.db_error env update_payment = false ->
      Env.db_error env update_booking = true ->
      r = Ok internal_error
      /\ World.payments w' = store saved (World.payments w)
      /\ World.bookings w' = World.bookings w)
  /\ saved
     = Payment.mk (Payment.id payment) (Payment.payment_id payment)
         (Payment.booking payment) (Payment.transaction_id payment)
         (Payment.amount payment) (Payment.currency payment)
         completed method
         (Payment.chapa_reference payment) (Payment.checkout_url payment)
         (Payment.created_at payment) (Env.now env)
  /\ confirmed
     = Booking.mk (Booking.id booking) (Booking.booking_id booking)
         (Booking.listing booking) (Booking.user booking)
         (Booking.check_in booking) (Booking.check_out booking)
         (Booking.guests booking) (Booking.total_price booking)
         b_confirmed (Booking.created_at booking)
  /\ Payment.payment_status saved = completed
  /\ Booking.status confirmed = b_confirmed
  /\ lookup (Payment.id payment) (store saved (World.payments w)) = Ok saved
  /\ lookup (Payment.booking payment) (store confirmed (World.bookings w))
     = Ok confirmed.
Proof.
  intros Hok Hmethod Hfind Hbooking saved confirmed r w' internal_error.
  subst r w'.
  repeat match goal with
         | |- _ /\ (_ = Payment.mk _ _ _ _ _ _ _ _ _ _ _ _ /\ _) => split
         | |- (_ -> _) /\ _ => split
         end.
  4: { split; [reflexivity|]. split; [reflexivity|]. split; [reflexivity|].
       split; [reflexivity|]. split.
       - exact (lookup_store saved (World.payments w)).
       - assert (Hk : Booking.id booking = Payment.booking payment).
         { unfold lookup in Hbooking.
           destruct (find _ (World.bookings w)) as [x|] eqn:F; [|discriminate].
           inversion Hbooking; subst. apply find_some in F.
           now apply Z.eqb_eq. }
         rewrite <- Hk. exact (lookup_store confirmed (World.bookings w)). }
  - intros Hdb1 Hdb2.
    rewrite (verify_payment_success w payment booking method); auto.
  - intro Hdb1. reach. rewrite Hfind, Hstatus. simpl.
    rewrite Hok, Hmethod. simpl. unfold Payment_save. rewrite Hdb1.
    repeat split; reflexivity.
  - intros Hdb1 Hdb2. reach. rewrite Hfind, Hstatus. simpl.
    rewrite Hok, Hmethod. simpl.
    unfold Payment_save, Payment_booking, Booking_save.
    rewrite Hdb1. simpl. rewrite Hbooking. simpl. rewrite Hdb2.
    repeat split; reflexivity.
Qed.

End Reported.

Lemma verify_payment_failure_leaves_booking_witness :
  World.bookings (snd (verify_payment (failure_at 300) (verify_request "tx-u1-0") w_pending))
  = [booking1]
  /\ World.payments
       (snd (verify_payment (failure_at 300) (verify_request "tx-u1-0") w_pending))
     = [ Payment.mk 1 "u1-1" 1 (Some "tx-u1-0") 10000 "ETB" failed JNull
           (Some "tx-u1-0") (JStr "https://checkout.chapa.co/pay/1") 100 300 ].
Proof.
  destruct (verify_payment_failure_leaves_booking
              (failure_at 300) (verify_request "tx-u1-0") "tx-u1-0"
              failure_body failure_info (JStr "failed")
              eq_refl eq_refl eq_refl eq_refl eq_refl
              w_pending payment1 eq_refl eq_refl)
    as (r & w' & E & Hb & _ & _ & _ & Hp & _ & Hrow & _).
  rewrite E. split; [exact Hb|].
  destruct (Hp eq_refl) as (_ & Hstore & _).
  simpl. rewrite Hstore, Hrow. reflexivity.
Defined.

Lemma verify_payment_status_follows_gateway_witness :
  exists saved,
    lookup 1 (World.payments
                (snd (verify_payment (failure_at 300) (verify_request "tx-u1-0")
                        w_pending))) = Ok saved
    /\ Payment.payment_status saved = failed.
Proof.
  exact (verify_payment_status_follows_gateway
           (failure_at 300) (verify_request "tx-u1-0") "tx-u1-0"
           failure_body failure_info (JStr "failed")
           eq_refl eq_refl eq_refl eq_refl eq_refl
           w_pending payment1 eq_refl eq_refl).
Defined.

(** C3 fails on the code: a Payment that a first call completed is failed
    by a later call for which the gateway reports a failure. *)
Lemma completed_payment_becomes_failed :
  let w1 := snd (verify_payment (success_at 200) (verify_request "tx-u1-0") w_pending) in
  let w2 := snd (verify_payment (failure_at 300) (verify_request "tx-u1-0") w1) in
  map Payment.payment_status (World.payments w1) = [completed]
  /\ map Payment.payment_status (World.payments w2) = [failed].
Proof. vm_compute. split; reflexivity. Qed.

Lemma verify_payment_success_is_two_commits_witness :
  let r := fst (verify_payment (success_then_db_error 200)
                  (verify_request "tx-u1-0") w_pending) in
  let w' := snd (verify_payment (success_then_db_error 200)
                   (verify_request "tx-u1-0") w_pending) in
  r = Ok (Response.mk HTTP_500_INTERNAL_SERVER_ERROR
            [("error", VStr "Internal server error")])
  /\ World.payments w'
     = [ Payment.mk 1 "u1-1" 1 (Some "tx-u1-0") 10000 "ETB" completed
           (JStr "telebirr") (Some "tx-u1-0")
           (JStr "https://checkout.chapa.co/pay/1") 100 200 ]
  /\ World.bookings w' = [booking1]
  /\ Booking.status booking1 = b_pending.
Proof.
  destruct (verify_payment_success_is_two_commits
              (success_then_db_error 200) (verify_request "tx-u1-0") "tx-u1-0"
              success_body success_info (JStr "success")
              eq_refl eq_refl eq_refl eq_refl eq_refl
              w_pending payment1 booking1 (JStr "telebirr")
              eq_refl eq_refl eq_refl eq_refl)
    as (_ & _ & H & Hrow & _).
  destruct (H eq_refl eq_refl) as (R & P & B).
  cbv zeta. rewrite R, P, B, Hrow. repeat split.
Defined.

(** C4 fails on the code: when the UPDATE of the booking fails, the call
    ends with the Payment completed and the Booking still pending. *)
Lemma payment_completed_booking_pending :
  let out := verify_payment (success_then_db_error 200)
               (verify_request "tx-u1-0") w_pending in
  map Payment.payment_status (World.payments w_pending) = [pending]
  /\ map Payment.payment_status (World.payments (snd out)) = [completed]
  /\ map Booking.status (World.bookings (snd out)) = [b_pending]
  /\ fst out = Ok (Response.mk HTTP_500_INTERNAL_SERVER_ERROR
                     [("error", VStr "Internal server error")]).
Proof. vm_compute. repeat split; reflexivity. Qed.

(** ** A second call *)

Lemma lookup_pk {A : Type} `{Model A} (k : Z) (t : list A) (r : A) :
  lookup k t = Ok r -> pk r = k.
Proof.
  unfold lookup. destruct (find _ t) as [x|] eqn:F; [|discriminate].
  intro E. inversion E; subst. apply find_some in F. now apply Z.eqb_eq.
Qed.

(** The row found by a query is still found, in its saved form, once it
    has been saved, provided its primary key denotes it and the saved form
    still matches the query. *)
Lemma find_store {A : Type} `{Model A} (f : A -> bool) (t : list A) (r r' : A) :
  find f t = Some r ->
  lookup (pk r) t = Ok r ->
  pk r' = pk r ->
  f r' = true ->
  find f (store r' t) = Some r'.
Proof.
  intros Hfind Hlookup Hpk Hf. unfold store, lookup in *.
  induction t as [|x t IH]; simpl in *; [discriminate|].
  rewrite Hpk. destruct (f x) eqn:Fx.
  - inversion Hfind; subst. rewrite Z.eqb_refl. simpl. now rewrite Hf.
  - destruct (pk x =? pk r) eqn:Ex.
    + inversion Hlookup; subst. apply find_some in Hfind. destruct Hfind; congruence.
    + specialize (IH Hfind Hlookup).
      destruct (update r' t) as [t1|] eqn:U; simpl; rewrite Fx.
      * exact IH.
      * rewrite find_app in IH. rewrite find_app. simpl in *. exact IH.
Qed.

Lemma completed_twice (t1 t2 : datetime) (m : json) (p : Payment.t) :
  Payment.with_updated_at t2
    (Payment.with_payment_method m
       (Payment.with_payment_status completed
          (Payment.with_updated_at t1
             (Payment.with_payment_method m
                (Payment.with_payment_status completed p)))))
  = Payment.with_updated_at t2
      (Payment.with_payment_method m (Payment.with_payment_status completed p)).
Proof. reflexivity. Qed.

(** C2, as the code has it. A second call with the same [tx_ref] and the
    same success report, on a Payment the first call completed, answers as
    the first did and leaves the Payment completed (the row under its key
    has status completed and the gateway's method) and the Booking
    confirmed (the row under its key has status confirmed), but it runs
    the success path again: it saves the Payment,
    whose [updated_at] becomes the time of the second call, saves the
    Booking, and repeats what the first call did to the queue and the log.
    Every column but [updated_at] is as the first call left it. *)
Theorem verify_payment_replay_saves_again
    env1 env2 request tx_ref response_data payment_info method w payment booking :
  tx_ref_of request = Some tx_ref ->
  Env.requests_get env1 tx_ref = Ok (200, response_data) ->
  Env.requests_get env2 tx_ref = Ok (200, response_data) ->
  get response_data "status" JNull = Ok (JStr "success") ->
  getitem response_data "data" = Ok payment_info ->
  getitem payment_info "status" = Ok (JStr "success") ->
  get payment_info "payment_method" (JStr "") = Ok method ->
  (forall o, Env.db_error env1 o = false) ->
  (forall o, Env.db_error env2 o = false) ->
  find (has_tx_ref tx_ref) (World.payments w) = Some payment ->
  lookup (Payment.id payment) (World.payments w) = Ok payment ->
  lookup (Payment.booking payment) (World.bookings w) = Ok booking ->
  let first := verify_payment env1 request w in
  let second := verify_payment env2 request (snd first) in
  let saved :=
    Payment.with_payment_method method
      (Payment.with_payment_status completed payment) in
  let confirmed := Booking.with_status b_confirmed booking in
  fst first = Ok (verified_response confirmed)
  /\ fst second = fst first
  /\ World.payments (snd first)
     = store (Payment.with_updated_at (Env.now env1) saved) (World.payments w)
  /\ World.payments (snd second)
     = store (Payment.with_updated_at (Env.now env2) saved) (World.payments w)
  /\ World.bookings (snd first) = store confirmed (World.bookings w)
  /\ World.bookings (snd second) = World.bookings (snd first)
  /\ World.statements (snd second)
     = World.statements (snd first)
       ++ [UPDATE "payment" (Payment.id payment); UPDATE "booking" (Booking.id booking)]
  /\ (exists jobs records,
        World.queue (snd first) = World.queue w ++ jobs
        /\ World.queue (snd second) = World.queue (snd first) ++ jobs
        /\ World.log (snd first) = World.log w ++ records
        /\ World.log (snd second) = World.log (snd first) ++ records)
  /\ lookup (Payment.id payment) (World.payments (snd second))
     = Ok (Payment.mk (Payment.id payment) (Payment.payment_id payment)
             (Payment.booking payment) (Payment.transaction_id payment)
             (Payment.amount payment) (Payment.currency payment)
             completed method
             (Payment.chapa_reference payment) (Payment.checkout_url payment)
             (Payment.created_at payment) (Env.now env2))
  /\ lookup (Payment.booking payment) (World.bookings (snd second))
     = Ok (Booking.mk (Booking.id booking) (Booking.booking_id booking)
             (Booking.listing booking) (Booking.user booking)
             (Booking.check_in booking) (Booking.check_out booking)
             (Booking.guests booking) (Booking.total_price booking)
             b_confirmed (Booking.created_at booking))
  /\ Payment.payment_status saved = completed
  /\ Booking.status confirmed = b_confirmed.
Proof.
  intros Htx Hget1 Hget2 Henv Hinfo Hstatus Hmethod Hdb1 Hdb2
    Hfind Hlookup Hbooking first second saved confirmed.
  assert (E1 := verify_payment_success env1 request tx_ref response_data
                  payment_info (JStr "success") Htx Hget1 Henv Hinfo Hstatus
                  w payment booking method eq_refl Hmethod Hfind Hbooking
                  (Hdb1 _) (Hdb1 _)).
  cbv zeta in E1. fold saved confirmed in E1.
  set (saved1 := Payment.with_updated_at (Env.now env1) saved) in *.
  assert (Hid : Booking.id booking = Payment.booking payment)
    by exact (lookup_pk _ _ _ Hbooking).
  assert (Hfind1 : find (has_tx_ref tx_ref) (World.payments (snd first)) = Some saved1).
  { subst first. rewrite E1. simpl.
    apply (find_store (has_tx_ref tx_ref) (World.payments w) payment saved1);
      auto.
    apply find_some in Hfind. destruct Hfind as [_ Hf]. exact Hf. }
  assert (Hbooking1 : lookup (Payment.booking saved1) (World.bookings (snd first))
                      = Ok confirmed).
  { subst first. rewrite E1. simpl. rewrite <- Hid.
    exact (lookup_store confirmed (World.bookings w)). }
  assert (E2 := verify_payment_success env2 request tx_ref response_data
                  payment_info (JStr "success") Htx Hget2 Henv Hinfo Hstatus
                  (snd first) saved1 confirmed method eq_refl Hmethod Hfind1
                  Hbooking1 (Hdb2 _) (Hdb2 _)).
  cbv zeta in E2. fold second in E2.
  unfold saved1, saved in E2. rewrite completed_twice in E2.
  fold saved in E2. change (Booking.with_status b_confirmed confirmed) with confirmed in E2.
  change (Payment.id (Payment.with_updated_at (Env.now env1) saved))
    with (Payment.id payment) in E2.
  change (Booking.id confirmed) with (Booking.id booking) in E2.
  rewrite E2. subst first. rewrite E1. simpl.
  split; [reflexivity|]. split; [reflexivity|]. split; [reflexivity|].
  split.
  { exact (store_store saved1 (Payment.with_updated_at (Env.now env2) saved)
             (World.payments w) eq_refl). }
  split; [reflexivity|]. split.
  { exact (store_store confirmed confirmed (World.bookings w) eq_refl). }
  split.
  { now rewrite <- !app_assoc. }
  split.
  { exists [], [(ERROR, "Failed to queue payment email")].
    now rewrite !app_nil_r. }
  split.
  { pose proof (store_store saved1 (Payment.with_updated_at (Env.now env2) saved)
                  (World.payments w)) as Hs.
    rewrite (Hs eq_refl).
    exact (lookup_store (Payment.with_updated_at (Env.now env2) saved)
             (World.payments w)). }
  split.
  { pose proof (store_store confirmed confirmed (World.bookings w)) as Hs.
    rewrite (Hs eq_refl).
    pose proof (lookup_store confirmed (World.bookings w)) as L.
    change (pk confirmed) with (Booking.id booking) in L.
    rewrite Hid in L. exact L. }
  split; reflexivity.
Qed.

Lemma verify_payment_replay_saves_again_witness :
  let first := verify_payment (success_at 200) (verify_request "tx-u1-0") w_pending in
  let second := verify_payment (success_at 300) (verify_request "tx-u1-0") (snd first) in
  fst second = fst first
  /\ lookup 1 (World.payments (snd second))
     = Ok (Payment.mk 1 "u1-1" 1 (Some "tx-u1-0") 10000 "ETB" completed
             (JStr "telebirr") (Some "tx-u1-0")
             (JStr "https://checkout.chapa.co/pay/1") 100 300)
  /\ lookup 1 (World.bookings (snd second))
     = Ok (Booking.mk 1 "b-0001" 1 1 "2025-01-10" "2025-01-12" 2 10000
             b_confirmed 10).
Proof.
  destruct (verify_payment_replay_saves_again
              (success_at 200) (success_at 300) (verify_request "tx-u1-0")
              "tx-u1-0" success_body success_info (JStr "telebirr")
              w_pending payment1 booking1
              eq_refl eq_refl eq_refl eq_refl eq_refl eq_refl eq_refl
              (fun _ => eq_refl) (fun _ => eq_refl) eq_refl eq_refl eq_refl)
    as (_ & Hsame & _ & _ & _ & _ & _ & _ & Hp & Hb & _).
  split; [exact Hsame|]. split; [exact Hp | exact Hb].
Defined.

(** C2 fails on the code: the second call writes both rows again, and the
    state it leaves is not the state the first call left. *)
Lemma replay_mutates_again :
  let first := verify_payment (success_at 200) (verify_request "tx-u1-0") w_pending in
  let second := verify_payment (success_at 300) (verify_request "tx-u1-0") (snd first) in
  map Payment.payment_status (World.payments (snd first)) = [completed]
  /\ fst second = fst first
  /\ map Payment.updated_at (World.payments (snd first)) = [200]
  /\ map Payment.updated_at (World.payments (snd second)) = [300]
  /\ World.statements (snd second)
     = World.statements (snd first) ++ [UPDATE "payment" 1; UPDATE "booking" 1]
  /\ snd second <> snd first.
Proof.
  vm_compute. repeat split; try reflexivity. discriminate.
Qed.

(** ** At most one completed payment? *)

(** Whatever the request and the gateway do, [verify_payment] leaves the
    payments table as it was or saves one row. *)
Lemma verify_payment_payments env request w :
  let w' := snd (verify_payment env request w) in
  World.payments w' = World.payments w
  \/ exists p, World.payments w' = store p (World.payments w).
Proof.
  unfold verify_payment, Payment_save, Payment_booking, Booking_save,
    verify_except.
  unfold_m. simpl.
  repeat match goal with
         | |- context [queue_payment_email ?e ?p ?b ?w0] =>
             rewrite (queue_payment_email_logs e p b w0)
         | |- context [match ?x with _ => _ end] =>
             lazymatch x with
             | context [match _ with _ => _ end] => fail
             | _ => destruct x; simpl
             end
         end;
    try (now left); right; eexists; reflexivity.
Qed.

Lemma initiate_payment_completed env request pk w b :
  completed_payments b (snd (BookingViewSet.initiate_payment env request pk w))
  = completed_payments b w.
Proof.
  unfold completed_payments.
  destruct (initiate_payment_payments env request pk w) as [E|(p & E & Hp)];
    rewrite E; [reflexivity|].
  rewrite filter_app. simpl. unfold is_completed_for at 2. rewrite Hp.
  rewrite andb_false_r. now rewrite app_nil_r.
Qed.

Lemma verify_payment_completed env request w b :
  (completed_payments b (snd (verify_payment env request w))
   <= completed_payments b w + 1)%nat.
Proof.
  unfold completed_payments.
  destruct (verify_payment_payments env request w) as [E|(p & E)]; rewrite E.
  - lia.
  - apply count_store.
Qed.

Lemma run_ops_completed (ops : list op) (w : World.t) (b : Booking.t) :
  (completed_payments b (run_ops ops w)
   <= completed_payments b w + List.length (filter is_verify ops))%nat.
Proof.
  unfold run_ops. revert w.
  induction ops as [|o ops IH]; intro w; simpl; [lia|].
  specialize (IH (apply_op w o)).
  destruct o as [env request pk|env request]; simpl in *.
  - rewrite initiate_payment_completed in IH. exact IH.
  - pose proof (verify_payment_completed env request w b). lia.
Qed.

(** C1, as the code has it. While a booking has a completed Payment,
    [initiate_payment] for it answers 400, whatever the gateway would say,
    and changes nothing. [initiate_payment] never changes how many
    completed Payments a booking has and one [verify_payment] raises that
    number by at most one, so after any sequence of the two operations it
    is at most what it was plus the number of verifications. *)
Theorem completed_payments_guard_and_growth env request pk w booking :
  (BookingViewSet.get_object request pk w = (Ok booking, w) ->
   (1 <= completed_payments booking w)%nat ->
   BookingViewSet.initiate_payment env request pk w
   = (Ok (Response.mk HTTP_400_BAD_REQUEST
            [("error", VStr "This booking already has a completed payment.")]),
      w))
  /\ (forall b,
        completed_payments b (snd (BookingViewSet.initiate_payment env request pk w))
        = completed_payments b w)
  /\ (forall b,
        (completed_payments b (snd (verify_payment env request w))
         <= completed_payments b w + 1)%nat)
  /\ (forall ops b,
        (completed_payments b (run_ops ops w)
         <= completed_payments b w + List.length (filter is_verify ops))%nat).
Proof.
  split; [|split; [|split]].
  - intros Hobj Hpaid. unfold BookingViewSet.initiate_payment. unfold_m.
    rewrite Hobj.
    assert (E : existsb (is_completed_for booking) (World.payments w) = true).
    { unfold completed_payments in Hpaid.
      destruct (filter (is_completed_for booking) (World.payments w)) as [|p l] eqn:F;
        [simpl in Hpaid; lia|].
      assert (I : In p (filter (is_completed_for booking) (World.payments w)))
        by (rewrite F; now left).
      apply filter_In in I. apply existsb_exists. now exists p. }
    rewrite E. reflexivity.
  - intro b. apply initiate_payment_completed.
  - intro b. apply verify_payment_completed.
  - intros ops b. apply run_ops_completed.
Qed.

Lemma completed_payments_guard_and_growth_witness :
  BookingViewSet.initiate_payment (success_at 400) (request_of alice) 1 w_paid
  = (Ok (Response.mk HTTP_400_BAD_REQUEST
           [("error", VStr "This booking already has a completed payment.")]),
     w_paid).
Proof.
  apply (proj1 (completed_payments_guard_and_growth (success_at 400)
                  (request_of alice) 1 w_paid
                  (Booking.with_status b_confirmed booking1))).
  - reflexivity.
  - vm_compute. lia.
Defined.

(** C1 fails on the code: two payments initiated for one booking before
    either is verified are both completed by their verifications. *)
Lemma two_completed_payments :
  completed_payments booking1 w0 = 0%nat
  /\ completed_payments booking1 (run_ops pay_twice w0) = 2%nat
  /\ map Payment.booking (World.payments (run_ops pay_twice w0)) = [1; 1]
  /\ map Payment.payment_status (World.payments (run_ops pay_twice w0))
     = [completed; completed].
Proof. vm_compute. repeat split; reflexivity. Qed.

(** ** Booking creation *)

(** Even with the name of the listing at hand, Celery would refuse the
    call: [guests] is not a parameter of the task. *)
Lemma guests_is_not_a_parameter (a b c d e f : value) :
  check_arguments send_booking_confirmation_email
    [ ("booking_id", a); ("user_email", b); ("listing_name", c);
      ("check_in_date", d); ("check_out_date", e); ("guests", f) ] = false.
Proof. reflexivity. Qed.

(** A failure to queue the e-mail never fails the creation: as soon as the
    booking is inserted, [create] answers 201 with the booking, pending.
    But the e-mail block reads [booking.listing.name], and [Listing] has a
    [title] and no [name]: the block always ends in its [except] clause
    and no job is queued. *)
Lemma create_persists_and_queues_nothing env request v w :
  Env.db_error env insert_booking = false ->
  let booking :=
    Booking.mk (next_pk (World.bookings w)) (Env.uuid4 env 0)
      (Validated.listing v) (User.id (Request.user request))
      (Validated.check_in v) (Validated.check_out v) (Validated.guests v)
      (Validated.total_price v) b_pending (Env.now env) in
  exists w',
    BookingViewSet.create env request (Some v) w
    = (Ok (Response.mk HTTP_201_CREATED
             [ ("message",
                VStr "Booking created successfully. Confirmation email will be sent shortly.");
               ("booking", VSerialized booking) ]),
       w')
    /\ World.bookings w' = World.bookings w ++ [booking]
    /\ World.queue w' = World.queue w
    /\ World.log w'
       = World.log w ++ [ (INFO, "Booking created");
                          (ERROR, "Failed to queue booking email") ].
Proof.
  intros Hdb booking.
  unfold BookingViewSet.create, BookingViewSet.perform_create, serializer_save,
    Booking_listing.
  unfold_m. rewrite Hdb. simpl. fold booking.
  destruct (lookup (Validated.listing v) (World.listings w)); simpl;
    (eexists; split; [reflexivity|]); simpl;
    repeat split; now rewrite <- app_assoc.
Qed.

(** C8 on the code, at a valid request: the booking is created, pending,
    and answered with 201, but no confirmation job is on the queue; the
    log holds the failure. *)
Theorem create_queues_no_confirmation :
  let out := BookingViewSet.create (success_at 500) (request_of alice)
               (Some new_booking) w0 in
  fst out
  = Ok (Response.mk HTTP_201_CREATED
          [ ("message",
             VStr "Booking created successfully. Confirmation email will be sent shortly.");
            ("booking",
             VSerialized
               (Booking.mk 2 "u-0" 1 1 "2025-02-01" "2025-02-03" 1 10000
                  b_pending 500)) ])
  /\ map Booking.status (World.bookings (snd out)) = [b_pending; b_pending]
  /\ World.queue (snd out) = []
  /\ World.log (snd out)
     = [(INFO, "Booking created"); (ERROR, "Failed to queue booking email")].
Proof. vm_compute. repeat split; reflexivity. Qed.

(** ** payment_status *)

(** [payment_status] never answers 200 or 404, and writes nothing but the
    log: an unknown id raises [Http404] inside the [try], whose [except]
    answers 400; for the owner the projection reads [payment.verified_at],
    which [Payment] does not declare, and the same [except] answers 400. *)
Lemma payment_status_answers request payment_id w :
  exists r w',
    payment_status request payment_id w = (Ok r, w')
    /\ (Response.status_code r = HTTP_400_BAD_REQUEST
        \/ Response.status_code r = HTTP_403_FORBIDDEN)
    /\ World.payments w' = World.payments w
    /\ World.bookings w' = World.bookings w
    /\ World.users w' = World.users w
    /\ World.listings w' = World.listings w
    /\ World.statements w' = World.statements w
    /\ World.queue w' = World.queue w.
Proof.
  unfold payment_status, get_object_or_404, Payment_booking, Booking_user.
  unfold_m. simpl.
  destruct (find _ (World.payments w)) as [p|]; simpl.
  2: { do 2 eexists. split; [reflexivity|]. simpl. tauto. }
  destruct (lookup (Payment.booking p) (World.bookings w)) as [b|]; simpl.
  2: { do 2 eexists. split; [reflexivity|]. simpl. tauto. }
  destruct (lookup (Booking.user b) (World.users w)) as [u|]; simpl.
  2: { do 2 eexists. split; [reflexivity|]. simpl. tauto. }
  destruct (User.id u =? User.id (Request.user request)); simpl;
    do 2 eexists; (split; [reflexivity|]); simpl; tauto.
Qed.

(** C9 on the code: an unknown payment id is answered with 400, not 404;
    the owner of the booking is answered with 400, not with 200 and the
    projection; another user is answered with 403. *)
Theorem payment_status_unknown_is_400 :
  let bad_request :=
    Response.mk HTTP_400_BAD_REQUEST
      [("error", VStr "Failed to retrieve payment status")] in
  payment_status (request_of alice) "no-such-payment" w_pending
  = (Ok bad_request, add_log ERROR "Error in payment_status" w_pending)
  /\ payment_status (request_of alice) "u1-1" w_pending
     = (Ok bad_request, add_log ERROR "Error in payment_status" w_pending)
  /\ payment_status (request_of bob) "u1-1" w_pending
     = (Ok (Response.mk HTTP_403_FORBIDDEN [("error", VStr "Unauthorized")]),
        w_pending).
Proof. vm_compute. repeat split; reflexivity. Qed.

(** ** Two calls at once *)

(** [verify_payment] is its first statement, which may raise, followed by
    its steps run one after the other, which end in a response. *)
Lemma verify_payment_run env request w :
  match tx_ref_param request with
  | Raise e => verify_payment env request w = (Raise e, w)
  | Ok tx_ref =>
      exists r w',
        verify_payment env request w = (Ok r, w')
        /\ Verify.run env 6 (Verify.start tx_ref) w = (Verify.Done r, w')
  end.
Proof.
  unfold verify_payment, Verify.start, Verify.run, Verify.step, Verify.piece,
    Payment_save, Payment_booking, Booking_save, verify_except.
  unfold_m. destruct (tx_ref_param request) as [v|e]; [|reflexivity].
  destruct (truthy v); cbn [negb]; [|do 2 eexists; split; reflexivity].
  generalize (str v). intro tx_ref. simpl.
  repeat match goal with
         | |- context [queue_payment_email ?e ?p ?b ?w0] =>
             rewrite (queue_payment_email_logs e p b w0)
         | |- context [match ?x with _ => _ end] =>
             lazymatch x with
             | context [match _ with _ => _ end] => fail
             | _ => destruct x; simpl
             end
         end;
    do 2 eexists; split; reflexivity.
Qed.

Lemma store_In {A : Type} `{Model A} (r : A) (t : list A) : In r (store r t).
Proof.
  assert (L := lookup_store r t). unfold lookup in L.
  destruct (find _ (store r t)) as [x|] eqn:F; [|discriminate].
  inversion L; subst. now apply find_some in F.
Qed.

Lemma In_store {A : Type} `{Model A} (x r : A) (t : list A) :
  In x (store r t) -> x = r \/ In x t.
Proof.
  unfold store. destruct (update r t) as [t'|] eqn:E.
  - revert t' E. induction t as [|y t IH]; simpl; intros t' E; [discriminate|].
    destruct (pk y =? pk r).
    + inversion E; subst. simpl. intros [->|I]; auto.
    + destruct (update r t) as [t''|]; [|discriminate].
      inversion E; subst. simpl. intros [->|I]; auto.
      destruct (IH t'' eq_refl I); auto.
  - intro I. apply in_app_or in I. destruct I as [I|[->|[]]]; auto.
Qed.

Lemma find_store_some {A : Type} `{Model A} (f : A -> bool) (r : A) (t : list A) :
  f r = true -> exists x, find f (store r t) = Some x.
Proof.
  intro Hf. destruct (find f (store r t)) as [x|] eqn:F; [eauto|].
  pose proof (find_none _ _ F r (store_In r t)). congruence.
Qed.

Lemma lookup_store_some {A : Type} `{Model A} (k : Z) (r x : A) (t : list A) :
  lookup k t = Ok x -> exists y, lookup k (store r t) = Ok y.
Proof.
  intro L. destruct (Z.eq_dec k (pk r)) as [->|Hk].
  - exists r. apply lookup_store.
  - exists x. now rewrite lookup_store_other.
Qed.

Lemma updates_statement (table : string) (s : sql) (w : World.t) :
  List.length (filter (Verify.is_update table) (World.statements w ++ [s]))
  = (Verify.updates table w + if Verify.is_update table s then 1 else 0)%nat.
Proof.
  unfold Verify.updates. rewrite filter_app, length_app. simpl.
  now destruct (Verify.is_update table s).
Qed.

Section Interleaving.
Variables (tx_ref : string) (response_data payment_info method : json).
Hypothesis Henvelope : get response_data "status" JNull = Ok (JStr "success").
Hypothesis Hinfo : getitem response_data "data" = Ok payment_info.
Hypothesis Hstatus : getitem payment_info "status" = Ok (JStr "success").
Hypothesis Hmethod : get payment_info "payment_method" (JStr "") = Ok method.


Lemma on_track_mono w w' k :
  (forall p, Verify.resolves w p -> Verify.resolves w' p) ->
  Verify.on_track tx_ref payment_info w k ->
  Verify.on_track tx_ref payment_info w' k.
Proof.
  intro Hres. destruct k; simpl; auto.
  intros (? & ? & ?). auto.
Qed.

(** A step of a call on the success path keeps it there, keeps the
    database consistent, takes the call one step further and accounts for
    its writes. *)
Lemma step_on_track env k w :
  Verify.succeeds tx_ref response_data env ->
  Verify.consistent tx_ref w ->
  Verify.on_track tx_ref payment_info w k ->
  let k' := fst (Verify.step env k w) in
  let w' := snd (Verify.step env k w) in
  Verify.consistent tx_ref w'
  /\ Verify.on_track tx_ref payment_info w' k'
  /\ (forall p, Verify.resolves w p -> Verify.resolves w' p)
  /\ Verify.remaining k' = pred (Verify.remaining k)
  /\ (Verify.updates "payment" w' + Verify.saved_payment k
      = Verify.updates "payment" w + Verify.saved_payment k')%nat
  /\ (Verify.updates "booking" w' + Verify.saved_booking k
      = Verify.updates "booking" w + Verify.saved_booking k')%nat.
Proof.
  intros (Hget & Hdb1 & Hdb2) (Hfound & Hall) Htrack.
  destruct k as [t|t info|info p|p|p b|p b|r]; simpl in Htrack.
  - (* the call to the gateway *)
    subst t. unfold Verify.step, Verify.piece. unfold_m.
    rewrite Hget. simpl. rewrite Henvelope. simpl. rewrite Hinfo. simpl.
    repeat split; auto.
  - (* the lookup of the payment *)
    destruct Htrack as [-> ->]. destruct Hfound as [p Hp].
    unfold Verify.step, Verify.piece. unfold_m. rewrite Hp. simpl.
    pose proof (find_some _ _ Hp) as [Hin Htx].
    repeat split; eauto.
  - (* the save of the payment *)
    destruct Htrack as (-> & Htx & Hres).
    unfold Verify.step, Verify.piece, Payment_save. unfold_m.
    rewrite Hstatus. simpl. rewrite Hmethod. simpl. rewrite Hdb1. simpl.
    set (saved := Payment.with_updated_at _ _).
    split; [split|].
    + apply (find_store_some (has_tx_ref tx_ref) saved). exact Htx.
    + intros q Hq. apply In_store in Hq. destruct Hq as [->|Hq].
      * exact Hres.
      * exact (Hall q Hq).
    + repeat split; auto.
      all: unfold Verify.updates at 1; simpl; rewrite updates_statement;
        simpl; lia.
  - (* the load of the booking *)
    destruct Htrack as [b Hb].
    unfold Verify.step, Verify.piece, Payment_booking. unfold_m.
    rewrite Hb. simpl. repeat split; auto.
  - (* the save of the booking *)
    unfold Verify.step, Verify.piece, Booking_save. unfold_m.
    rewrite Hdb2. simpl.
    assert (Hres : forall q, Verify.resolves w q ->
                     Verify.resolves
                       (set_bookings (store b (World.bookings w))
                          (UPDATE "booking" (Booking.id b)) w) q).
    { intros q [x Hx]. unfold Verify.resolves. simpl.
      exact (lookup_store_some _ b x _ Hx). }
    split; [split|]; auto.
    repeat split; auto.
    all: unfold Verify.updates at 1; simpl; rewrite updates_statement;
      simpl; lia.
  - (* the e-mail block and the response *)
    unfold Verify.step, Verify.piece. unfold_m.
    rewrite queue_payment_email_logs. simpl.
    split; [split|]; auto.
    repeat split; eauto.
  - (* the call has answered *)
    unfold Verify.step, Verify.piece. unfold_m. simpl.
    split; [split|]; auto.
Qed.

Lemma sched_in_flight env1 env2 u v c t :
  Verify.succeeds tx_ref response_data env1 ->
  Verify.succeeds tx_ref response_data env2 ->
  Verify.in_flight tx_ref payment_info u v c ->
  let c' := Verify.sched env1 env2 c t in
  Verify.in_flight tx_ref payment_info u v c'
  /\ Verify.remaining (Verify.first c')
     = (Verify.remaining (Verify.first c)
        - match t with Verify.T1 => 1 | Verify.T2 => 0 end)%nat
  /\ Verify.remaining (Verify.second c')
     = (Verify.remaining (Verify.second c)
        - match t with Verify.T1 => 0 | Verify.T2 => 1 end)%nat.
Proof.
  intros H1 H2 (Hc & Ht1 & Ht2 & Hu & Hv).
  destruct c as [w k1 k2]; simpl in *. destruct t; unfold Verify.sched; simpl.
  - destruct (step_on_track env1 k1 w H1 Hc Ht1)
      as (Hc' & Ht' & Hres & Hrem & Hu' & Hv').
    destruct (Verify.step env1 k1 w) as [k' w']; simpl in *.
    split; [|split; lia].
    split; [exact Hc'|]. split; [exact Ht'|].
    split; [exact (on_track_mono w w' k2 Hres Ht2)|].
    simpl. split; lia.
  - destruct (step_on_track env2 k2 w H2 Hc Ht2)
      as (Hc' & Ht' & Hres & Hrem & Hu' & Hv').
    destruct (Verify.step env2 k2 w) as [k' w']; simpl in *.
    split; [|split; lia].
    split; [exact Hc'|]. split; [exact (on_track_mono w w' k1 Hres Ht1)|].
    split; [exact Ht'|].
    simpl. split; lia.
Qed.

Lemma interleave_in_flight env1 env2 u v schedule c :
  Verify.succeeds tx_ref response_data env1 ->
  Verify.succeeds tx_ref response_data env2 ->
  Verify.in_flight tx_ref payment_info u v c ->
  let c' := Verify.interleave env1 env2 schedule c in
  Verify.in_flight tx_ref payment_info u v c'
  /\ Verify.remaining (Verify.first c')
     = (Verify.remaining (Verify.first c)
        - Verify.count_thread Verify.T1 schedule)%nat
  /\ Verify.remaining (Verify.second c')
     = (Verify.remaining (Verify.second c)
        - Verify.count_thread Verify.T2 schedule)%nat.
Proof.
  intros H1 H2. unfold Verify.interleave. revert c.
  induction schedule as [|t schedule IH]; intros c Hc; simpl.
  - unfold Verify.count_thread. simpl. split; [exact Hc|]. split; lia.
  - destruct (sched_in_flight env1 env2 u v c t H1 H2 Hc) as (Hc' & R1 & R2).
    destruct (IH _ Hc') as (Hc'' & R1' & R2').
    split; [exact Hc''|].
    rewrite R1', R2', R1, R2. unfold Verify.count_thread.
    destruct t; simpl; lia.
Qed.

End Interleaving.

Section RacingFacts.
Variables (env1 env2 : Env.t) (tx_ref : string).
Variables (response_data payment_info method : json).
Variables (p0 : Payment.t) (b0 : Booking.t) (w0 : World.t).
Hypothesis Henvelope : get response_data "status" JNull = Ok (JStr "success").
Hypothesis Hinfo : getitem response_data "data" = Ok payment_info.
Hypothesis Hstatus : getitem payment_info "status" = Ok (JStr "success").
Hypothesis Hmethod : get payment_info "payment_method" (JStr "") = Ok method.
Hypothesis Htx0 : has_tx_ref tx_ref p0 = true.
Hypothesis Hid : Booking.id b0 = Payment.booking p0.

(** Whichever form of the payment a call has read, what it saves is the
    payment as it was when the calls began, completed by this call. *)
Lemma copy_facts p :
  In p (p0 :: written env1 env2 method p0) ->
  Payment.id p = Payment.id p0
  /\ Payment.booking p = Payment.booking p0
  /\ has_tx_ref tx_ref p = true
  /\ forall env, saved_completed env method p = saved_completed env method p0.
Proof.
  intros [<-|[<-|[<-|[]]]]; repeat split; auto.
Qed.

Lemma world_ok_eq np nb nd np' nb' nd' w :
  world_ok env1 env2 tx_ref method p0 b0 w0 np nb nd w ->
  np = np' -> nb = nb' -> nd = nd' ->
  world_ok env1 env2 tx_ref method p0 b0 w0 np' nb' nd' w.
Proof. intros H -> -> ->. exact H. Qed.

(** One step of one of the two calls. *)
Lemma thread_step env k w np nb nd :
  env = env1 \/ env = env2 ->
  Verify.succeeds tx_ref response_data env ->
  world_ok env1 env2 tx_ref method p0 b0 w0 np nb nd w ->
  copy_ok env1 env2 tx_ref payment_info method p0 b0 k ->
  let k' := fst (Verify.step env k w) in
  let w' := snd (Verify.step env k w) in
  copy_ok env1 env2 tx_ref payment_info method p0 b0 k'
  /\ world_ok env1 env2 tx_ref method p0 b0 w0
       (np + Verify.saved_payment k' - Verify.saved_payment k)
       (nb + Verify.saved_booking k' - Verify.saved_booking k)
       (nd + notified k' - notified k) w'.
Proof.
  intros Henv (Hget & Hdb1 & Hdb2) Hw Hk.
  assert (Hmine : In (saved_completed env method p0)
                    (written env1 env2 method p0)).
  { unfold written. destruct Henv as [->| ->]; simpl; auto. }
  destruct Hw as ((q & Fq & Lq & Iq & Wq) & (b & Lb & Cb & Wb) & Hlog & Hqueue).
  destruct (copy_facts q Iq) as (Qid & _ & Qtx & _).
  destruct k as [t|t info|info p|p|p c|p c|r]; simpl in Hk.
  - (* the call to the gateway *)
    subst t. unfold Verify.step, Verify.piece. unfold_m.
    rewrite Hget. simpl. rewrite Henvelope. simpl. rewrite Hinfo. simpl.
    split; [auto|]. apply (world_ok_eq np nb nd); try lia.
    split; [exists q; auto|]. split; [exists b; auto|auto].
  - (* the lookup of the payment *)
    destruct Hk as [-> ->].
    unfold Verify.step, Verify.piece. unfold_m. rewrite Fq. simpl.
    split; [auto|]. apply (world_ok_eq np nb nd); try lia.
    split; [exists q; auto|]. split; [exists b; auto|auto].
  - (* the save of the payment *)
    destruct Hk as (-> & Ip).
    destruct (copy_facts p Ip) as (Pid & Pb & Ptx & Psave).
    unfold Verify.step, Verify.piece, Payment_save. unfold_m.
    rewrite Hstatus. simpl. rewrite Hmethod. simpl. rewrite Hdb1. simpl.
    change (Payment.with_updated_at (Env.now env)
              (Payment.with_payment_method method
                 (Payment.with_payment_status completed p)))
      with (saved_completed env method p).
    rewrite (Psave env).
    set (q' := saved_completed env method p0) in *.
    split; [exact Pb|].
    apply (world_ok_eq (np + 1) nb nd); try lia.
    split; [|split; [exists b; auto|auto]].
    exists q'. split; [|split; [|split; [right; exact Hmine|intros _; exact Hmine]]].
    + apply (find_store (has_tx_ref tx_ref) (World.payments w) q q'); auto.
      change (pk q) with (Payment.id q). now rewrite Qid.
    + exact (lookup_store q' (World.payments w)).
  - (* the load of the booking *)
    unfold Verify.step, Verify.piece, Payment_booking. unfold_m.
    rewrite Hk, Lb. simpl.
    split.
    + destruct Cb as [->| ->]; reflexivity.
    + apply (world_ok_eq np nb nd); try lia.
      split; [exists q; auto|]. split; [exists b; auto|auto].
  - (* the save of the booking *)
    subst c. unfold Verify.step, Verify.piece, Booking_save. unfold_m.
    rewrite Hdb2. simpl.
    split; [reflexivity|].
    apply (world_ok_eq np (nb + 1) nd); try lia.
    split; [exists q; auto|]. split; [|auto].
    exists (Booking.with_status b_confirmed b0).
    split; [|auto].
    rewrite <- Hid.
    exact (lookup_store (Booking.with_status b_confirmed b0) (World.bookings w)).
  - (* the e-mail block and the response *)
    subst c. unfold Verify.step, Verify.piece. unfold_m.
    rewrite queue_payment_email_logs. simpl.
    split; [reflexivity|].
    apply (world_ok_eq np nb (nd + 1)); try lia.
    split; [exists q; auto|]. split; [exists b; auto|]. split; [|auto].
    simpl. rewrite Hlog, repeat_app, app_assoc. reflexivity.
  - (* the call has answered *)
    unfold Verify.step, Verify.piece. unfold_m. simpl.
    split; [exact Hk|]. apply (world_ok_eq np nb nd); try lia.
    split; [exists q; auto|]. split; [exists b; auto|auto].
Qed.

(** A step of either call keeps the two calls and the database in
    agreement. *)
Lemma sched_racing c t :
  Verify.succeeds tx_ref response_data env1 ->
  Verify.succeeds tx_ref response_data env2 ->
  racing env1 env2 tx_ref payment_info method p0 b0 w0 c ->
  racing env1 env2 tx_ref payment_info method p0 b0 w0 (Verify.sched env1 env2 c t).
Proof.
  intros H1 H2 (Hw & C1 & C2). destruct c as [w k1 k2]; simpl in *.
  destruct t; unfold Verify.sched; simpl.
  - destruct (thread_step env1 k1 w _ _ _ (or_introl eq_refl) H1 Hw C1)
      as (C1' & Hw').
    destruct (Verify.step env1 k1 w) as [k' w']; simpl in *.
    split; [|split; assumption].
    apply (world_ok_eq _ _ _ _ _ _ _ Hw'); simpl; lia.
  - destruct (thread_step env2 k2 w _ _ _ (or_intror eq_refl) H2 Hw C2)
      as (C2' & Hw').
    destruct (Verify.step env2 k2 w) as [k' w']; simpl in *.
    split; [|split; assumption].
    apply (world_ok_eq _ _ _ _ _ _ _ Hw'); simpl; lia.
Qed.

Lemma interleave_racing schedule c :
  Verify.succeeds tx_ref response_data env1 ->
  Verify.succeeds tx_ref response_data env2 ->
  racing env1 env2 tx_ref payment_info method p0 b0 w0 c ->
  racing env1 env2 tx_ref payment_info method p0 b0 w0
    (Verify.interleave env1 env2 schedule c).
Proof.
  intros H1 H2. unfold Verify.interleave. revert c.
  induction schedule as [|t schedule IH]; intros c Hc; simpl; [exact Hc|].
  apply IH. now apply sched_racing.
Qed.

End RacingFacts.

Lemma remaining_done (k : Verify.pc) :
  Verify.remaining k = 0%nat -> exists r, k = Verify.Done r.
Proof. destruct k; simpl; try discriminate. eauto. Qed.

(** C10, as the code has it. Two calls for the same [tx_ref] are not
    serialized and there is no replay branch: when the gateway reports a
    success to both, then however their database accesses interleave, both
    calls save the Payment and both save the Booking (each table receives
    two UPDATEs), both run the notification block (the log gains its two
    records), and both answer "Payment verified and confirmed" for the
    booking. What they save is the Payment with status completed and the
    gateway's method, every other column but [updated_at] as it was, and
    the Booking with status confirmed, every other column as it was: that
    is what the database holds when both have answered. *)
Theorem concurrent_verifications_both_mutate
    env1 env2 tx_ref response_data payment_info method schedule w p0 b0 :
  get response_data "status" JNull = Ok (JStr "success") ->
  getitem response_data "data" = Ok payment_info ->
  getitem payment_info "status" = Ok (JStr "success") ->
  get payment_info "payment_method" (JStr "") = Ok method ->
  Verify.succeeds tx_ref response_data env1 ->
  Verify.succeeds tx_ref response_data env2 ->
  Verify.consistent tx_ref w ->
  find (has_tx_ref tx_ref) (World.payments w) = Some p0 ->
  lookup (Payment.id p0) (World.payments w) = Ok p0 ->
  lookup (Payment.booking p0) (World.bookings w) = Ok b0 ->
  (6 <= Verify.count_thread Verify.T1 schedule)%nat ->
  (6 <= Verify.count_thread Verify.T2 schedule)%nat ->
  let c := Verify.interleave env1 env2 schedule (two_calls tx_ref w) in
  let completed_at (t : datetime) :=
    Payment.mk (Payment.id p0) (Payment.payment_id p0) (Payment.booking p0)
      (Payment.transaction_id p0) (Payment.amount p0) (Payment.currency p0)
      completed method (Payment.chapa_reference p0) (Payment.checkout_url p0)
      (Payment.created_at p0) t in
  let confirmed :=
    Booking.mk (Booking.id b0) (Booking.booking_id b0) (Booking.listing b0)
      (Booking.user b0) (Booking.check_in b0) (Booking.check_out b0)
      (Booking.guests b0) (Booking.total_price b0) b_confirmed
      (Booking.created_at b0) in
  (exists b, Verify.first c = Verify.Done (verified_response b))
  /\ (exists b, Verify.second c = Verify.Done (verified_response b))
  /\ Verify.updates "payment" (Verify.world c)
     = (Verify.updates "payment" w + 2)%nat
  /\ Verify.updates "booking" (Verify.world c)
     = (Verify.updates "booking" w + 2)%nat
  /\ Verify.first c = Verify.Done (verified_response confirmed)
  /\ Verify.second c = Verify.Done (verified_response confirmed)
  /\ (lookup (Payment.id p0) (World.payments (Verify.world c))
      = Ok (completed_at (Env.now env1))
      \/ lookup (Payment.id p0) (World.payments (Verify.world c))
         = Ok (completed_at (Env.now env2)))
  /\ lookup (Payment.booking p0) (World.bookings (Verify.world c)) = Ok confirmed
  /\ exists record1 record2,
       World.log (Verify.world c) = World.log w ++ [record1; record2].
Proof.
  intros Henvelope Hinfo Hstatus Hmethod H1 H2 Hw Hfind Hlookup Hbooking
    Hn1 Hn2 c completed_at confirmed.
  assert (Hstart : Verify.in_flight tx_ref payment_info
                     (Verify.updates "payment" w) (Verify.updates "booking" w)
                     (two_calls tx_ref w)).
  { unfold Verify.in_flight, two_calls. simpl.
    split; [exact Hw|]. repeat split; lia. }
  destruct (interleave_in_flight tx_ref response_data payment_info method
              Henvelope Hinfo Hstatus Hmethod env1 env2 _ _ schedule _
              H1 H2 Hstart)
    as ((_ & Ht1 & Ht2 & Hu & Hv) & R1 & R2).
  fold c in Ht1, Ht2, Hu, Hv, R1, R2.
  cbn [two_calls Verify.first Verify.second Verify.remaining] in R1, R2.
  pose proof (find_some _ _ Hfind) as [_ Htx0].
  assert (Hid : Booking.id b0 = Payment.booking p0)
    by exact (lookup_pk _ _ _ Hbooking).
  assert (Hrace0 : racing env1 env2 tx_ref payment_info method p0 b0 w
                     (two_calls tx_ref w)).
  { unfold racing, two_calls. simpl. split; [|auto].
    split.
    { exists p0. split; [exact Hfind|]. split; [exact Hlookup|].
      split; [now left|]. intros Hle. inversion Hle. }
    split.
    { exists b0. split; [exact Hbooking|]. split; [now left|].
      intros Hle. inversion Hle. }
    simpl. now rewrite app_nil_r. }
  pose proof (interleave_racing env1 env2 tx_ref response_data payment_info
                method p0 b0 w Henvelope Hinfo Hstatus Hmethod Htx0 Hid
                schedule _ H1 H2 Hrace0) as (Hworld & C1 & C2).
  fold c in Hworld, C1, C2.
  destruct (remaining_done (Verify.first c)) as [r1 E1]; [lia|].
  destruct (remaining_done (Verify.second c)) as [r2 E2]; [lia|].
  rewrite E1 in *. rewrite E2 in *. simpl in *.
  subst r1 r2.
  destruct Hworld as ((q & _ & Lq & _ & Wq) & (b & Lb & _ & Wb) & Hlog & _).
  split; [eauto|]. split; [eauto|]. split; [lia|]. split; [lia|].
  split; [reflexivity|]. split; [reflexivity|]. split; [|split].
  - rewrite Lq. destruct (Wq (le_S _ _ (le_n 1))) as [<-|[<-|[]]]; auto.
  - rewrite Lb. now rewrite (Wb (le_S _ _ (le_n 1))).
  - rewrite Hlog. now exists (ERROR, "Failed to queue payment email"),
      (ERROR, "Failed to queue payment email").
Qed.

Lemma concurrent_verifications_both_mutate_witness :
  let c := Verify.interleave (success_at 200) (success_at 300) in_turn
             (two_calls "tx-u1-0" w_pending) in
  (exists b, Verify.first c = Verify.Done (verified_response b))
  /\ (exists b, Verify.second c = Verify.Done (verified_response b))
  /\ Verify.updates "payment" (Verify.world c)
     = (Verify.updates "payment" w_pending + 2)%nat
  /\ Verify.updates "booking" (Verify.world c)
     = (Verify.updates "booking" w_pending + 2)%nat
  /\ lookup 1 (World.bookings (Verify.world c))
     = Ok (Booking.mk 1 "b-0001" 1 1 "2025-01-10" "2025-01-12" 2 10000
             b_confirmed 10).
Proof.
  destruct (concurrent_verifications_both_mutate
              (success_at 200) (success_at 300) "tx-u1-0" success_body
              success_info (JStr "telebirr") in_turn w_pending payment1 booking1
              eq_refl eq_refl eq_refl eq_refl
              (conj eq_refl (conj eq_refl eq_refl))
              (conj eq_refl (conj eq_refl eq_refl)))
    as (A1 & A2 & A3 & A4 & _ & _ & _ & A8 & _).
  - split.
    + exists payment1. reflexivity.
    + intros p [<-|[]]. exists booking1. reflexivity.
  - reflexivity.
  - reflexivity.
  - reflexivity.
  - vm_compute. lia.
  - vm_compute. lia.
  - repeat split; assumption.
Defined.

(** C10 fails on the code: whether the second call starts after the first
    has answered or the two take their steps in turn, both write the
    Payment and the Booking and both answer that the payment is verified;
    neither takes a replay branch. *)
Lemma both_calls_take_the_success_path :
  let verified :=
    Verify.Done (verified_response (Booking.with_status b_confirmed booking1)) in
  let c1 := Verify.interleave (success_at 200) (success_at 300) one_after_the_other
              (two_calls "tx-u1-0" w_pending) in
  let c2 := Verify.interleave (success_at 200) (success_at 300) in_turn
              (two_calls "tx-u1-0" w_pending) in
  Verify.first c1 = verified /\ Verify.second c1 = verified
  /\ World.statements (Verify.world c1)
     = [ INSERT "payment" 1; UPDATE "payment" 1; UPDATE "booking" 1;
         UPDATE "payment" 1; UPDATE "booking" 1 ]
  /\ Verify.first c2 = verified /\ Verify.second c2 = verified
  /\ World.statements (Verify.world c2)
     = [ INSERT "payment" 1; UPDATE "payment" 1; UPDATE "payment" 1;
         UPDATE "booking" 1; UPDATE "booking" 1 ].
Proof. vm_compute. repeat split; reflexivity. Qed.

(** * Further properties of the handlers *)

(** ** initiate_payment, case by case *)

Lemma get_object_owned request pk w :
  BookingViewSet.get_object request pk w
  = (match owned_booking request pk w with
     | Some b => Ok b
     | None => Raise Http404
     end, w).
Proof.
  unfold BookingViewSet.get_object, BookingViewSet.get_queryset, owned_booking.
  unfold_m. destruct (find _ _); reflexivity.
Qed.

Lemma owned_booking_spec request pk w b :
  owned_booking request pk w = Some b ->
  In b (World.bookings w)
  /\ Booking.id b = pk
  /\ Booking.user b = User.id (Request.user request).
Proof.
  unfold owned_booking. intro F. apply find_some in F. destruct F as [I E].
  apply filter_In in I. destruct I as [I U].
  apply Z.eqb_eq in E. apply Z.eqb_eq in U. auto.
Qed.

Lemma no_insert {A : Type} (t : list A) (x : sql) (l : list sql) :
  l ++ (if Nat.eqb (List.length t) (List.length t) then [] else [x]) = l.
Proof. now rewrite Nat.eqb_refl, app_nil_r. Qed.

Ltac refused :=
  try match goal with
      | |- context [is_RequestException ?e] => destruct (is_RequestException e)
      end;
  simpl; rewrite no_insert; repeat split; auto;
  right; left; do 2 eexists; repeat split; simpl; auto.

(** Every way [initiate_payment] can end. *)
Lemma initiate_payment_cases env request pk w :
  let out := BookingViewSet.initiate_payment env request pk w in
  World.bookings (snd out) = World.bookings w
  /\ World.users (snd out) = World.users w
  /\ World.listings (snd out) = World.listings w
  /\ World.queue (snd out) = World.queue w
  /\ World.statements (snd out) = World.statements w
     ++ (if Nat.eqb (List.length (World.payments (snd out)))
                    (List.length (World.payments w))
         then [] else [INSERT "payment" (next_pk (World.payments w))])
  /\ ((owned_booking request pk w = None
       /\ fst out = Raise Http404 /\ snd out = w)
      \/ (exists booking r,
            owned_booking request pk w = Some booking
            /\ fst out = Ok r
            /\ (Response.status_code r = HTTP_400_BAD_REQUEST
                \/ Response.status_code r = HTTP_503_SERVICE_UNAVAILABLE
                \/ Response.status_code r = HTTP_500_INTERNAL_SERVER_ERROR)
            /\ World.payments (snd out) = World.payments w)
      \/ (exists booking checkout_url,
            owned_booking request pk w = Some booking
            /\ existsb (is_completed_for booking) (World.payments w) = false
            /\ fst out
               = Ok (Response.mk HTTP_200_OK
                       [ ("message", VStr "Payment initiated successfully");
                         ("payment_id", VStr (Env.uuid4 env 1));
                         ("checkout_url", VJson checkout_url);
                         ("transaction_reference",
                          VStr (String.append "tx-" (Env.uuid4 env 0))) ])
            /\ World.payments (snd out)
               = World.payments w ++ [new_payment env booking checkout_url w])).
Proof.
  cbv zeta. unfold BookingViewSet.initiate_payment, Payment_objects_create.
  unfold_m. rewrite get_object_owned.
  destruct (owned_booking request pk w) as [booking|] eqn:Hobj.
  2: { simpl. rewrite Nat.eqb_refl, app_nil_r. repeat split; auto. }
  simpl.
  assert (Hlen : forall (t : list Payment.t) x,
             Nat.eqb (List.length (t ++ [x])) (List.length t) = false).
  { intros t x. rewrite length_app. simpl. apply Nat.eqb_neq. lia. }
  destruct (existsb _ _) eqn:Hpaid; simpl; [refused|].
  destruct (Env.requests_post env _) as [[code body]|e]; simpl;
    [|refused].
  destruct (code =? 200); simpl; [|refused].
  destruct (get body "status" JNull) as [s|e]; simpl; [|refused].
  destruct (eq_str s "success"); simpl; [|refused].
  destruct (getitem body "data") as [d|e]; simpl; [|refused].
  destruct (getitem d "checkout_url") as [u|e]; simpl; [|refused].
  destruct (Env.db_error env insert_payment); simpl; [refused|].
  rewrite Hlen. repeat split; auto.
  right; right. exists booking, u. repeat split; auto.
Qed.

(** ** verify_payment, case by case *)

Lemma lookup_raises {A : Type} `{Model A} (k : Z) (t : list A) (e : exn) :
  lookup k t = Raise e -> e = DoesNotExist.
Proof. unfold lookup. destruct (find _ t); congruence. Qed.

Ltac split_cases :=
  repeat match goal with
         | |- context [queue_payment_email ?e ?p ?b ?w0] =>
             rewrite (queue_payment_email_logs e p b w0)
         | |- context [match ?x with _ => _ end] =>
             lazymatch x with
             | context [match _ with _ => _ end] => fail
             | _ => destruct x eqn:?; simpl
             end
         end.

(** Every way [verify_payment] can end. Its first statement raises, and
    the exception leaves the view with nothing done; or it answers, and
    then it has written nothing, or it has saved the payment found by the
    transaction reference as failed, or it has saved it as completed, with
    the method the gateway reported under [data], and then, unless loading
    or saving the booking fails, saved the booking as confirmed. *)
Lemma verify_payment_cases env request w :
  let out := verify_payment env request w in
  (exists e, tx_ref_param request = Raise e /\ out = (Raise e, w))
  \/ exists r,
    fst out = Ok r
    /\ World.users (snd out) = World.users w
    /\ World.listings (snd out) = World.listings w
    /\ World.queue (snd out) = World.queue w
    /\ ((World.payments (snd out) = World.payments w
         /\ World.bookings (snd out) = World.bookings w
         /\ World.statements (snd out) = World.statements w
         /\ (Response.status_code r = HTTP_400_BAD_REQUEST
             \/ Response.status_code r = HTTP_404_NOT_FOUND
             \/ Response.status_code r = HTTP_503_SERVICE_UNAVAILABLE
             \/ Response.status_code r = HTTP_500_INTERNAL_SERVER_ERROR))
        \/ exists tx_ref p,
             tx_ref_of request = Some tx_ref
             /\ find (has_tx_ref tx_ref) (World.payments w) = Some p
             /\ ((r = failed_response
                  /\ World.payments (snd out)
                     = store (saved_failed env p) (World.payments w)
                  /\ World.bookings (snd out) = World.bookings w
                  /\ World.statements (snd out)
                     = World.statements w ++ [UPDATE "payment" (Payment.id p)])
                 \/ exists response_data payment_info method,
                      Env.requests_get env tx_ref = Ok (200, response_data)
                      /\ getitem response_data "data" = Ok payment_info
                      /\ get payment_info "payment_method" (JStr "") = Ok method
                      /\ World.payments (snd out)
                      = store (saved_completed env method p) (World.payments w)
                      /\ ((Response.status_code r = HTTP_500_INTERNAL_SERVER_ERROR
                           /\ World.bookings (snd out) = World.bookings w
                           /\ World.statements (snd out)
                              = World.statements w
                                ++ [UPDATE "payment" (Payment.id p)])
                          \/ exists b,
                               lookup (Payment.booking p) (World.bookings w) = Ok b
                               /\ r = verified_response
                                        (Booking.with_status b_confirmed b)
                               /\ World.bookings (snd out)
                                  = store (Booking.with_status b_confirmed b)
                                      (World.bookings w)
                               /\ World.statements (snd out)
                                  = (World.statements w
                                     ++ [UPDATE "payment" (Payment.id p)])
                                    ++ [UPDATE "booking" (Booking.id b)]))).
Proof.
  cbv zeta.
  unfold verify_payment, tx_ref_of, Payment_save, Payment_booking, Booking_save,
    verify_except.
  unfold_m.
  destruct (tx_ref_param request) as [v|e]; [right|left; eauto].
  destruct (truthy v); cbn [negb].
  2: { eexists; split; [reflexivity|]. simpl.
       split; [reflexivity|]. split; [reflexivity|]. split; [reflexivity|].
       left. repeat split; simpl; auto 6. }
  generalize (str v). intro tx_ref.
  destruct (Env.requests_get env tx_ref) as [[code response_data]|e] eqn:Hget;
    simpl.
  2: { destruct (is_RequestException e); eexists; (split; [reflexivity|]);
       simpl; (split; [reflexivity|]); (split; [reflexivity|]);
       (split; [reflexivity|]); left; repeat split; simpl; auto 6. }
  destruct (Z.eqb_spec code 200) as [->|Hcode]; simpl.
  2: { eexists; split; [reflexivity|]. simpl.
       split; [reflexivity|]. split; [reflexivity|]. split; [reflexivity|].
       left. repeat split; simpl; auto 6. }
  split_cases.
  all: try match goal with
           | H : lookup _ _ = Raise ?e, H' : is_RequestException ?e = true |- _ =>
               apply lookup_raises in H; subst; discriminate
           end.
  all: eexists; split; [reflexivity|]; simpl.
  all: split; [reflexivity|]; split; [reflexivity|]; split; [reflexivity|].
  all: first
         [ left; repeat split; simpl; auto 6; fail
         | right; do 2 eexists; split; [reflexivity|]; split; [eassumption|];
           first
             [ left; repeat split; reflexivity
             | right; do 3 eexists; split; [eassumption|];
               split; [eassumption|]; split; [eassumption|];
               split; [reflexivity|];
               first
                 [ left; repeat split; reflexivity
                 | right; eexists; split; [eassumption|];
                   repeat split; reflexivity ] ] ].
Qed.

(** ** initiate_payment: errors and edges *)

Lemma pair_eq {A B : Type} (x : A * B) (a : A) (b : B) :
  fst x = a -> snd x = b -> x = (a, b).
Proof. destruct x; simpl; congruence. Qed.

Lemma getitem_raises (d : json) (k : string) (e : exn) :
  getitem d k = Raise e -> is_RequestException e = false.
Proof.
  unfold getitem. destruct d; try (intro E; inversion E; reflexivity).
  destruct (assoc k items); intro E; inversion E; reflexivity.
Qed.

(** The next primary key is larger than every key of the table, so no row
    has it. *)
Lemma next_pk_above {A : Type} `{Model A} (t : list A) (x : A) :
  In x t -> pk x < next_pk t.
Proof.
  unfold next_pk. induction t as [|z t IH]; cbn [fold_right In]; [tauto|].
  intros [<-|I]; [lia|]. specialize (IH I). lia.
Qed.

Lemma next_pk_fresh {A : Type} `{Model A} (t : list A) :
  lookup (next_pk t) t = Raise DoesNotExist.
Proof.
  unfold lookup. destruct (find _ t) as [x|] eqn:F; [|reflexivity].
  apply find_some in F. destruct F as [I E]. apply Z.eqb_eq in E.
  pose proof (next_pk_above t x I). lia.
Qed.

(** A booking that is not the requester's, or does not exist, is refused
    before anything else happens: [Http404] leaves the view, so the client
    receives the status code 404; the gateway is not called and nothing is
    written, not even to the log. *)
Theorem initiate_payment_needs_own_booking env request pk w :
  (forall b, In b (World.bookings w) -> Booking.id b = pk ->
             Booking.user b <> User.id (Request.user request)) ->
  BookingViewSet.initiate_payment env request pk w = (Raise Http404, w)
  /\ dispatch (BookingViewSet.initiate_payment env request pk) w
     = (HTTP_404_NOT_FOUND, w).
Proof.
  intro Hforeign.
  assert (Hnone : owned_booking request pk w = None).
  { destruct (owned_booking request pk w) as [b|] eqn:E; [|reflexivity].
    apply owned_booking_spec in E. destruct E as (I & Hid & Hu).
    destruct (Hforeign b I Hid Hu). }
  assert (E : BookingViewSet.initiate_payment env request pk w = (Raise Http404, w)).
  { destruct (initiate_payment_cases env request pk w)
      as (_ & _ & _ & _ & _ & [(_ & F & S)|[(b & r & Hb & _)|(b & u & Hb & _)]]);
      try congruence.
    now apply pair_eq. }
  split; [exact E|]. unfold dispatch. now rewrite E.
Qed.

Lemma initiate_payment_needs_own_booking_witness :
  BookingViewSet.initiate_payment (success_at 100) (request_of bob) 1 w0
  = (Raise Http404, w0)
  /\ dispatch (BookingViewSet.initiate_payment (success_at 100) (request_of bob) 1) w0
     = (404, w0).
Proof.
  apply (initiate_payment_needs_own_booking (success_at 100) (request_of bob) 1 w0).
  intros b [<-|[]] _. discriminate.
Defined.

(** [initiate_payment] never touches a booking, a user, a listing or the
    queue, and never changes or removes a payment: the payments table is
    as it was, or has one more row at its end, pending, under a primary
    key of its own. *)
Theorem initiate_payment_only_appends env request pk w :
  let w' := snd (BookingViewSet.initiate_payment env request pk w) in
  World.bookings w' = World.bookings w
  /\ World.users w' = World.users w
  /\ World.listings w' = World.listings w
  /\ World.queue w' = World.queue w
  /\ (World.payments w' = World.payments w
      \/ exists p,
           World.payments w' = World.payments w ++ [p]
           /\ Payment.payment_status p = pending
           /\ Payment.id p = next_pk (World.payments w)
           /\ lookup (Payment.id p) (World.payments w) = Raise DoesNotExist).
Proof.
  destruct (initiate_payment_cases env request pk w)
    as (Hb & Hu & Hl & Hq & _ & H).
  cbv zeta. repeat (split; [assumption|]).
  destruct H as [(_ & _ & S)|[(b & r & _ & _ & _ & P)|(b & u & _ & _ & _ & P)]].
  - left. now rewrite S.
  - now left.
  - right. eexists. split; [exact P|]. repeat split.
    exact (next_pk_fresh (World.payments w)).
Qed.

(** The answer says what was stored: a 200 carries the payment id, the
    transaction reference and the checkout URL of the one row that was
    added, which belongs to the booking asked for; any other answer means
    that no payment was added; and when an exception leaves the view,
    nothing at all was written, not even to the log. *)
Theorem initiate_payment_answer_matches_row env request pk w :
  let out := BookingViewSet.initiate_payment env request pk w in
  match fst out with
  | Ok r =>
      (Response.status_code r = HTTP_200_OK ->
       exists p,
         World.payments (snd out) = World.payments w ++ [p]
         /\ Payment.booking p = pk
         /\ assoc "payment_id" (Response.data r)
            = Some (VStr (Payment.payment_id p))
         /\ assoc "transaction_reference" (Response.data r)
            = Some (opt_value (Payment.transaction_id p))
         /\ assoc "checkout_url" (Response.data r)
            = Some (VJson (Payment.checkout_url p)))
      /\ (Response.status_code r <> HTTP_200_OK ->
          World.payments (snd out) = World.payments w)
  | Raise e => snd out = w
  end.
Proof.
  destruct (initiate_payment_cases env request pk w)
    as (_ & _ & _ & _ & _ & H).
  cbv zeta.
  destruct H as [(_ & F & S)|[(b & r & _ & F & C & P)|(b & u & Hb & _ & F & P)]];
    rewrite F.
  - auto.
  - split; [|auto]. intro E.
    destruct C as [C|[C|C]]; rewrite C in E; discriminate.
  - split; [|intro N; now destruct N].
    intros _. eexists. split; [exact P|].
    apply owned_booking_spec in Hb. destruct Hb as (_ & Hid & _).
    repeat split. exact Hid.
Qed.

(** When Chapa answers 200 and "success" but the answer lacks [data] or
    its [checkout_url], or the insert fails, the view answers 500 "An
    unexpected error occurred", logs it and stores no payment. *)
Theorem initiate_payment_broken_answer_is_500
    env request pk w booking response_data :
  owned_booking request pk w = Some booking ->
  existsb (is_completed_for booking) (World.payments w) = false ->
  Env.requests_post env
    (payment_data request booking (String.append "tx-" (Env.uuid4 env 0)))
  = Ok (200, response_data) ->
  get response_data "status" JNull = Ok (JStr "success") ->
  (exists e, getitem response_data "data" = Raise e)
  \/ (exists data e, getitem response_data "data" = Ok data
                     /\ getitem data "checkout_url" = Raise e)
  \/ (exists data url, getitem response_data "data" = Ok data
                       /\ getitem data "checkout_url" = Ok url
                       /\ Env.db_error env insert_payment = true) ->
  BookingViewSet.initiate_payment env request pk w
  = (Ok (Response.mk HTTP_500_INTERNAL_SERVER_ERROR
           [("error", VStr "An unexpected error occurred")]),
     add_log ERROR "Unexpected error in initiate_payment" w).
Proof.
  intros Hobj Hpaid Hpost Hstatus Hbroken.
  unfold BookingViewSet.initiate_payment, Payment_objects_create. unfold_m.
  rewrite get_object_owned, Hobj, Hpaid, Hpost. simpl. rewrite Hstatus. simpl.
  destruct Hbroken as [(e & E)|[(d & e & D & E)|(d & u & D & U & B)]].
  - rewrite E. now rewrite (getitem_raises _ _ _ E).
  - rewrite D, E. now rewrite (getitem_raises _ _ _ E).
  - rewrite D, U, B. reflexivity.
Qed.

Lemma initiate_payment_broken_answer_is_500_witness :
  BookingViewSet.initiate_payment
    (env_at 100 "u1" (Ok (200, JObj [("status", JStr "success")]))
       (verify_reports "success"))
    (request_of alice) 1 w0
  = (Ok (Response.mk HTTP_500_INTERNAL_SERVER_ERROR
           [("error", VStr "An unexpected error occurred")]),
     add_log ERROR "Unexpected error in initiate_payment" w0).
Proof.
  apply (initiate_payment_broken_answer_is_500
           (env_at 100 "u1" (Ok (200, JObj [("status", JStr "success")]))
              (verify_reports "success"))
           (request_of alice) 1 w0 booking1 (JObj [("status", JStr "success")]));
    try reflexivity.
  left. exists KeyError. reflexivity.
Defined.

(** ** verify_payment: errors and edges *)

Lemma QueryDict_get_last (q : QueryDict) (k v : string) :
  QueryDict_get (q ++ [(k, v)]) k = JStr v.
Proof.
  unfold QueryDict_get. rewrite rev_app_distr. simpl.
  now rewrite String.eqb_refl.
Qed.

(** Without a transaction reference the call is answered 400 "tx_ref is
    required": that is when the query string has none, or an empty one as
    its last, and the body is a form, or a JSON object, that has none
    under the key, or one that counts as false, such as an empty string,
    null or 0. The gateway is not asked and nothing is written. *)
Theorem verify_payment_requires_tx_ref env request w data :
  truthy (QueryDict_get (Request.GET request) "tx_ref") = false ->
  Request.data request = Ok data ->
  match data with
  | Form q => truthy (QueryDict_get q "tx_ref") = false
  | Json (JObj items) =>
      forall v, assoc "tx_ref" items = Some v -> truthy v = false
  | Json _ => False
  end ->
  verify_payment env request w
  = (Ok (Response.mk HTTP_400_BAD_REQUEST [("error", VStr "tx_ref is required")]),
     w).
Proof.
  intros Hquery Hdata Hbody.
  assert (E : exists v, tx_ref_param request = Ok v /\ truthy v = false).
  { unfold tx_ref_param. rewrite Hquery, Hdata.
    destruct data as [q|j]; simpl; [eauto|].
    destruct j; try contradiction. simpl.
    destruct (assoc "tx_ref" items) as [v|]; eauto. }
  destruct E as (v & Hv & Ht). now enter Hv Ht.
Qed.

Lemma verify_payment_requires_tx_ref_witness :
  verify_payment (success_at 300)
    (Request.mk alice "h" [("tx_ref", "tx-u1-0"); ("tx_ref", "")]
       (Ok (Json (JObj [("tx_ref", JNum 0)])))) w_pending
  = (Ok (Response.mk HTTP_400_BAD_REQUEST [("error", VStr "tx_ref is required")]),
     w_pending).
Proof.
  apply (verify_payment_requires_tx_ref (success_at 300)
           (Request.mk alice "h" [("tx_ref", "tx-u1-0"); ("tx_ref", "")]
              (Ok (Json (JObj [("tx_ref", JNum 0)]))))
           w_pending (Json (JObj [("tx_ref", JNum 0)]))).
  - reflexivity.
  - reflexivity.
  - intros v E. inversion E. reflexivity.
Defined.

(** A JSON body that is not an object has no [get]: when the query string
    gives no reference, the [AttributeError] of the first statement leaves
    the view, which is outside every [try]; nothing is written or logged,
    and the client receives the status code 500. *)
Theorem verify_payment_body_not_an_object env request w j :
  truthy (QueryDict_get (Request.GET request) "tx_ref") = false ->
  Request.data request = Ok (Json j) ->
  (forall items, j <> JObj items) ->
  verify_payment env request w = (Raise AttributeError, w)
  /\ dispatch (verify_payment env request) w
     = (HTTP_500_INTERNAL_SERVER_ERROR, w).
Proof.
  intros Hquery Hdata Hj.
  assert (E : verify_payment env request w = (Raise AttributeError, w)).
  { unfold verify_payment, tx_ref_param. unfold_m. rewrite Hquery, Hdata.
    destruct j; try reflexivity. now destruct (Hj items). }
  split; [exact E|]. unfold dispatch. now rewrite E.
Qed.

Lemma verify_payment_body_not_an_object_witness :
  verify_payment (success_at 300)
    (Request.mk alice "h" [] (Ok (Json (JArr [JStr "tx-u1-0"])))) w_pending
  = (Raise AttributeError, w_pending)
  /\ dispatch
       (verify_payment (success_at 300)
          (Request.mk alice "h" [] (Ok (Json (JArr [JStr "tx-u1-0"])))))
       w_pending
     = (500, w_pending).
Proof.
  apply (verify_payment_body_not_an_object (success_at 300)
           (Request.mk alice "h" [] (Ok (Json (JArr [JStr "tx-u1-0"]))))
           w_pending (JArr [JStr "tx-u1-0"])).
  - reflexivity.
  - reflexivity.
  - discriminate.
Defined.

(** The query string comes first, and of a reference given there more
    than once the last one counts: when that is not empty the body is not
    read, so that it is irrelevant, even one that cannot be parsed; when
    it is empty or missing, the query string is as good as absent and the
    body decides. *)
Theorem verify_payment_query_string_first env user host GET data w :
  (forall tx_ref data',
     QueryDict_get GET "tx_ref" = JStr tx_ref ->
     String.eqb tx_ref "" = false ->
     verify_payment env (Request.mk user host GET data) w
     = verify_payment env (Request.mk user host GET data') w)
  /\ (truthy (QueryDict_get GET "tx_ref") = false ->
      verify_payment env (Request.mk user host GET data) w
      = verify_payment env (Request.mk user host [] data) w)
  /\ (forall tx_ref,
        verify_payment env
          (Request.mk user host (GET ++ [("tx_ref", tx_ref)]) data) w
        = verify_payment env
            (Request.mk user host [("tx_ref", tx_ref)] data) w).
Proof.
  split; [|split].
  - intros tx_ref data' Hget Hne.
    unfold verify_payment, tx_ref_param. simpl. rewrite Hget. simpl.
    now rewrite Hne.
  - intro Hfalsy. unfold verify_payment, tx_ref_param. simpl.
    now rewrite Hfalsy.
  - intro tx_ref. unfold verify_payment, tx_ref_param. simpl Request.GET.
    rewrite QueryDict_get_last. reflexivity.
Qed.

Lemma verify_payment_query_string_first_witness :
  verify_payment (success_at 300)
    (Request.mk alice "h" [("tx_ref", "tx-u1-0")] (Raise ParseError)) w_pending
  = verify_payment (success_at 300)
      (Request.mk alice "h" [("tx_ref", "tx-u1-0")] (Ok (Form []))) w_pending
  /\ verify_payment (success_at 300)
       (Request.mk alice "h" [("tx_ref", "tx-u1-0"); ("tx_ref", "")]
          (Ok (Json (JObj [("tx_ref", JStr "tx-u1-0")])))) w_pending
     = verify_payment (success_at 300)
         (Request.mk alice "h" []
            (Ok (Json (JObj [("tx_ref", JStr "tx-u1-0")])))) w_pending.
Proof.
  split.
  - apply (proj1 (verify_payment_query_string_first (success_at 300) alice "h"
                    [("tx_ref", "tx-u1-0")] (Raise ParseError) w_pending)
             "tx-u1-0" (Ok (Form []))); reflexivity.
  - apply (proj1 (proj2 (verify_payment_query_string_first (success_at 300)
                           alice "h" [("tx_ref", "tx-u1-0"); ("tx_ref", "")]
                           (Ok (Json (JObj [("tx_ref", JStr "tx-u1-0")])))
                           w_pending))).
    reflexivity.
Defined.

(** When the call to the gateway raises, nothing is written but the log:
    an exception of the HTTP client is answered 503 "Verification service
    unavailable", any other 500 "Internal server error". *)
Theorem verify_payment_gateway_down env request tx_ref e w :
  tx_ref_of request = Some tx_ref ->
  Env.requests_get env tx_ref = Raise e ->
  verify_payment env request w
  = if is_RequestException e then
      (Ok (Response.mk HTTP_503_SERVICE_UNAVAILABLE
             [("error", VStr "Verification service unavailable")]),
       add_log ERROR "Chapa verification request failed" w)
    else
      (Ok (Response.mk HTTP_500_INTERNAL_SERVER_ERROR
             [("error", VStr "Internal server error")]),
       add_log ERROR "Unexpected error in verify_payment" w).
Proof.
  intros Htx Hget. destruct (tx_ref_of_some _ _ Htx) as (v & Hv & Ht & <-).
  enter Hv Ht. unfold verify_except. unfold_m.
  rewrite Hget. destruct (is_RequestException e); reflexivity.
Qed.

Lemma verify_payment_gateway_down_witness :
  verify_payment (env_at 300 "u" initialize_ok (Raise RequestException))
    (verify_request "tx-u1-0") w_pending
  = (Ok (Response.mk HTTP_503_SERVICE_UNAVAILABLE
           [("error", VStr "Verification service unavailable")]),
     add_log ERROR "Chapa verification request failed" w_pending).
Proof.
  apply (verify_payment_gateway_down
           (env_at 300 "u" initialize_ok (Raise RequestException))
           (verify_request "tx-u1-0") "tx-u1-0" RequestException w_pending);
    reflexivity.
Defined.

Lemma verify_payment_rejected_witness :
  verify_payment (env_at 300 "u" initialize_ok (Ok (404, refusal)))
    (verify_request "tx-u1-0") w_pending
  = (Ok (Response.mk HTTP_400_BAD_REQUEST
           [ ("error", VStr "Payment verification failed");
             ("details", VJson refusal) ]),
     w_pending).
Proof.
  apply (verify_payment_rejected
           (env_at 300 "u" initialize_ok (Ok (404, refusal)))
           (verify_request "tx-u1-0") "tx-u1-0" 404 refusal w_pending);
    try reflexivity.
  left. discriminate.
Defined.

(** A reference the gateway knows and the database does not is answered
    404 "Payment record not found", and nothing is written. *)
Theorem verify_payment_unknown_payment
    env request tx_ref response_data s payment_info w :
  tx_ref_of request = Some tx_ref ->
  Env.requests_get env tx_ref = Ok (200, response_data) ->
  get response_data "status" JNull = Ok s ->
  eq_str s "success" = true ->
  getitem response_data "data" = Ok payment_info ->
  find (has_tx_ref tx_ref) (World.payments w) = None ->
  verify_payment env request w
  = (Ok (Response.mk HTTP_404_NOT_FOUND
           [("error", VStr "Payment record not found")]),
     w).
Proof.
  intros Htx Hget Hs Hok Hinfo Hnone.
  destruct (tx_ref_of_some _ _ Htx) as (v & Hv & Ht & <-).
  enter Hv Ht. rewrite Hget. simpl.
  rewrite Hs. simpl. rewrite Hok. simpl. rewrite Hinfo. simpl.
  now rewrite Hnone.
Qed.

Lemma verify_payment_unknown_payment_witness :
  verify_payment (success_at 300) (verify_request "tx-u1-0") w0
  = (Ok (Response.mk HTTP_404_NOT_FOUND
           [("error", VStr "Payment record not found")]),
     w0).
Proof.
  apply (verify_payment_unknown_payment (success_at 300)
           (verify_request "tx-u1-0") "tx-u1-0" success_body (JStr "success")
           success_info w0); reflexivity.
Defined.

(** How a call of [verify_payment] can end. An exception leaves the view
    only from its first statement, when the query string gives no
    reference and reading the body, or calling [get] on it, raises: then
    nothing has been done. Otherwise the view answers, whatever the gateway
    and the database do, with one of the codes 200, 400, 404, 500 and 503.
    Either way a request that has reached the view is answered with one of
    200, 400, 404, 415, 500 and 503, and no call touches a user, a listing
    or the queue. *)
Theorem verify_payment_outcomes env request w :
  let out := verify_payment env request w in
  match tx_ref_param request with
  | Raise e => out = (Raise e, w)
  | Ok _ =>
      exists r,
        fst out = Ok r
        /\ In (Response.status_code r)
             [ HTTP_200_OK; HTTP_400_BAD_REQUEST; HTTP_404_NOT_FOUND;
               HTTP_500_INTERNAL_SERVER_ERROR; HTTP_503_SERVICE_UNAVAILABLE ]
  end
  /\ In (fst (dispatch (verify_payment env request) w))
       [ HTTP_200_OK; HTTP_400_BAD_REQUEST; HTTP_404_NOT_FOUND;
         HTTP_415_UNSUPPORTED_MEDIA_TYPE; HTTP_500_INTERNAL_SERVER_ERROR;
         HTTP_503_SERVICE_UNAVAILABLE ]
  /\ World.users (snd out) = World.users w
  /\ World.listings (snd out) = World.listings w
  /\ World.queue (snd out) = World.queue w.
Proof.
  cbv zeta. unfold dispatch.
  destruct (verify_payment_cases env request w)
    as [(e & He & ->)|(r & F & U & L & Q & H)].
  - rewrite He. simpl. split; [reflexivity|]. split; [|auto].
    destruct e; simpl; auto 8.
  - assert (C : In (Response.status_code r)
                  [ HTTP_200_OK; HTTP_400_BAD_REQUEST; HTTP_404_NOT_FOUND;
                    HTTP_500_INTERNAL_SERVER_ERROR;
                    HTTP_503_SERVICE_UNAVAILABLE ]).
    { destruct H as [(_ & _ & _ & C)|(tx & p & _ & _ & H)].
      - destruct C as [C|[C|[C|C]]]; rewrite C; simpl; auto 8.
      - destruct H as [(-> & _)
                      |(rd & pinfo & m & _ & _ & _ & _
                        & [(C & _)|(b & _ & -> & _)])];
          try rewrite C; simpl; auto 8. }
    split; [|split; [|auto]].
    + destruct (tx_ref_param request) as [v|e] eqn:E; [eauto|].
      unfold verify_payment in F. unfold_m. rewrite E in F. discriminate.
    + destruct (verify_payment env request w) as [o w']. simpl in F.
      subst o. simpl. simpl in C. tauto.
Qed.

(** A 200 is a receipt. The gateway answered 200 for the reference of the
    request, and what it reported under [data] names the method; the
    payment found by the reference is stored with status completed, that
    method and the time of the call as [updated_at], every other column as
    it was; its booking is stored with status confirmed, every other
    column as it was; and the answer carries that booking's id. Any other
    answer means that no booking was touched. *)
Theorem verify_payment_200_is_a_receipt env request w r :
  fst (verify_payment env request w) = Ok r ->
  let w' := snd (verify_payment env request w) in
  (Response.status_code r = HTTP_200_OK ->
   exists tx_ref response_data payment_info method p b,
     tx_ref_of request = Some tx_ref
     /\ Env.requests_get env tx_ref = Ok (200, response_data)
     /\ getitem response_data "data" = Ok payment_info
     /\ get payment_info "payment_method" (JStr "") = Ok method
     /\ find (has_tx_ref tx_ref) (World.payments w) = Some p
     /\ lookup (Payment.booking p) (World.bookings w) = Ok b
     /\ lookup (Payment.id p) (World.payments w')
        = Ok (Payment.mk (Payment.id p) (Payment.payment_id p)
                (Payment.booking p) (Payment.transaction_id p)
                (Payment.amount p) (Payment.currency p) completed method
                (Payment.chapa_reference p) (Payment.checkout_url p)
                (Payment.created_at p) (Env.now env))
     /\ lookup (Payment.booking p) (World.bookings w')
        = Ok (Booking.mk (Booking.id b) (Booking.booking_id b)
                (Booking.listing b) (Booking.user b) (Booking.check_in b)
                (Booking.check_out b) (Booking.guests b)
                (Booking.total_price b) b_confirmed (Booking.created_at b))
     /\ r = Response.mk HTTP_200_OK
              [ ("message", VStr "Payment verified and confirmed");
                ("booking_id", VStr (Booking.booking_id b));
                ("payment_status", VStr "completed") ])
  /\ (Response.status_code r <> HTTP_200_OK ->
      World.bookings w' = World.bookings w).
Proof.
  intros F w'. subst w'.
  destruct (verify_payment_cases env request w)
    as [(e & _ & E)|(r' & F' & _ & _ & _ & H)].
  { rewrite E in F. discriminate. }
  rewrite F in F'. inversion F'; subst r'. clear F'.
  destruct H as [(_ & B & _ & C)|(tx & p & Htx & Hp & H)].
  - split; [|auto]. intro E.
    destruct C as [C|[C|[C|C]]]; rewrite C in E; discriminate.
  - destruct H as [(-> & _ & B & _)
                  |(rd & pinfo & m & Hget & Hinfo & Hm & P
                    & [(C & B & _)|(b & Hb & -> & B & _)])].
    + split; [discriminate|auto].
    + split; [|auto]. intro E. rewrite C in E. discriminate.
    + split; [|intro N; now destruct N].
      intros _. exists tx, rd, pinfo, m, p, b. repeat split; auto.
      * rewrite P. exact (lookup_store (saved_completed env m p) _).
      * rewrite B. rewrite <- (lookup_pk _ _ _ Hb).
        exact (lookup_store (Booking.with_status b_confirmed b) _).
Qed.

Lemma verify_payment_200_is_a_receipt_witness :
  lookup 1 (World.payments w_paid)
  = Ok (Payment.mk 1 "u1-1" 1 (Some "tx-u1-0") 10000 "ETB" completed
          (JStr "telebirr") (Some "tx-u1-0")
          (JStr "https://checkout.chapa.co/pay/1") 100 200)
  /\ lookup 1 (World.bookings w_paid)
     = Ok (Booking.mk 1 "b-0001" 1 1 "2025-01-10" "2025-01-12" 2 10000
             b_confirmed 10).
Proof.
  destruct (verify_payment_200_is_a_receipt (success_at 200)
              (verify_request "tx-u1-0") w_pending
              (verified_response (Booking.with_status b_confirmed booking1))
              eq_refl) as [H _].
  destruct (H eq_refl)
    as (tx & rd & pinfo & m & p & b & Htx & Hget & Hinfo & Hm & Hp & Hb
        & HP & HB & _).
  injection Htx as <-. injection Hget as <-. injection Hinfo as <-.
  injection Hm as <-. injection Hp as <-. injection Hb as <-.
  split; [exact HP|exact HB].
Defined.

(** Once a verification has answered 200, the booking it confirmed takes
    no new payment: every later [initiate_payment] for it by its owner is
    answered 400 "already has a completed payment", whatever the gateway
    would say, and writes nothing. *)
Theorem verified_booking_takes_no_payment env request w r :
  fst (verify_payment env request w) = Ok r ->
  Response.status_code r = HTTP_200_OK ->
  let w' := snd (verify_payment env request w) in
  exists tx_ref p,
    tx_ref_of request = Some tx_ref
    /\ find (has_tx_ref tx_ref) (World.payments w) = Some p
    /\ forall env' request' booking,
         owned_booking request' (Payment.booking p) w' = Some booking ->
         BookingViewSet.initiate_payment env' request' (Payment.booking p) w'
         = (Ok (Response.mk HTTP_400_BAD_REQUEST
                  [("error", VStr "This booking already has a completed payment.")]),
            w').
Proof.
  intros F E w'. subst w'.
  destruct (verify_payment_cases env request w)
    as [(e' & _ & E')|(r' & F' & _ & _ & _ & H)].
  { rewrite E' in F. discriminate. }
  rewrite F in F'. inversion F'; subst r'. clear F'.
  destruct H as [(_ & _ & _ & C)|(tx & p & Htx & Hp & H)].
  { destruct C as [C|[C|[C|C]]]; rewrite C in E; discriminate. }
  exists tx, p. split; [exact Htx|]. split; [exact Hp|].
  intros env' request' booking Hown.
  assert (Hsaved : exists m, In (saved_completed env m p)
                               (World.payments (snd (verify_payment env request w)))).
  { destruct H as [(-> & _)|(rd & pinfo & m & _ & _ & _ & P & _)];
      [discriminate|].
    exists m. rewrite P. apply store_In. }
  destruct Hsaved as [m Hin].
  unfold BookingViewSet.initiate_payment. unfold_m.
  rewrite get_object_owned, Hown.
  apply owned_booking_spec in Hown. destruct Hown as (_ & Hid & _).
  assert (Hpaid : existsb (is_completed_for booking)
                    (World.payments (snd (verify_payment env request w))) = true).
  { apply existsb_exists. exists (saved_completed env m p). split; [exact Hin|].
    unfold is_completed_for. simpl. rewrite Hid, Z.eqb_refl. reflexivity. }
  rewrite Hpaid. reflexivity.
Qed.

Lemma verified_booking_takes_no_payment_witness :
  exists tx_ref p,
    tx_ref_of (verify_request "tx-u1-0") = Some tx_ref
    /\ find (has_tx_ref tx_ref) (World.payments w_pending) = Some p
    /\ forall env' request' booking,
         owned_booking request' (Payment.booking p) w_paid = Some booking ->
         BookingViewSet.initiate_payment env' request' (Payment.booking p) w_paid
         = (Ok (Response.mk HTTP_400_BAD_REQUEST
                  [("error", VStr "This booking already has a completed payment.")]),
            w_paid).
Proof.
  apply (verified_booking_takes_no_payment (success_at 200)
           (verify_request "tx-u1-0") w_pending
           (verified_response (Booking.with_status b_confirmed booking1))
           eq_refl eq_refl).
Defined.

(** ** From initiation to verification *)

(** What [initiate_payment] leaves when the gateway accepts. *)
Lemma initiate_payment_accepted
    env request pk w booking response_data data checkout_url :
  owned_booking request pk w = Some booking ->
  existsb (is_completed_for booking) (World.payments w) = false ->
  Env.requests_post env
    (payment_data request booking (String.append "tx-" (Env.uuid4 env 0)))
  = Ok (200, response_data) ->
  get response_data "status" JNull = Ok (JStr "success") ->
  getitem response_data "data" = Ok data ->
  getitem data "checkout_url" = Ok checkout_url ->
  Env.db_error env insert_payment = false ->
  snd (BookingViewSet.initiate_payment env request pk w)
  = add_log INFO "Payment initiated"
      (set_payments (World.payments w ++ [new_payment env booking checkout_url w])
         (INSERT "payment" (next_pk (World.payments w))) w).
Proof.
  intros Hobj Hpaid Hpost Hstatus Hdata Hurl Hdb.
  unfold BookingViewSet.initiate_payment, Payment_objects_create. unfold_m.
  rewrite get_object_owned, Hobj, Hpaid, Hpost. simpl.
  rewrite Hstatus. simpl. rewrite Hdata, Hurl, Hdb. reflexivity.
Qed.

Lemma store_last {A : Type} `{Model A} (r r' : A) (t : list A) :
  lookup (pk r) t = Raise DoesNotExist ->
  pk r' = pk r ->
  store r' (t ++ [r]) = t ++ [r'].
Proof.
  intros L Hpk. unfold store.
  assert (U : update r t = None).
  { apply update_find. unfold lookup in L.
    destruct (find _ t); [discriminate|reflexivity]. }
  now rewrite (update_app_new r r' t Hpk U).
Qed.

(** The transaction reference that [initiate_payment] hands out leads
    [verify_payment] back to the payment it created: when no older payment
    carries it and the gateway then reports a success, that payment, still
    the last row, has status completed, the method the gateway names and
    the time of the verification as [updated_at], and is otherwise as it
    was created; the booking it was initiated for has status confirmed and
    is otherwise as it was; and the answer is 200 with that booking's
    id. *)
Theorem initiate_then_verify_completes
    env1 env2 request request2 pk w booking
    answer1 data checkout_url answer2 payment_info method :
  let tx_ref := String.append "tx-" (Env.uuid4 env1 0) in
  owned_booking request pk w = Some booking ->
  lookup pk (World.bookings w) = Ok booking ->
  existsb (is_completed_for booking) (World.payments w) = false ->
  find (has_tx_ref tx_ref) (World.payments w) = None ->
  Env.requests_post env1 (payment_data request booking tx_ref) = Ok (200, answer1) ->
  get answer1 "status" JNull = Ok (JStr "success") ->
  getitem answer1 "data" = Ok data ->
  getitem data "checkout_url" = Ok checkout_url ->
  Env.db_error env1 insert_payment = false ->
  tx_ref_of request2 = Some tx_ref ->
  Env.requests_get env2 tx_ref = Ok (200, answer2) ->
  get answer2 "status" JNull = Ok (JStr "success") ->
  getitem answer2 "data" = Ok payment_info ->
  getitem payment_info "status" = Ok (JStr "success") ->
  get payment_info "payment_method" (JStr "") = Ok method ->
  Env.db_error env2 update_payment = false ->
  Env.db_error env2 update_booking = false ->
  let w1 := snd (BookingViewSet.initiate_payment env1 request pk w) in
  let out := verify_payment env2 request2 w1 in
  fst out
  = Ok (Response.mk HTTP_200_OK
          [ ("message", VStr "Payment verified and confirmed");
            ("booking_id", VStr (Booking.booking_id booking));
            ("payment_status", VStr "completed") ])
  /\ World.payments (snd out)
     = World.payments w
       ++ [Payment.mk (next_pk (World.payments w)) (Env.uuid4 env1 1) pk
             (Some tx_ref) (Booking.total_price booking) "ETB" completed
             method (Some tx_ref) checkout_url (Env.now env1) (Env.now env2)]
  /\ lookup pk (World.bookings (snd out))
     = Ok (Booking.mk pk (Booking.booking_id booking)
             (Booking.listing booking) (Booking.user booking)
             (Booking.check_in booking) (Booking.check_out booking)
             (Booking.guests booking) (Booking.total_price booking)
             b_confirmed (Booking.created_at booking)).
Proof.
  intros tx_ref Hobj Hpk Hpaid Hfresh Hpost Hs1 Hd1 Hu1 Hdb1
    Htx Hget Hs2 Hinfo Hstatus Hmethod Hdb2 Hdb3 w1 out.
  assert (E1 := initiate_payment_accepted env1 request pk w booking answer1 data
                  checkout_url Hobj Hpaid Hpost Hs1 Hd1 Hu1 Hdb1).
  fold w1 in E1.
  pose proof (owned_booking_spec _ _ _ _ Hobj) as (_ & Hid & _).
  set (np := new_payment env1 booking checkout_url w) in *.
  assert (Hfind : find (has_tx_ref tx_ref) (World.payments w1) = Some np).
  { rewrite E1. simpl. rewrite find_app, Hfresh. simpl.
    unfold has_tx_ref. simpl. fold tx_ref. now rewrite String.eqb_refl. }
  assert (Hbooking : lookup (Payment.booking np) (World.bookings w1) = Ok booking).
  { rewrite E1. simpl. now rewrite Hid. }
  assert (E2 := verify_payment_success env2 request2 tx_ref answer2 payment_info
                  (JStr "success") Htx Hget Hs2 Hinfo Hstatus w1 np booking
                  method eq_refl Hmethod Hfind Hbooking Hdb2 Hdb3).
  cbv zeta in E2. fold out in E2. rewrite E2. simpl.
  split; [reflexivity|]. split.
  - rewrite E1. simpl. rewrite <- Hid.
    apply (store_last np (saved_completed env2 method np) (World.payments w)).
    + exact (next_pk_fresh (World.payments w)).
    + reflexivity.
  - rewrite E1. simpl. rewrite <- Hid.
    exact (lookup_store (Booking.with_status b_confirmed booking) (World.bookings w)).
Qed.

Lemma initiate_then_verify_completes_witness :
  let w1 := snd (BookingViewSet.initiate_payment
                   (env_at 100 "u1" initialize_ok (verify_reports "success"))
                   (request_of alice) 1 w0) in
  let out := verify_payment (success_at 200) (verify_request "tx-u1-0") w1 in
  fst out
  = Ok (Response.mk 200
          [ ("message", VStr "Payment verified and confirmed");
            ("booking_id", VStr "b-0001");
            ("payment_status", VStr "completed") ])
  /\ World.payments (snd out)
     = [Payment.mk 1 "u1-1" 1 (Some "tx-u1-0") 10000 "ETB" completed
          (JStr "telebirr") (Some "tx-u1-0")
          (JStr "https://checkout.chapa.co/pay/1") 100 200]
  /\ lookup 1 (World.bookings (snd out))
     = Ok (Booking.mk 1 "b-0001" 1 1 "2025-01-10" "2025-01-12" 2 10000
             b_confirmed 10).
Proof.
  apply (initiate_then_verify_completes
           (env_at 100 "u1" initialize_ok (verify_reports "success"))
           (success_at 200) (request_of alice) (verify_request "tx-u1-0") 1 w0
           booking1
           (JObj [ ("status", JStr "success");
                   ("data", JObj [("checkout_url", JStr "https://checkout.chapa.co/pay/1")]) ])
           (JObj [("checkout_url", JStr "https://checkout.chapa.co/pay/1")])
           (JStr "https://checkout.chapa.co/pay/1")
           success_body success_info (JStr "telebirr")); reflexivity.
Defined.

(** ** Booking creation: outcomes and ownership *)


Lemma find_filter_none {A : Type} (f g : A -> bool) (t : list A) :
  (forall x, In x t -> f x = false) -> find f (filter g t) = None.
Proof.
  intro Hall. destruct (find f (filter g t)) as [x|] eqn:F; [|reflexivity].
  apply find_some in F. destruct F as [I E]. apply filter_In in I.
  rewrite (Hall x (proj1 I)) in E. discriminate.
Qed.

(** A booking just created can be addressed by its owner and by nobody
    else: under its primary key [get_object] finds it for the requester,
    and for every other user [initiate_payment] ends in the 404 of an
    unknown booking. *)
Theorem created_booking_is_its_owners env request v w :
  Env.db_error env insert_booking = false ->
  let w' := snd (BookingViewSet.create env request (Some v) w) in
  let pk := next_pk (World.bookings w) in
  (exists b,
     owned_booking request pk w' = Some b
     /\ Booking.status b = b_pending
     /\ Booking.total_price b = Validated.total_price v)
  /\ forall env' request',
       User.id (Request.user request') <> User.id (Request.user request) ->
       BookingViewSet.initiate_payment env' request' pk w' = (Raise Http404, w').
Proof.
  intros Hdb w' pk0.
  destruct (create_persists_and_queues_nothing env request v w Hdb)
    as (w1 & E & Hb & _).
  cbv zeta in E. subst w'. rewrite E. simpl.
  set (b := Booking.mk _ _ _ _ _ _ _ _ _ _) in *.
  assert (Hold : forall u,
             find (fun x => Booking.id x =? pk0)
               (filter (fun x => Booking.user x =? u) (World.bookings w)) = None).
  { intro u. apply find_filter_none. intros x I.
    apply Z.eqb_neq. pose proof (next_pk_above (World.bookings w) x I) as L.
    change (pk x) with (Booking.id x) in L. unfold pk0. lia. }
  split.
  - exists b. unfold owned_booking. rewrite Hb, filter_app, find_app, Hold.
    simpl. rewrite Z.eqb_refl. simpl. unfold pk0. rewrite Z.eqb_refl. auto.
  - intros env' request' Hother.
    unfold BookingViewSet.initiate_payment. unfold_m.
    rewrite get_object_owned. unfold owned_booking.
    rewrite Hb, filter_app, find_app, Hold. simpl.
    apply Z.eqb_neq in Hother. rewrite Z.eqb_sym in Hother.
    rewrite Hother. reflexivity.
Qed.

Lemma created_booking_is_its_owners_witness :
  let w' := snd (BookingViewSet.create (success_at 500) (request_of alice)
                   (Some new_booking) w0) in
  (exists b,
     owned_booking (request_of alice) 2 w' = Some b
     /\ Booking.status b = b_pending
     /\ Booking.total_price b = 10000)
  /\ forall env' request',
       User.id (Request.user request') <> 1 ->
       BookingViewSet.initiate_payment env' request' 2 w' = (Raise Http404, w').
Proof.
  apply (created_booking_is_its_owners (success_at 500) (request_of alice)
           new_booking w0).
  reflexivity.
Defined.

(** ** payment_status: what it writes and whom it refuses *)

(** [payment_status] reads: whatever it answers, the tables, the queue and
    the statements sent to the database are as they were. *)
Theorem payment_status_writes_nothing request payment_id w :
  let w' := snd (payment_status request payment_id w) in
  World.payments w' = World.payments w
  /\ World.bookings w' = World.bookings w
  /\ World.users w' = World.users w
  /\ World.listings w' = World.listings w
  /\ World.statements w' = World.statements w
  /\ World.queue w' = World.queue w.
Proof.
  destruct (payment_status_answers request payment_id w)
    as (r & w1 & E & _ & H).
  cbv zeta. rewrite E. exact H.
Qed.

(** A user who does not own the booking of a payment is refused with 403
    "Unauthorized", and the refusal leaves no trace, not even in the log. *)
Theorem payment_status_refuses_others request payment_id w p b owner :
  find (fun p => String.eqb (Payment.payment_id p) payment_id) (World.payments w)
  = Some p ->
  lookup (Payment.booking p) (World.bookings w) = Ok b ->
  lookup (Booking.user b) (World.users w) = Ok owner ->
  User.id owner <> User.id (Request.user request) ->
  payment_status request payment_id w
  = (Ok (Response.mk HTTP_403_FORBIDDEN [("error", VStr "Unauthorized")]), w).
Proof.
  intros Hp Hb Ho Hne.
  unfold payment_status, get_object_or_404, Payment_booking, Booking_user.
  unfold_m. rewrite Hp. simpl. rewrite Hb. simpl. rewrite Ho. simpl.
  apply Z.eqb_neq in Hne. now rewrite Hne.
Qed.

Lemma payment_status_refuses_others_witness :
  payment_status (request_of bob) "u1-1" w_pending
  = (Ok (Response.mk HTTP_403_FORBIDDEN [("error", VStr "Unauthorized")]),
     w_pending).
Proof.
  apply (payment_status_refuses_others (request_of bob) "u1-1" w_pending
           payment1 booking1 alice); try reflexivity.
  discriminate.
Defined.

(** ** What every sequence of requests preserves *)

Section Keys.
Context {A : Type} `{Model A}.

Lemma lookup_app_some (k : Z) (t l : list A) (x : A) :
  lookup k t = Ok x -> lookup k (t ++ l) = Ok x.
Proof.
  unfold lookup. rewrite find_app.
  destruct (find _ t); [auto|discriminate].
Qed.

Lemma lookup_In (k : Z) (t : list A) (x : A) :
  lookup k t = Ok x -> In x t.
Proof.
  unfold lookup. destruct (find _ t) as [y|] eqn:F; [|discriminate].
  intro E. inversion E; subst. now apply find_some in F.
Qed.

Lemma In_lookup (x : A) (t : list A) :
  In x t -> exists y, lookup (pk x) t = Ok y.
Proof.
  intro I. unfold lookup.
  destruct (find (fun r => pk r =? pk x) t) as [y|] eqn:F; [eauto|].
  pose proof (find_none _ _ F x I) as N. simpl in N.
  rewrite Z.eqb_refl in N. discriminate.
Qed.

Lemma NoDup_lookup (x : A) (t : list A) :
  NoDup (map pk t) -> In x t -> lookup (pk x) t = Ok x.
Proof.
  unfold lookup. induction t as [|y t IH]; simpl; [tauto|].
  intros N [->|I].
  - now rewrite Z.eqb_refl.
  - inversion N as [|? ? Hy N']; subst.
    destruct (pk y =? pk x) eqn:E.
    + apply Z.eqb_eq in E. exfalso. apply Hy. rewrite E. now apply in_map.
    + now apply IH.
Qed.

Lemma keys_append (r : A) (t : list A) :
  NoDup (map pk t) -> pk r = next_pk t -> NoDup (map pk (t ++ [r])).
Proof.
  intros N E. rewrite map_app. simpl.
  apply NoDup_app; [exact N|repeat constructor; auto|].
  intros k Hk [<-|[]]. apply in_map_iff in Hk. destruct Hk as (x & Hx & I).
  pose proof (next_pk_above t x I). lia.
Qed.

Lemma keys_store (r x : A) (t : list A) :
  In x t -> pk r = pk x -> map pk (store r t) = map pk t.
Proof.
  intros I E. unfold store.
  destruct (update r t) as [t'|] eqn:U.
  - clear I. revert t' U. induction t as [|y t IH]; simpl; intros t' U; [discriminate|].
    destruct (pk y =? pk r) eqn:Ey.
    + inversion U; subst. simpl. apply Z.eqb_eq in Ey. now rewrite Ey.
    + destruct (update r t) as [t''|]; [|discriminate].
      inversion U; subst. simpl. now rewrite (IH t'' eq_refl).
  - apply update_find in U. pose proof (find_none _ _ U x I) as N.
    simpl in N. rewrite E, Z.eqb_refl in N. discriminate.
Qed.

End Keys.

Lemma same_details_refl (p : Payment.t) : same_details p p.
Proof. unfold same_details. repeat split. Qed.

Lemma same_details_trans (p q r : Payment.t) :
  same_details p q -> same_details q r -> same_details p r.
Proof.
  unfold same_details.
  intros (A1 & A2 & A3 & A4 & A5 & A6 & A7 & A8 & A9)
         (B1 & B2 & B3 & B4 & B5 & B6 & B7 & B8 & B9).
  repeat split; congruence.
Qed.

(** How one request can change the two tables: a booking is appended under
    a fresh key or the row of an existing key is confirmed; a payment is
    appended under a fresh key, pointing to an existing booking, or the
    row of an existing payment is replaced by one with the same details. *)
Lemma serve_shape w c :
  let w' := serve w c in
  (World.bookings w' = World.bookings w
   \/ (exists b, World.bookings w' = World.bookings w ++ [b]
                 /\ Booking.id b = next_pk (World.bookings w))
   \/ (exists b, lookup (Booking.id b) (World.bookings w) = Ok b
                 /\ World.bookings w'
                    = store (Booking.with_status b_confirmed b) (World.bookings w)))
  /\ (World.payments w' = World.payments w
      \/ (exists p b, World.payments w' = World.payments w ++ [p]
                      /\ Payment.id p = next_pk (World.payments w)
                      /\ In b (World.bookings w)
                      /\ Payment.booking p = Booking.id b)
      \/ (exists p q, In p (World.payments w)
                      /\ same_details p q
                      /\ World.payments w' = store q (World.payments w))).
Proof.
  destruct c as [env request v|env request k|env request|request payment_id];
    cbv zeta; simpl.
  - (* create *)
    destruct v as [v|]; [|simpl; auto].
    unfold BookingViewSet.create, BookingViewSet.perform_create, serializer_save,
      Booking_listing.
    unfold_m.
    destruct (Env.db_error env insert_booking); simpl; [auto|].
    destruct (lookup (Validated.listing v) (World.listings w)); simpl;
      (split; [right; left; eexists; split; reflexivity|now left]).
  - (* initiate_payment *)
    destruct (initiate_payment_cases env request k w)
      as (Hb & _ & _ & _ & _ & H).
    split; [now left|].
    destruct H as [(_ & _ & S)|[(b & r & _ & _ & _ & P)|(b & u & Hown & _ & _ & P)]].
    + left. now rewrite S.
    + now left.
    + right; left. apply owned_booking_spec in Hown. destruct Hown as (I & _).
      exists (new_payment env b u w), b. repeat split; auto.
  - (* verify_payment *)
    destruct (verify_payment_cases env request w)
      as [(e & _ & E)|(r & _ & _ & _ & _ & H)].
    { rewrite E. simpl. split; now left. }
    destruct H as [(P & B & _)|(tx & p & _ & Hp & H)]; [split; now left|].
    apply find_some in Hp. destruct Hp as [Ip _].
    destruct H as [(_ & P & B & _)
                  |(rd & pinfo & m & _ & _ & _ & P
                    & [(_ & B & _)|(b & Hb & _ & B & _)])].
    + split; [now left|]. right; right.
      exists p, (saved_failed env p). repeat split; auto.
    + split; [now left|]. right; right.
      exists p, (saved_completed env m p). repeat split; auto.
    + split.
      * right; right. exists b. split; [|exact B].
        pose proof (lookup_pk _ _ _ Hb) as Hk.
        change (pk b) with (Booking.id b) in Hk. now rewrite Hk.
      * right; right. exists p, (saved_completed env m p). repeat split; auto.
  - (* payment_status *)
    destruct (payment_status_answers request payment_id w)
      as (r & w1 & E & _ & P & B & _).
    rewrite E. simpl. split; now left.
Qed.

Lemma serve_lookup_booking w c k b :
  lookup k (World.bookings w) = Ok b ->
  lookup k (World.bookings (serve w c)) = Ok b
  \/ lookup k (World.bookings (serve w c))
     = Ok (Booking.with_status b_confirmed b).
Proof.
  intro L. destruct (serve_shape w c) as [[E|[(x & E & _)|(x & Lx & E)]] _];
    rewrite E.
  - now left.
  - left. now apply lookup_app_some.
  - destruct (Z.eq_dec k (Booking.id x)) as [->|N].
    + right. rewrite L in Lx. inversion Lx; subst.
      exact (lookup_store (Booking.with_status b_confirmed x) _).
    + left. rewrite lookup_store_other; auto.
Qed.

Lemma serve_sound w c : sound w -> sound (serve w c).
Proof.
  intros (Nb & Np & R).
  destruct (serve_shape w c) as [Hb Hp].
  assert (Keep : forall k, (exists b, lookup k (World.bookings w) = Ok b) ->
                           exists b, lookup k (World.bookings (serve w c)) = Ok b).
  { intros k [b L]. destruct (serve_lookup_booking w c k b L); eauto. }
  split; [|split].
  - destruct Hb as [E|[(b & E & F)|(b & L & E)]]; rewrite E.
    + exact Nb.
    + now apply keys_append.
    + change (NoDup (map pk (store (Booking.with_status b_confirmed b)
                                 (World.bookings w)))).
      rewrite (keys_store (Booking.with_status b_confirmed b) b); auto.
      now apply lookup_In in L.
  - destruct Hp as [E|[(p & b & E & F & _)|(p & q & I & D & E)]]; rewrite E.
    + exact Np.
    + now apply keys_append.
    + change (NoDup (map pk (store q (World.payments w)))).
      rewrite (keys_store q p); auto. apply D.
  - intros x Ix. apply Keep.
    destruct Hp as [E|[(p & b & E & _ & Ib & F)|(p & q & I & D & E)]];
      rewrite E in Ix.
    + exact (R x Ix).
    + apply in_app_or in Ix. destruct Ix as [Ix|[<-|[]]]; [exact (R x Ix)|].
      rewrite F. exact (In_lookup b _ Ib).
    + apply In_store in Ix. destruct Ix as [->|Ix]; [|exact (R x Ix)].
      destruct D as (_ & _ & D & _). rewrite D. exact (R p I).
Qed.

Lemma serve_details w c k p :
  sound w ->
  lookup k (World.payments w) = Ok p ->
  exists q, lookup k (World.payments (serve w c)) = Ok q /\ same_details p q.
Proof.
  intros (_ & Np & _) L.
  destruct (serve_shape w c) as [_ [E|[(x & b & E & _)|(x & q & I & D & E)]]];
    rewrite E.
  - exists p. split; [exact L|apply same_details_refl].
  - exists p. split; [now apply lookup_app_some|apply same_details_refl].
  - assert (Hq : Payment.id q = Payment.id x) by apply D.
    destruct (Z.eq_dec k (Payment.id x)) as [->|N].
    + pose proof (@NoDup_lookup Payment.t Payment_Model x _ Np I) as Lx.
      change (pk x) with (Payment.id x) in Lx.
      rewrite Lx in L. inversion L; subst.
      exists q. split; [|exact D].
      rewrite <- Hq. exact (lookup_store q _).
    + exists p. split; [|apply same_details_refl].
      rewrite lookup_store_other; auto. change (pk q) with (Payment.id q). lia.
Qed.

(** Whatever requests arrive, in whatever order and with whatever answers
    of the gateway and failures of the database, primary keys stay unique
    and every payment keeps pointing to a booking that exists. *)
Theorem serve_all_keeps_sound calls w :
  sound w -> sound (serve_all calls w).
Proof.
  unfold serve_all. revert w.
  induction calls as [|c calls IH]; intros w S; simpl; [exact S|].
  apply IH. now apply serve_sound.
Qed.

Lemma sound_w_pending : sound w_pending.
Proof.
  split; [|split].
  - simpl. repeat constructor. simpl. tauto.
  - simpl. repeat constructor. simpl. tauto.
  - intros p [<-|[]]. exists booking1. reflexivity.
Qed.

Lemma serve_all_keeps_sound_witness : sound (serve_all busy_day w_pending).
Proof.
  apply (serve_all_keeps_sound busy_day w_pending). exact sound_w_pending.
Defined.

(** The four handlers written in views.py ([create], [initiate_payment],
    [verify_payment] and [payment_status]) delete no payment and leave
    what it was created with as it is: after any sequence of requests to
    them its primary key still denotes a row with the same payment id,
    booking, transaction reference, amount, currency, checkout URL and
    creation time. Only its status, method and [updated_at] can differ.
    The inherited [destroy] is not one of the four: it deletes a booking,
    and with it, by [on_delete=CASCADE], the booking's payments. *)
Theorem payment_details_never_change calls w k p :
  sound w ->
  lookup k (World.payments w) = Ok p ->
  exists q,
    lookup k (World.payments (serve_all calls w)) = Ok q /\ same_details p q.
Proof.
  unfold serve_all. revert w p.
  induction calls as [|c calls IH]; intros w p S L; simpl.
  - exists p. split; [exact L|apply same_details_refl].
  - destruct (serve_details w c k p S L) as (q & Lq & D).
    destruct (IH (serve w c) q (serve_sound w c S) Lq) as (r & Lr & D').
    exists r. split; [exact Lr|]. exact (same_details_trans p q r D D').
Qed.

Lemma payment_details_never_change_witness :
  exists q,
    lookup 1 (World.payments (serve_all busy_day w_pending)) = Ok q
    /\ same_details payment1 q.
Proof.
  apply (payment_details_never_change busy_day w_pending 1 payment1).
  - exact sound_w_pending.
  - reflexivity.
Defined.

(** The four handlers written in views.py ([create], [initiate_payment],
    [verify_payment] and [payment_status]) delete no booking and change
    none except that its status may become confirmed: after any sequence
    of requests to them its primary key denotes the booking as it was, or
    as it was but for the status, which is confirmed. None of the four
    cancels a booking or sets a confirmed one back to pending; the
    inherited [update], [partial_update] and [destroy] are not among
    them. *)
Theorem bookings_only_get_confirmed calls w k b :
  lookup k (World.bookings w) = Ok b ->
  lookup k (World.bookings (serve_all calls w)) = Ok b
  \/ lookup k (World.bookings (serve_all calls w))
     = Ok (Booking.mk (Booking.id b) (Booking.booking_id b)
             (Booking.listing b) (Booking.user b) (Booking.check_in b)
             (Booking.check_out b) (Booking.guests b)
             (Booking.total_price b) b_confirmed (Booking.created_at b)).
Proof.
  change (Booking.mk (Booking.id b) (Booking.booking_id b)
            (Booking.listing b) (Booking.user b) (Booking.check_in b)
            (Booking.check_out b) (Booking.guests b)
            (Booking.total_price b) b_confirmed (Booking.created_at b))
    with (Booking.with_status b_confirmed b).
  unfold serve_all. revert w b.
  induction calls as [|c calls IH]; intros w b L; simpl; [now left|].
  destruct (serve_lookup_booking w c k b L) as [L'|L'].
  - exact (IH _ _ L').
  - right. destruct (IH _ _ L') as [E|E]; exact E.
Qed.

Lemma bookings_only_get_confirmed_witness :
  lookup 1 (World.bookings (serve_all busy_day w_pending)) = Ok booking1
  \/ lookup 1 (World.bookings (serve_all busy_day w_pending))
     = Ok (Booking.mk 1 "b-0001" 1 1 "2025-01-10" "2025-01-12" 2 10000
             b_confirmed 10).
Proof.
  apply (bookings_only_get_confirmed busy_day w_pending 1 booking1).
  reflexivity.
Defined.

(** ** The task *)

(** The task sends one mail or fails loudly, unless there is nobody to
    send to. For an address that is not empty: when the transport accepts,
    exactly one mail has gone out, to the user's address alone, from the
    default sender, under the subject "Booking Confirmation - " followed
    by the listing name, and the task returns "Email sent successfully to "
    followed by the address; when the transport raises, nothing has gone
    out, the failure is logged and the same exception is raised again, so
    that the worker sees the task fail. For an empty address the transport
    is not asked and no mail goes out, yet the task logs and returns its
    success. *)
Theorem send_booking_confirmation_email_outcome
    env booking_id user_email listing_name check_in_date check_out_date w :
  let mail :=
    Tasks.mkMail (String.append "Booking Confirmation - " listing_name)
      (Tasks.message_text booking_id listing_name check_in_date check_out_date)
      (Tasks.DEFAULT_FROM_EMAIL env) [user_email] in
  let out := Tasks.send_booking_confirmation_email env booking_id user_email
               listing_name check_in_date check_out_date w in
  if String.eqb user_email "" then
    fst out = Ok "Email sent successfully to "
    /\ Tasks.outbox (snd out) = Tasks.outbox w
    /\ Tasks.log (snd out)
       = Tasks.log w ++ [(INFO, "Booking confirmation email sent successfully")]
  else
    match Tasks.transport env mail with
    | Ok _ =>
        fst out = Ok (String.append "Email sent successfully to " user_email)
        /\ Tasks.outbox (snd out) = Tasks.outbox w ++ [mail]
        /\ Tasks.log (snd out)
           = Tasks.log w ++ [(INFO, "Booking confirmation email sent successfully")]
    | Raise e =>
        fst out = Raise e
        /\ Tasks.outbox (snd out) = Tasks.outbox w
        /\ Tasks.log (snd out)
           = Tasks.log w ++ [(ERROR, "Failed to send booking confirmation email")]
    end.
Proof.
  cbv zeta.
  unfold Tasks.send_booking_confirmation_email, Tasks.send_mail,
    Tasks.recipients.
  simpl. destruct (String.eqb_spec user_email "") as [->|N]; simpl.
  - repeat split.
  - destruct (Tasks.transport env _); simpl; repeat split.
Qed.

Lemma initiate_payment_answer_matches_row_witness :
  exists p,
    World.payments
      (snd (BookingViewSet.initiate_payment
              (env_at 100 "u1" initialize_ok (verify_reports "success"))
              (request_of alice) 1 w0)) = [p]
    /\ Payment.booking p = 1.
Proof.
  pose proof (initiate_payment_answer_matches_row
                (env_at 100 "u1" initialize_ok (verify_reports "success"))
                (request_of alice) 1 w0) as H.
  vm_compute in H. destruct H as [H _].
  destruct (H eq_refl) as (p & E & B & _).
  exists p. split; [exact E|exact B].
Defined.
